(** * tk-gaffer: menu synchronisation and context refresh

    A shallow embedding of the parts of [engine.py] and
    [python/tk_gaffer/menu_generation.py] that build the Shotgun menu,
    guard the build with [_creating_menu], poll the active document and
    refresh the engine, together with the properties stated about them.

    Conventions of the embedding.
    - Python objects mutated in place ([MenuGenerator], the engine) are
      records threaded through a state-and-exception monad; a raised
      exception keeps every mutation made before the raise.
    - Dictionaries keyed by name are [gmap string _]; the app table of the
      engine, whose iteration order is observable, is an association list.
    - Calls into the host (Qt, Gaffer, the Toolkit core, [os.path]) are
      fields of a record of oracles or explicit events in a trace.
    - Log records keep the literal part of the message; a value that is
      formatted into it is kept when it is a string of the model. *)

From Stdlib Require Import String Ascii List Arith Lia Bool.
From stdpp Require Import base option list gmap strings pretty.
Import ListNotations.

Local Open Scope string_scope.
Local Open Scope list_scope.

(** ** Exceptions *)

(** The exception classes the sources distinguish: [tank.TankError] (caught
    by [refresh_engine]), other subclasses of [Exception] (caught by
    [Callback._execute_within_exception_trap]) and the classes that derive
    from [BaseException] only. *)
Inductive exn : Type :=
| TankError (msg : string)
| AttributeError (msg : string)
| KeyError (msg : string)
| IndexError (msg : string)
| RuntimeError (msg : string)
| SystemExit
| KeyboardInterrupt.

(** [isinstance(x, Exception)] *)
Definition is_Exception (x : exn) : bool :=
  match x with
  | SystemExit | KeyboardInterrupt => false
  | _ => true
  end.

(** [isinstance(x, tank.TankError)] *)
Definition is_TankError (x : exn) : bool :=
  match x with
  | TankError _ => true
  | _ => false
  end.

(** ** State and exception monad *)

Inductive result (A : Type) : Type :=
| Ok (a : A)
| Raise (x : exn).
Arguments Ok {A} a.
Arguments Raise {A} x.

Definition M (S A : Type) : Type := S -> result A * S.

Definition ret {S A} (a : A) : M S A := fun s => (Ok a, s).

Definition raise {S A} (x : exn) : M S A := fun s => (Raise x, s).

Definition bind {S A B} (m : M S A) (k : A -> M S B) : M S B :=
  fun s =>
    match m s with
    | (Ok a, s') => k a s'
    | (Raise x, s') => (Raise x, s')
    end.

Definition gets {S A} (f : S -> A) : M S A := fun s => (Ok (f s), s).

Definition modify {S} (f : S -> S) : M S unit := fun s => (Ok tt, f s).

(** [try: body except C: handler], where [catches] decides
    [isinstance(x, C)]. *)
Definition try_except {S A} (body : M S A) (catches : exn -> bool)
    (handler : exn -> M S A) : M S A :=
  fun s =>
    match body s with
    | (Ok a, s') => (Ok a, s')
    | (Raise x, s') => if catches x then handler x s' else (Raise x, s')
    end.

Declare Scope py_scope.
Delimit Scope py_scope with py.
Notation "x <- m ;; k" := (bind m (fun x => k))
  (at level 100, m at next level, right associativity) : py_scope.
Notation "m ;; k" := (bind m (fun _ => k))
  (at level 100, right associativity) : py_scope.
Local Open Scope py_scope.

(** [for x in l: body x] *)
Fixpoint for_each {S A} (l : list A) (body : A -> M S unit) : M S unit :=
  match l with
  | [] => ret tt
  | x :: l' => body x ;; for_each l' body
  end.

(** A loop that rebuilds the list it walks: the objects of [l] are mutated
    by [body] and stay in their positions. *)
Fixpoint for_each_upd {S A} (l : list A) (body : A -> M S A) : M S (list A) :=
  match l with
  | [] => ret []
  | x :: l' => x' <- body x ;; l'' <- for_each_upd l' body ;; ret (x' :: l'')
  end.

(** A loop threading an accumulator that lives in a local variable. *)
Fixpoint for_each_acc {S A B} (l : list A) (acc : B) (body : B -> A -> M S B)
    : M S B :=
  match l with
  | [] => ret acc
  | x :: l' => acc' <- body acc x ;; for_each_acc l' acc' body
  end.

(** ** [list.sort(key=...)] and [sorted] on string keys

    Python's sort is stable and compares keys with [<]; on [str] that is
    the lexicographic order of the code points. *)
Fixpoint insert_by {A} (key : A -> string) (x : A) (l : list A) : list A :=
  match l with
  | [] => [x]
  | y :: l' =>
      if String.ltb (key x) (key y) then x :: l else y :: insert_by key x l'
  end.

Definition sort_by {A} (key : A -> string) (l : list A) : list A :=
  fold_left (fun acc x => insert_by key x acc) l [].

(** ** Data of [menu_generation.py] *)

(** An app instance object; [app_uid] stands for the identity of the Python
    object, which is what [==] compares. *)
Record App : Type := mkApp {
  app_uid : nat;
  display_name : string
}.

Global Instance App_eq_dec : EqDecision App.
Proof. solve_decision. Defined.

(** The callables that end up behind a menu item. *)
Inductive callback : Type :=
| JumpToShotgun
| JumpToFileSystem
| AppCallback (uid : nat).

Global Instance callback_eq_dec : EqDecision callback.
Proof. solve_decision. Defined.

(** The [properties] dictionary of a registered command, one field per key
    that the menu generator reads.  A callback stored under
    [enable_callback] or [checkable_callback] is called during the build;
    the field holds what that call does: return a value or raise. *)
Record Properties : Type := mkProperties {
  prop_app : option App;
  prop_type : option string;
  prop_tooltip : option string;
  prop_short_cut : option string;
  prop_enable_callback : option (result bool);
  prop_checkable : option bool;
  prop_checkable_callback : option (result bool)
}.

Definition no_properties : Properties :=
  mkProperties None None None None None None None.

(** A value of [engine.commands]: [{"properties": ..., "callback": ...}]. *)
Record CommandDict : Type := mkCommandDict {
  cd_properties : Properties;
  cd_callback : option callback
}.

(** The description dictionary appended to the menu definition. *)
Record MenuItem : Type := mkMenuItem {
  command : option callback;
  label : string;
  searchText : option string;
  description : option string;
  shortCut : option string;
  active : option bool;
  checkBox : option bool
}.

Inductive Entry : Type :=
| Divider
| Item (d : MenuItem).

(** [IECore.MenuDefinition]: the ordered list of (path, description). *)
Abbreviation MenuDefinition := (list (string * Entry)).

Record MenuGenerator : Type := mkMenuGenerator {
  _menu_name : string;
  _menu_def : option MenuDefinition;
  _divider_id : nat;
  _menu_item_id : nat;
  _context_menu : option string
}.

(** [MenuGenerator.__init__] *)
Definition MenuGenerator_init (menu_name : string) : MenuGenerator :=
  mkMenuGenerator menu_name None 1 1 None.

Record AppCommand : Type := mkAppCommand {
  name : string;
  properties : Properties;
  cmd_callback : option callback;
  favourite : bool
}.

(** [AppCommand.__init__] *)
Definition AppCommand_init (cmd_name : string) (command_dict : CommandDict)
    : AppCommand :=
  mkAppCommand cmd_name (cd_properties command_dict)
    (cd_callback command_dict) false.

Record Entity : Type := mkEntity {
  entity_name : option string
}.

Record Context : Type := mkContext {
  ctx_str : string;
  filesystem_locations : list string;
  shotgun_url : string;
  project : option Entity
}.

Global Instance Entity_eq_dec : EqDecision Entity.
Proof. solve_decision. Defined.

Global Instance Context_eq_dec : EqDecision Context.
Proof. solve_decision. Defined.

(** An entry of the [menu_favourites] setting. *)
Record Favourite : Type := mkFavourite {
  fav_app_instance : string;
  fav_name : string
}.

(** ** Data of [engine.py] *)

(** The active [Gaffer.ScriptNode]: the value of its [fileName] plug, and
    whether [GafferUI.ScriptWindow.acquire(script).menuBar()._qtWidget()]
    is a widget rather than [None]. *)
Record Script : Type := mkScript {
  fileName : string;
  menubar_widget : bool
}.

(** What [QtCore.QTimer.singleShot] has been asked to run. *)
Inductive Task : Type :=
| ExecuteWithinExceptionTrap (cb : callback)
| CreateShotgunMenu.

Inductive Warning : Type :=
| CouldNotDetectContext (current : Context)
| CouldNotChangeContext (target : Context).

Inductive LogRecord : Type :=
| LogDebug (msg : string)
| LogException (msg : string)
| DisplayWarning (w : Warning).

Global Instance Warning_eq_dec : EqDecision Warning.
Proof. solve_decision. Defined.

Global Instance LogRecord_eq_dec : EqDecision LogRecord.
Proof. solve_decision. Defined.

(** The engine object together with the process-wide state it reaches:
    whether [tank.platform.current_engine()] returns it, the timers it has
    armed and the log. *)
Record Engine : Type := mkEngine {
  commands : gmap string CommandDict;
  apps : list (string * App);
  context : Context;
  menu_favourites : list Favourite;
  automatic_context_switch : bool;
  is_current_engine : bool;
  engine_menu_name : string;
  _script : option Script;
  _application : bool;
  _application_menu : option bool;
  _menu_generator : option MenuGenerator;
  _creating_menu : bool;
  active_document_filename : string;
  active_doc_timer : option nat;
  single_shots : list (nat * Task);
  log : list LogRecord
}.

Definition set_context (c : Context) (e : Engine) : Engine :=
  mkEngine (commands e) (apps e) c (menu_favourites e)
    (automatic_context_switch e) (is_current_engine e)
    (engine_menu_name e) (_script e)
    (_application e) (_application_menu e) (_menu_generator e)
    (_creating_menu e) (active_document_filename e) (active_doc_timer e)
    (single_shots e) (log e).

Definition set_application_menu_enabled (b : bool) (e : Engine) : Engine :=
  mkEngine (commands e) (apps e) (context e) (menu_favourites e)
    (automatic_context_switch e) (is_current_engine e)
    (engine_menu_name e) (_script e)
    (_application e) (Some b) (_menu_generator e)
    (_creating_menu e) (active_document_filename e) (active_doc_timer e)
    (single_shots e) (log e).

Definition set_menu_generator (g : option MenuGenerator) (e : Engine)
    : Engine :=
  mkEngine (commands e) (apps e) (context e) (menu_favourites e)
    (automatic_context_switch e) (is_current_engine e)
    (engine_menu_name e) (_script e)
    (_application e) (_application_menu e) g
    (_creating_menu e) (active_document_filename e) (active_doc_timer e)
    (single_shots e) (log e).

Definition set_creating_menu (b : bool) (e : Engine) : Engine :=
  mkEngine (commands e) (apps e) (context e) (menu_favourites e)
    (automatic_context_switch e) (is_current_engine e)
    (engine_menu_name e) (_script e)
    (_application e) (_application_menu e) (_menu_generator e)
    b (active_document_filename e) (active_doc_timer e)
    (single_shots e) (log e).

Definition set_active_document_filename (p : string) (e : Engine) : Engine :=
  mkEngine (commands e) (apps e) (context e) (menu_favourites e)
    (automatic_context_switch e) (is_current_engine e)
    (engine_menu_name e) (_script e)
    (_application e) (_application_menu e) (_menu_generator e)
    (_creating_menu e) p (active_doc_timer e)
    (single_shots e) (log e).

Definition start_active_doc_timer (ms : nat) (e : Engine) : Engine :=
  mkEngine (commands e) (apps e) (context e) (menu_favourites e)
    (automatic_context_switch e) (is_current_engine e)
    (engine_menu_name e) (_script e)
    (_application e) (_application_menu e) (_menu_generator e)
    (_creating_menu e) (active_document_filename e) (Some ms)
    (single_shots e) (log e).

Definition add_single_shot (ms : nat) (t : Task) (e : Engine) : Engine :=
  mkEngine (commands e) (apps e) (context e) (menu_favourites e)
    (automatic_context_switch e) (is_current_engine e)
    (engine_menu_name e) (_script e)
    (_application e) (_application_menu e) (_menu_generator e)
    (_creating_menu e) (active_document_filename e) (active_doc_timer e)
    (single_shots e ++ [(ms, t)]) (log e).

Definition set_single_shots (q : list (nat * Task)) (e : Engine) : Engine :=
  mkEngine (commands e) (apps e) (context e) (menu_favourites e)
    (automatic_context_switch e) (is_current_engine e)
    (engine_menu_name e) (_script e)
    (_application e) (_application_menu e) (_menu_generator e)
    (_creating_menu e) (active_document_filename e) (active_doc_timer e)
    q (log e).

Definition add_log (r : LogRecord) (e : Engine) : Engine :=
  mkEngine (commands e) (apps e) (context e) (menu_favourites e)
    (automatic_context_switch e) (is_current_engine e)
    (engine_menu_name e) (_script e)
    (_application e) (_application_menu e) (_menu_generator e)
    (_creating_menu e) (active_document_filename e) (active_doc_timer e)
    (single_shots e) (log e ++ [r]).

(** ** [menu_generation.py]: the menu generator

    The methods of [MenuGenerator] run on the generator ([self]) and on the
    engine it was constructed with ([self._engine]). *)
Record GS : Type := mkGS {
  gen : MenuGenerator;
  eng : Engine
}.

Definition on_gen (f : MenuGenerator -> MenuGenerator) : M GS unit :=
  modify (fun s => mkGS (f (gen s)) (eng s)).

Definition on_eng (f : Engine -> Engine) : M GS unit :=
  modify (fun s => mkGS (gen s) (f (eng s))).

Definition set_menu_def (d : option MenuDefinition) (g : MenuGenerator)
    : MenuGenerator :=
  mkMenuGenerator (_menu_name g) d (_divider_id g) (_menu_item_id g)
    (_context_menu g).

Definition set_divider_id (n : nat) (g : MenuGenerator) : MenuGenerator :=
  mkMenuGenerator (_menu_name g) (_menu_def g) n (_menu_item_id g)
    (_context_menu g).

Definition set_menu_item_id (n : nat) (g : MenuGenerator) : MenuGenerator :=
  mkMenuGenerator (_menu_name g) (_menu_def g) (_divider_id g) n
    (_context_menu g).

Definition set_context_menu (p : option string) (g : MenuGenerator)
    : MenuGenerator :=
  mkMenuGenerator (_menu_name g) (_menu_def g) (_divider_id g)
    (_menu_item_id g) p.

(** [self._engine.log_debug(msg)] *)
Definition log_debug (msg : string) : M GS unit :=
  on_eng (add_log (LogDebug msg)).

(** [self._menu_def.append(path, item)]; before the first build
    [_menu_def] is [None], which has no [append]. *)
Definition menu_def_append (path : string) (item : Entry) : M GS unit :=
  d <- gets (fun s => _menu_def (gen s)) ;;
  match d with
  | Some entries => on_gen (set_menu_def (Some (entries ++ [(path, item)])))
  | None => raise (AttributeError "append")
  end.

(** [self._engine.application_menu.setEnabled(b)] *)
Definition application_menu_setEnabled (b : bool) : M GS unit :=
  m <- gets (fun s => _application_menu (eng s)) ;;
  match m with
  | Some _ => on_eng (set_application_menu_enabled b)
  | None => raise (AttributeError "setEnabled")
  end.

(** [MenuGenerator._add_divider] *)
Definition _add_divider (parent_menu : string) : M GS unit :=
  on_gen (fun g => set_divider_id (_divider_id g + 1) g) ;;
  n <- gets (fun s => _divider_id (gen s)) ;;
  menu_def_append (parent_menu +:+ "/divider" +:+ pretty n) Divider.

(** [MenuGenerator._add_sub_menu] *)
Definition _add_sub_menu (menu_name parent_menu : string) : string :=
  parent_menu +:+ "/" +:+ menu_name.

(** Calling a stored build-time callback. *)
Definition call {A} (r : result A) : M GS A :=
  match r with
  | Ok a => ret a
  | Raise x => raise x
  end.

(** [MenuGenerator._add_menu_item].  The test [if properties:] only skips a
    block that does nothing on a dictionary without the keys it looks for,
    so the block is entered unconditionally here. *)
Definition _add_menu_item (item_name parent_menu : string)
    (cb : option callback) (props : option Properties) : M GS unit :=
  on_gen (fun g => set_menu_item_id (_menu_item_id g + 1) g) ;;
  let d0 := mkMenuItem cb item_name (Some item_name) None None None None in
  d <- match props with
       | None => ret d0
       | Some p =>
           let d1 := mkMenuItem (command d0) (label d0) (searchText d0)
                       (prop_tooltip p) (prop_short_cut p) None None in
           act <- match prop_enable_callback p with
                  | Some r => b <- call r ;; ret (Some b)
                  | None => ret None
                  end ;;
           chk <- match prop_checkable p with
                  | Some v => ret (Some v)
                  | None =>
                      match prop_checkable_callback p with
                      | Some r => b <- call r ;; ret (Some b)
                      | None => ret None
                      end
                  end ;;
           ret (mkMenuItem (command d1) (label d1) (searchText d1)
                  (description d1) (shortCut d1) act chk)
       end ;;
  n <- gets (fun s => _menu_item_id (gen s)) ;;
  menu_def_append (parent_menu +:+ "/" +:+ item_name +:+ pretty n) (Item d).

(** [AppCommand.get_app_name] *)
Definition get_app_name (c : AppCommand) : option string :=
  match prop_app (properties c) with
  | Some a => Some (display_name a)
  | None => None
  end.

(** [AppCommand.get_app_instance_name]: the first name under which the
    engine's app table holds the command's app object. *)
Definition get_app_instance_name (e : Engine) (c : AppCommand)
    : option string :=
  match prop_app (properties c) with
  | None => None
  | Some app_instance =>
      match filter (fun kv => bool_decide (kv.2 = app_instance)) (apps e) with
      | (app_instance_name, _) :: _ => Some app_instance_name
      | [] => None
      end
  end.

(** [AppCommand.get_type] *)
Definition get_type (c : AppCommand) : string :=
  match prop_type (properties c) with
  | Some t => t
  | None => "default"
  end.

(** [AppCommand.add_command_to_menu] *)
Definition add_command_to_menu (c : AppCommand) (menu : string) : M GS unit :=
  _add_menu_item (name c) menu (cmd_callback c) (Some (properties c)).

(** [MenuGenerator._add_context_menu] *)
Definition _add_context_menu (parent_menu : string) : M GS string :=
  ctx <- gets (fun s => context (eng s)) ;;
  let ctx_name := ctx_str ctx in
  let ctx_menu := _add_sub_menu ctx_name parent_menu in
  _add_menu_item "Jump to Shotgun" ctx_menu (Some JumpToShotgun) None ;;
  (match filesystem_locations ctx with
   | [] => ret tt
   | _ :: _ =>
       _add_menu_item "Jump to File System" ctx_menu (Some JumpToFileSystem)
         (Some (mkProperties None None (Some "my tooliotoop") None None None
                  None))
   end) ;;
  _add_divider ctx_menu ;;
  ret ctx_menu.

Definition mark_favourite (c : AppCommand) : AppCommand :=
  mkAppCommand (name c) (properties c) (cmd_callback c) true.

(** The test of the favourites scan:
    [cmd.get_app_instance_name() == app_instance_name and cmd.name == menu_name] *)
Definition matches_favourite (e : Engine) (fav : Favourite) (c : AppCommand)
    : bool :=
  bool_decide (get_app_instance_name e c = Some (fav_app_instance fav))
  && bool_decide (name c = fav_name fav).

(** The group a command that is not of type [context_menu] is filed under. *)
Definition group_name (c : AppCommand) : string :=
  match get_app_name c with
  | Some n => n
  | None => "Other Items"
  end.

(** [MenuGenerator._add_app_menu] *)
Definition _add_app_menu (commands_by_app : gmap string (list AppCommand))
    : M GS unit :=
  for_each (sort_by id (map fst (map_to_list commands_by_app)))
    (fun app_name =>
       match commands_by_app !! app_name with
       | None => raise (KeyError app_name)
       | Some cmds =>
           if (1 <? length cmds)%nat then
             let app_menu := _add_sub_menu app_name "" in
             let cmds := sort_by name cmds in
             for_each cmds (fun cmd => add_command_to_menu cmd app_menu)
           else
             match cmds with
             | cmd_obj :: _ =>
                 if favourite cmd_obj then ret tt
                 else add_command_to_menu cmd_obj ""
             | [] => raise (IndexError "list index out of range")
             end
       end) ;;
  _add_divider "".

(** The three loops of [create_menu]. *)
Definition enumerate_commands : M GS (list AppCommand) :=
  cmds <- gets (fun s => map_to_list (commands (eng s))) ;;
  menu_items <- for_each_acc cmds []
    (fun items kv =>
       log_debug ("engine command: " +:+ kv.1) ;;
       ret (items ++ [AppCommand_init kv.1 kv.2])) ;;
  ret (sort_by name menu_items).

Definition add_favourites (menu_favourites : list Favourite)
    (menu_items : list AppCommand) : M GS (list AppCommand) :=
  for_each_acc menu_favourites menu_items
    (fun items fav =>
       for_each_upd items
         (fun cmd =>
            log_debug ("cmd: " +:+ name cmd) ;;
            found <- gets (fun s => matches_favourite (eng s) fav cmd) ;;
            if (found : bool) then
              add_command_to_menu cmd "" ;;
              ret (mark_favourite cmd)
            else ret cmd)).

Definition separate_commands (menu_items : list AppCommand)
    : M GS (gmap string (list AppCommand)) :=
  for_each_acc menu_items (∅ : gmap string (list AppCommand))
    (fun commands_by_app cmd =>
       if bool_decide (get_type cmd = "context_menu") then
         cm <- gets (fun s => _context_menu (gen s)) ;;
         match cm with
         | Some ctx_menu =>
             add_command_to_menu cmd ctx_menu ;; ret commands_by_app
         | None => raise (AttributeError "_context_menu")
         end
       else
         let app_name := group_name cmd in
         let group := default [] (commands_by_app !! app_name) in
         ret (<[app_name := group ++ [cmd]]> commands_by_app)).

(** [MenuGenerator.create_menu].  [QApplication.processEvents()] is taken
    to deliver no event that reaches the generator or the engine. *)
Definition create_menu (disabled : bool) : M GS unit :=
  on_gen (set_menu_def (Some [])) ;;
  if negb disabled then
    application_menu_setEnabled false ;;
    ctx_menu <- _add_context_menu "" ;;
    on_gen (set_context_menu (Some ctx_menu)) ;;
    _add_divider "" ;;
    menu_items <- enumerate_commands ;;
    menu_favourites <- gets (fun s => menu_favourites (eng s)) ;;
    menu_items <- add_favourites menu_favourites menu_items ;;
    (if (0 <? length menu_favourites)%nat then _add_divider "" else ret tt) ;;
    commands_by_app <- separate_commands menu_items ;;
    log_debug "about to add app menu" ;;
    _add_app_menu commands_by_app ;;
    application_menu_setEnabled true
  else
    menu_def_append "/menu_disabled"
      (Item (mkMenuItem None "Sgtk is disabled." None None None None None)).

(** [MenuGenerator.get_menu_definition] *)
Definition get_menu_definition (g : MenuGenerator) : option MenuDefinition :=
  _menu_def g.

(** ** [engine.py] *)

(** [is_batch_mode] *)
Definition is_batch_mode : bool := false.

(** [GafferEngine.has_ui] *)
Definition has_ui : bool := negb is_batch_mode.

(** [tk_gaffer.can_create_menu]:
    [script and get_menubar(script) is not None] *)
Definition can_create_menu (script : option Script) : bool :=
  match script with
  | Some s => menubar_widget s
  | None => false
  end.

(** [logger.debug] and [self.logger.debug] *)
Definition logger_debug (msg : string) : M Engine unit :=
  modify (add_log (LogDebug msg)).

(** [display_warning] *)
Definition display_warning (w : Warning) : M Engine unit :=
  modify (add_log (DisplayWarning w)).

(** Running a method of the generator held in [self._menu_generator]: the
    engine and the method share the one generator object, so whatever the
    method did to it before returning or raising is what the engine holds
    afterwards. *)
Definition with_menu_generator {A} (m : M GS A) : M Engine A :=
  fun e =>
    match _menu_generator e with
    | None => (Raise (AttributeError "_menu_generator"), e)
    | Some g =>
        let '(r, s) := m (mkGS g e) in
        (r, set_menu_generator (Some (gen s)) (eng s))
    end.

(** [GafferEngine.create_shotgun_menu] *)
Definition create_shotgun_menu (disabled : bool) : M Engine bool :=
  if has_ui then
    script <- gets _script ;;
    (if can_create_menu script then
       logger_debug "Creating shotgun menu..." ;;
       modify (set_creating_menu true) ;;
       menu_name <- gets engine_menu_name ;;
       modify (set_menu_generator (Some (MenuGenerator_init menu_name))) ;;
       with_menu_generator (create_menu disabled) ;;
       modify (set_creating_menu false) ;;
       logger_debug "Starting active doc timer..." ;;
       modify (start_active_doc_timer 1000)
     else
       logger_debug "Waiting for menu to be created..." ;;
       modify (add_single_shot 200 CreateShotgunMenu)) ;;
    ret true
  else ret false.

(** [GafferEngine.post_context_change] *)
Definition post_context_change (old_context new_context : Context)
    : M Engine unit :=
  auto <- gets automatic_context_switch ;;
  if auto then
    if bool_decide (old_context <> new_context) then
      modify (set_menu_generator None) ;;
      create_shotgun_menu false ;;
      ret tt
    else ret tt
  else ret tt.

(** The Toolkit instance returned by [tank.sgtk_from_path]. *)
Record Tk : Type := mkTk {
  pipeline_configuration : string
}.

(** What the sources call outside the repository: [os.path], the Toolkit
    core and the callbacks registered by the apps. *)
Record Host : Type := mkHost {
  os_path_exists : string -> bool;
  os_path_abspath : string -> string;
  sgtk_from_path : string -> result Tk;
  context_from_path : Tk -> string -> Context -> result (option Context);
  context_from_entity_dictionary : Tk -> Entity -> result Context;
  engine_change_context : Context -> M Engine unit;
  run_callback : callback -> M Engine unit;
  process_events : M Engine unit
}.

(** Calling a function of the host that returns or raises. *)
Definition host_call {A} (r : result A) : M Engine A :=
  fun e => (r, e).

(** The format strings of the debug lines of [refresh_engine]. *)
Definition msg_refreshing : string := "Refreshing the engine".
Definition msg_extracted : string :=
  "Extracted sgtk instance: '%r' from path: '%r'".
Definition msg_given_path : string :=
  "Given the path: '%s' the following context was extracted: '%r'".
Definition msg_project_fallback : string :=
  "Could not extract a context from the current active project path, so we revert to the current project '%r' context: '%r'".

(** [refresh_engine] *)
Definition refresh_engine (h : Host) : M Engine unit :=
  logger_debug msg_refreshing ;;
  engine <- gets is_current_engine ;;
  if negb engine then
    logger_debug
      "Gaffer Refresh_engine | No currently initialized engine found; aborting the refresh of the engine"
  else
    script <- gets _script ;;
    match script with
    | None =>
        logger_debug
          "File has not been saved yet, aborting the refresh of the engine."
    | Some sc =>
        let active_doc_path := fileName sc in
        if bool_decide (active_doc_path = "") then
          logger_debug
            "File has not been saved yet, aborting the refresh of the engine."
        else
          let active_doc_path := os_path_abspath h active_doc_path in
          current_context <- gets context ;;
          resolved <-
            try_except
              (tk <- host_call (sgtk_from_path h active_doc_path) ;;
               logger_debug msg_extracted ;;
               ret (Some tk))
              is_TankError
              (fun _ =>
                 display_warning (CouldNotDetectContext current_context) ;;
                 ret None) ;;
          match resolved with
          | None => ret tt
          | Some tk =>
              ctx <- host_call
                       (context_from_path h tk active_doc_path current_context) ;;
              logger_debug msg_given_path ;;
              ctx <- match ctx with
                     | Some c => ret c
                     | None =>
                         engine_context <- gets context ;;
                         match project engine_context with
                         | None => raise (AttributeError "get")
                         | Some prj =>
                             c <- host_call
                                    (context_from_entity_dictionary h tk prj) ;;
                             logger_debug msg_project_fallback ;;
                             ret c
                         end
                     end ;;
              if bool_decide (ctx <> current_context) then
                try_except (engine_change_context h ctx) is_TankError
                  (fun _ =>
                     display_warning (CouldNotChangeContext ctx) ;;
                     create_shotgun_menu true ;;
                     ret tt)
              else ret tt
          end
    end.

(** [GafferEngine.check_if_document_changed] *)
Definition check_if_document_changed (h : Host) : M Engine unit :=
  application <- gets _application ;;
  if negb application then logger_debug "No Application loaded"
  else
    script <- gets _script ;;
    match script with
    | None => logger_debug "No Script loaded"
    | Some sc =>
        let observed := fileName sc in
        if negb (os_path_exists h observed) then ret tt
        else
          stored <- gets active_document_filename ;;
          if bool_decide (os_path_abspath h stored <> observed) then
            logger_debug "Active document changed from: %s to: %s" ;;
            modify
              (set_active_document_filename (os_path_abspath h observed)) ;;
            refresh_engine h
          else ret tt
    end.

(** [GafferEngine._on_active_doc_timer] *)
Definition _on_active_doc_timer (h : Host) : M Engine unit :=
  check_if_document_changed h.

(** [GafferEngine.get_menu].  The loop pumps the event queue until the
    build flag is down and a generator exists; [fuel] bounds the number of
    turns, and [None] is a loop that is still spinning when the fuel is
    spent.  The busy popup, which depends on the wall clock, is left out. *)
Fixpoint wait_for_menu (h : Host) (fuel : nat)
    : M Engine (option (option MenuDefinition)) :=
  creating <- gets _creating_menu ;;
  generator <- gets _menu_generator ;;
  match creating, generator with
  | false, Some g => ret (Some (get_menu_definition g))
  | _, _ =>
      match fuel with
      | O => ret None
      | S fuel' => process_events h ;; wait_for_menu h fuel'
      end
  end.

Definition get_menu (h : Host) (fuel : nat)
    : M Engine (option (option MenuDefinition)) :=
  check_if_document_changed h ;;
  wait_for_menu h fuel.

(** ** [menu_generation.py]: the [Callback] wrapper *)

(** [Callback.__call__], which takes any arguments: whatever they are, arm a zero-delay
    single-shot timer on [_execute_within_exception_trap]. *)
Definition Callback_call {A} (cb : callback) (args : list A)
    : M Engine unit :=
  modify (add_single_shot 0 (ExecuteWithinExceptionTrap cb)).

(** [Callback._execute_within_exception_trap] *)
Definition _execute_within_exception_trap (h : Host) (cb : callback)
    : M Engine unit :=
  try_except (run_callback h cb) is_Exception
    (fun _ =>
       current_engine <- gets is_current_engine ;;
       if current_engine then
         modify (add_log (LogException "An exception was raised from Toolkit"))
       else raise (AttributeError "logger")).

(** What the event loop does with a timer that fires. *)
Definition run_task (h : Host) (t : Task) : M Engine unit :=
  match t with
  | ExecuteWithinExceptionTrap cb => _execute_within_exception_trap h cb
  | CreateShotgunMenu => create_shotgun_menu false ;; ret tt
  end.

(** One turn of the event loop over the single-shot timers: the timers
    armed before the turn fire in the order they were armed; one armed
    during the turn waits for the next. *)
Definition event_loop_turn (h : Host) : M Engine unit :=
  due <- gets single_shots ;;
  modify (set_single_shots []) ;;
  for_each due (fun t => run_task h t.2).

(** ** [os.path] on POSIX *)

(** [str.split("/")] *)
Fixpoint split_slash (s : string) : list string :=
  match s with
  | EmptyString => [""]
  | String c s' =>
      if Ascii.eqb c "/" then "" :: split_slash s'
      else
        match split_slash s' with
        | [] => [String c ""]
        | w :: ws => String c w :: ws
        end
  end.

(** [posixpath.isabs] *)
Definition isabs (p : string) : bool := String.prefix "/" p.

(** [posixpath.join] of two components *)
Definition join (a b : string) : string :=
  if String.prefix "/" b then b
  else if bool_decide (a = "") then b
  else if Ascii.eqb (default "/"%char (String.get (String.length a - 1) a)) "/"
       then a +:+ b
       else a +:+ "/" +:+ b.

(** The loop body of [posixpath.normpath]. *)
Definition normpath_step (initial_slashes : nat) (new_comps : list string)
    (comp : string) : list string :=
  if bool_decide (comp = "") || bool_decide (comp = ".") then new_comps
  else if negb (bool_decide (comp = ".."))
          || (bool_decide (initial_slashes = 0) && bool_decide (new_comps = []))
          || bool_decide (last new_comps = Some "..")
       then new_comps ++ [comp]
       else removelast new_comps.

(** [posixpath.normpath] *)
Definition normpath (path : string) : string :=
  if bool_decide (path = "") then "."
  else
    let initial_slashes :=
      if String.prefix "/" path then
        if String.prefix "//" path && negb (String.prefix "///" path)
        then 2 else 1
      else 0 in
    let comps := fold_left (normpath_step initial_slashes) (split_slash path) [] in
    let path := String.concat "/" comps in
    let path :=
      match initial_slashes with
      | 0 => path
      | 1 => "/" +:+ path
      | _ => "//" +:+ path
      end in
    if bool_decide (path = "") then "." else path.

(** [posixpath.abspath] with [os.getcwd()] returning [cwd] *)
Definition abspath (cwd path : string) : string :=
  if isabs path then normpath path else normpath (join cwd path).


(** [script["fileName"].setValue(p)] on the active script, done by the
    host between two polls. *)
Definition set_fileName (p : string) (e : Engine) : Engine :=
  mkEngine (commands e) (apps e) (context e) (menu_favourites e)
    (automatic_context_switch e) (is_current_engine e)
    (engine_menu_name e)
    (match _script e with
     | Some sc => Some (mkScript p (menubar_widget sc))
     | None => None
     end)
    (_application e) (_application_menu e) (_menu_generator e)
    (_creating_menu e) (active_document_filename e) (active_doc_timer e)
    (single_shots e) (log e).

(** A sequence of timer ticks, the script showing [p] at the tick for each
    [p] of [observations]. *)
Definition polls (h : Host) (observations : list string) : M Engine unit :=
  for_each observations
    (fun p => modify (set_fileName p) ;; _on_active_doc_timer h).

(** The number of times [refresh_engine] was entered, read off the log:
    its first statement writes this record and nothing else does. *)
Definition refresh_count (l : list LogRecord) : nat :=
  length (filter (fun r => r = LogDebug msg_refreshing) l).

(** ** Concrete inputs *)

Definition appA : App := mkApp 1 "AppA".
Definition appB : App := mkApp 2 "AppB".

Definition plain_command (a : App) (cb : nat) : CommandDict :=
  mkCommandDict (mkProperties (Some a) None None None None None None)
    (Some (AppCallback cb)).

(** An engine after [post_app_init], with a script window whose menu bar
    exists, holding the given context, favourites and registry. *)
Definition engine_with (ctx : Context) (favs : list Favourite)
    (cmds : gmap string CommandDict) : Engine :=
  mkEngine cmds [("AppA", appA); ("AppB", appB)] ctx favs true true "Shotgun"
    (Some (mkScript "/proj/shot.gfr" true)) true (Some true) None false
    "untitled" None [] [].

(** The registry {(AppA, Open), (AppA, Save), (AppB, Render)}. *)
Definition scenario_registry (open save render : nat)
    : gmap string CommandDict :=
  <["Open" := plain_command appA open]>
    (<["Save" := plain_command appA save]>
       (<["Render" := plain_command appB render]> ∅)).

Definition scenario_engine (ctx : Context) (open save render : nat) : Engine :=
  engine_with ctx [mkFavourite "AppB" "Render"]
    (scenario_registry open save render).

Definition shot_context : Context :=
  mkContext "Shot 010" ["/proj/shot010"] "https://sg/shot/10"
    (Some (mkEntity (Some "proj"))).

Definition plain_item (n : string) (cb : callback) : Entry :=
  Item (mkMenuItem (Some cb) n (Some n) None None None None).

(** The placeholder of the disabled menu. *)
Definition disabled_placeholder : string * Entry :=
  ("/menu_disabled",
   Item (mkMenuItem None "Sgtk is disabled." None None None None None)).

(** A POSIX host in directory [cwd] whose file system holds [files]
    (normalised absolute paths), where no path belongs to a pipeline
    configuration, a context change is refused and callbacks do nothing. *)
Definition posix_host (cwd : string) (files : list string) : Host :=
  mkHost (fun p => bool_decide (abspath cwd p ∈ files)) (abspath cwd)
    (fun _ => Raise (TankError "path is not associated with a pipeline"))
    (fun _ _ _ => Ok None)
    (fun _ _ => Raise (TankError "no project"))
    (fun _ => raise (TankError "context change not supported"))
    (fun _ => ret tt)
    (ret tt).

(** A command whose [enable_callback] raises when the generator calls it. *)
Definition broken_command : CommandDict :=
  mkCommandDict
    (mkProperties (Some appA) None None None
       (Some (Raise (RuntimeError "enable_callback failed"))) None None)
    (Some (AppCallback 1)).

(** The POSIX host with a callback that ends the interpreter
    ([sys.exit()], which raises [SystemExit]). *)
Definition quitting_host : Host :=
  mkHost (fun p => bool_decide (abspath "/home/u" p ∈ ["/proj/shot.gfr"]))
    (abspath "/home/u")
    (fun _ => Raise (TankError "path is not associated with a pipeline"))
    (fun _ _ _ => Ok None)
    (fun _ _ => Raise (TankError "no project"))
    (fun _ => raise (TankError "context change not supported"))
    (fun _ => raise SystemExit)
    (ret tt).

(** The POSIX host with a callback that raises an [Exception]. *)
Definition failing_callback_host : Host :=
  mkHost (fun p => bool_decide (abspath "/home/u" p ∈ ["/proj/shot.gfr"]))
    (abspath "/home/u")
    (fun _ => Raise (TankError "path is not associated with a pipeline"))
    (fun _ _ _ => Ok None)
    (fun _ _ => Raise (TankError "no project"))
    (fun _ => raise (TankError "context change not supported"))
    (fun _ => raise (RuntimeError "publish failed"))
    (ret tt).

Definition asset_context : Context :=
  mkContext "Asset chair" ["/proj/assets/chair"] "https://sg/asset/7"
    (Some (mkEntity (Some "proj"))).

(** A host that resolves every path to [asset_context] and whose
    [change_context] raises [x]. *)
Definition resolving_host (x : exn) : Host :=
  mkHost (fun p => bool_decide (abspath "/home/u" p ∈ ["/proj/shot.gfr"]))
    (abspath "/home/u")
    (fun _ => Ok (mkTk "primary"))
    (fun _ _ _ => Ok (Some asset_context))
    (fun _ _ => Ok asset_context)
    (fun _ => raise x)
    (fun _ => ret tt)
    (ret tt).

(** The warnings shown, in order. *)
Definition warnings (l : list LogRecord) : list Warning :=
  omap (fun r => match r with DisplayWarning w => Some w | _ => None end) l.

(** ** Vocabulary of the statements *)

(** An invariant of the state that a computation keeps, whether it
    returns or raises. *)
Definition preserves {S A} (I : S -> Prop) (m : M S A) : Prop :=
  forall s, I s -> I (snd (m s)).

(** Two runs agree: both return, with values related by [V] and final
    states related by [Q], or both raise the same exception, with final
    states related by [E]. *)
Definition agree {S A} (V : A -> A -> Prop) (Q E : S -> S -> Prop)
    (r1 r2 : result A * S) : Prop :=
  match fst r1, fst r2 with
  | Ok a1, Ok a2 => V a1 a2 /\ Q (snd r1) (snd r2)
  | Raise x1, Raise x2 => x1 = x2 /\ E (snd r1) (snd r2)
  | _, _ => False
  end.

Definition rel_run {S A} (P : S -> S -> Prop) (V : A -> A -> Prop)
    (Q E : S -> S -> Prop) (m1 m2 : M S A) : Prop :=
  forall s1 s2, P s1 s2 -> agree V Q E (m1 s1) (m2 s2).

(** Everything of the engine that a build may not change: all of it but
    the log and the enabled state of a bound application menu. *)
Definition frame_view (e : Engine) :=
  (commands e, apps e, context e, menu_favourites e,
   (automatic_context_switch e, is_current_engine e, engine_menu_name e,
    _script e, _application e),
   (bool_decide (is_Some (_application_menu e)), _menu_generator e,
    _creating_menu e, active_document_filename e, active_doc_timer e,
    single_shots e)).

(** What a build reads from the engine, the favourites apart. *)
Definition same_inputs (e1 e2 : Engine) : Prop :=
  commands e1 = commands e2 /\ apps e1 = apps e2 /\ context e1 = context e2 /\
  bool_decide (is_Some (_application_menu e1))
  = bool_decide (is_Some (_application_menu e2)).

(** The descriptions of a menu definition, in order, without the paths. *)
Definition descriptions (g : MenuGenerator) : option (list Entry) :=
  map snd <$> _menu_def g.

Definition is_item (pe : string * Entry) : bool :=
  match pe.2 with
  | Item _ => true
  | Divider => false
  end.

(** The items of a menu definition, in order, with their paths. *)
Definition items (g : MenuGenerator) : option MenuDefinition :=
  filter (fun pe => is_item pe = true) <$> _menu_def g.

(** Three ways for two generators to be alike. *)
Definition same_definition (g1 g2 : MenuGenerator) : Prop :=
  _divider_id g1 = _divider_id g2 /\ _menu_item_id g1 = _menu_item_id g2 /\
  _menu_def g1 = _menu_def g2.

Definition same_descriptions (g1 g2 : MenuGenerator) : Prop :=
  descriptions g1 = descriptions g2.

Definition same_items (g1 g2 : MenuGenerator) : Prop :=
  is_Some (_menu_def g1) /\
  _menu_item_id g1 = _menu_item_id g2 /\ items g1 = items g2.

(** The sorted list of commands that [create_menu] enumerates. *)
Definition registry_commands (e : Engine) : list AppCommand :=
  sort_by name
    (map (fun kv => AppCommand_init kv.1 kv.2) (map_to_list (commands e))).

(** Two states of two builds, one on an engine that stays [e1] up to the
    log and the enabled state of the menu, the other on [e2] likewise,
    whose generators are alike in the sense of [Qg]; [with_ctx] adds that
    they hold the same context submenu. *)
Definition related (Qg : MenuGenerator -> MenuGenerator -> Prop)
    (with_ctx : bool) (e1 e2 : Engine) (s1 s2 : GS) : Prop :=
  frame_view (eng s1) = frame_view e1 /\
  frame_view (eng s2) = frame_view e2 /\
  Qg (gen s1) (gen s2) /\
  (with_ctx = true -> _context_menu (gen s1) = _context_menu (gen s2)).

(** The description [_add_menu_item] builds, or the exception raised by
    the first build-time callback that fails. *)
Definition item_description (item_name : string) (cb : option callback)
    (props : option Properties) : result MenuItem :=
  match props with
  | None => Ok (mkMenuItem cb item_name (Some item_name) None None None None)
  | Some p =>
      match prop_enable_callback p with
      | Some (Raise x) => Raise x
      | enable =>
          let act := match enable with Some (Ok b) => Some b | _ => None end in
          match prop_checkable p, prop_checkable_callback p with
          | Some v, _ =>
              Ok (mkMenuItem cb item_name (Some item_name) (prop_tooltip p)
                    (prop_short_cut p) act (Some v))
          | None, Some (Raise x) => Raise x
          | None, Some (Ok b) =>
              Ok (mkMenuItem cb item_name (Some item_name) (prop_tooltip p)
                    (prop_short_cut p) act (Some b))
          | None, None =>
              Ok (mkMenuItem cb item_name (Some item_name) (prop_tooltip p)
                    (prop_short_cut p) act None)
          end
      end
  end.

(** The generator after one more entry under a bumped counter. *)
Definition with_divider (path : string) (g : MenuGenerator) : MenuGenerator :=
  mkMenuGenerator (_menu_name g)
    ((fun d => d ++ [(path, Divider)]) <$> _menu_def g)
    (_divider_id g + 1) (_menu_item_id g) (_context_menu g).

Definition with_item (path : string) (d : MenuItem) (g : MenuGenerator)
    : MenuGenerator :=
  mkMenuGenerator (_menu_name g)
    ((fun defs => defs ++ [(path, Item d)]) <$> _menu_def g)
    (_divider_id g) (_menu_item_id g + 1) (_context_menu g).

(** The engine with another [menu_favourites] setting. *)
Definition set_menu_favourites (favs : list Favourite) (e : Engine) : Engine :=
  mkEngine (commands e) (apps e) (context e) favs
    (automatic_context_switch e) (is_current_engine e)
    (engine_menu_name e) (_script e)
    (_application e) (_application_menu e) (_menu_generator e)
    (_creating_menu e) (active_document_filename e) (active_doc_timer e)
    (single_shots e) (log e).

(** Counting entries: a divider weighs [pd], an item labelled [n]
    weighs [pl n]. *)
Definition entry_weight (pd : nat) (pl : string -> nat) (en : Entry) : nat :=
  match en with
  | Divider => pd
  | Item d => pl (label d)
  end.

Definition weight (pd : nat) (pl : string -> nat) (g : MenuGenerator) : nat :=
  sum_list_with (fun pe => entry_weight pd pl pe.2) (default [] (_menu_def g)).

(** The number of dividers in the definition of a generator. *)
Definition divider_count (g : MenuGenerator) : nat :=
  weight 1 (fun _ => 0) g.

Definition label_is (n m : string) : nat :=
  if bool_decide (m = n) then 1 else 0.

(** The number of items labelled [n] in the definition of a generator. *)
Definition occurrences (n : string) (g : MenuGenerator) : nat :=
  weight 0 (label_is n) g.

Definition is_context_menu (c : AppCommand) : bool :=
  bool_decide (get_type c = "context_menu").

(** A command after the scan of the favourites [favs]. *)
Definition mark_by (e : Engine) (favs : list Favourite) (c : AppCommand)
    : AppCommand :=
  if existsb (fun fav => matches_favourite e fav c) favs
  then mark_favourite c else c.

(** The number of entries of [favs] that match the command. *)
Definition hits (e : Engine) (favs : list Favourite) (c : AppCommand) : nat :=
  sum_list_with (fun fav => if matches_favourite e fav c then 1 else 0) favs.

(** The dictionary [commands_by_app] that the second scan of
    [create_menu] leaves. *)
Definition file_command (m : gmap string (list AppCommand)) (c : AppCommand)
    : gmap string (list AppCommand) :=
  if is_context_menu c then m
  else <[group_name c := default [] (m !! group_name c) ++ [c]]> m.

Definition groups_of (l : list AppCommand) : gmap string (list AppCommand) :=
  fold_left file_command l ∅.

(** The commands of a list that are filed under the group [a]. *)
Definition group_members (a : string) (l : list AppCommand)
    : list AppCommand :=
  filter (fun c => is_context_menu c = false /\ group_name c = a) l.

(** The number of registered commands filed under the group of [c]. *)
Definition group_size (e : Engine) (c : AppCommand) : nat :=
  length (group_members (group_name c) (registry_commands e)).

(** The weight of what [_add_app_menu] emits for the group [a]. *)
Definition group_weight (pl : string -> nat)
    (m : gmap string (list AppCommand)) (a : string) : nat :=
  match m !! a with
  | None => 0
  | Some cmds =>
      if (1 <? length cmds)%nat
      then sum_list_with (fun c => pl (name c)) (sort_by name cmds)
      else match cmds with
           | c :: _ => if favourite c then 0 else pl (name c)
           | [] => 0
           end
  end.

(** The weight of what [_add_context_menu] emits. *)
Definition context_menu_weight (pd : nat) (pl : string -> nat) (ctx : Context)
    : nat :=
  pl "Jump to Shotgun"
  + match filesystem_locations ctx with
    | [] => 0
    | _ :: _ => pl "Jump to File System"
    end
  + pd.

(** The weight of what the scan for one favourite adds over the
    commands [l]. *)
Definition favourite_weight (pl : string -> nat) (e0 : Engine)
    (l : list AppCommand) (fav : Favourite) : nat :=
  sum_list_with
    (fun c => if matches_favourite e0 fav c then pl (name c) else 0) l.

(** The state [s'] holds what [s] held and entries of weight [w] more;
    the engine is the same but for the log and the enabled state of the
    menu, and the generator points at the same context submenu. *)
Definition grows (pd : nat) (pl : string -> nat) (w : nat) (s s' : GS)
    : Prop :=
  weight pd pl (gen s') = weight pd pl (gen s) + w /\
  frame_view (eng s') = frame_view (eng s) /\
  _context_menu (gen s') = _context_menu (gen s).

(** An engine after [post_app_init] in a session where no script window
    has bound a script yet. *)
Definition engine_without_script (ctx : Context) (favs : list Favourite)
    (cmds : gmap string CommandDict) : Engine :=
  mkEngine cmds [("AppA", appA); ("AppB", appB)] ctx favs true true "Shotgun"
    None false None None false "untitled" None [] [].

(** The site context, which has no project. *)
Definition site_context : Context :=
  mkContext "Site" [] "https://sg" None.

(** A host whose pipeline configuration accepts every path but resolves
    none of them to a context. *)
Definition unresolving_host : Host :=
  mkHost (fun p => bool_decide (abspath "/home/u" p ∈ ["/proj/shot.gfr"]))
    (abspath "/home/u")
    (fun _ => Ok (mkTk "primary"))
    (fun _ _ _ => Ok None)
    (fun _ _ => Ok asset_context)
    (fun _ => ret tt)
    (fun _ => ret tt)
    (ret tt).

(** ** [engine.py]: the setters, and the bridge that calls them *)

Definition with_script (sc : option Script) (e : Engine) : Engine :=
  mkEngine (commands e) (apps e) (context e) (menu_favourites e)
    (automatic_context_switch e) (is_current_engine e)
    (engine_menu_name e) sc
    (_application e) (_application_menu e) (_menu_generator e)
    (_creating_menu e) (active_document_filename e) (active_doc_timer e)
    (single_shots e) (log e).

Definition with_application (a : bool) (e : Engine) : Engine :=
  mkEngine (commands e) (apps e) (context e) (menu_favourites e)
    (automatic_context_switch e) (is_current_engine e)
    (engine_menu_name e) (_script e)
    a (_application_menu e) (_menu_generator e)
    (_creating_menu e) (active_document_filename e) (active_doc_timer e)
    (single_shots e) (log e).

Definition with_application_menu (m : option bool) (e : Engine) : Engine :=
  mkEngine (commands e) (apps e) (context e) (menu_favourites e)
    (automatic_context_switch e) (is_current_engine e)
    (engine_menu_name e) (_script e)
    (_application e) m (_menu_generator e)
    (_creating_menu e) (active_document_filename e) (active_doc_timer e)
    (single_shots e) (log e).

(** [GafferEngine.set_script_window].  Nothing of the engine or of the menu
    generator reads the window back, so the state keeps no field for it. *)
Definition set_script_window : M Engine unit :=
  logger_debug "setting script_window: %s".

(** [GafferEngine.set_active_script] *)
Definition set_active_script (script : option Script) : M Engine unit :=
  logger_debug "setting script: %s" ;;
  modify (with_script script).

(** [GafferEngine.set_application]; the argument tells whether the
    application root handed in is an object rather than [None]. *)
Definition set_application (application : bool) : M Engine unit :=
  logger_debug "setting application: %s" ;;
  modify (with_application application).

(** [GafferEngine.set_application_menu]; the argument is the enabled
    state of the menu handed in. *)
Definition set_application_menu (enabled : bool) : M Engine unit :=
  logger_debug "setting application menu: %s" ;;
  modify (with_application_menu (Some enabled)).

(** [shotgunMenuCallable] of [startup/gaffer/gui/shotgun_bridge.py], called
    by Gaffer with the menu each time the menu is about to be shown. *)
Definition shotgunMenuCallable (h : Host) (fuel : nat) (script : Script)
    (application menu_enabled : bool)
    : M Engine (option (option MenuDefinition)) :=
  engine <- gets is_current_engine ;;
  if negb engine then raise (AttributeError "set_script_window")
  else
    set_script_window ;;
    set_active_script (Some script) ;;
    set_application application ;;
    set_application_menu menu_enabled ;;
    get_menu h fuel.

(** A POSIX host with no files whose [processEvents] runs a turn of the
    event loop over the single-shot timers. *)
Definition pumping_host : Host :=
  mkHost (fun p => bool_decide (abspath "/home/u" p ∈ []))
    (abspath "/home/u")
    (fun _ => Raise (TankError "path is not associated with a pipeline"))
    (fun _ _ _ => Ok None)
    (fun _ _ => Raise (TankError "no project"))
    (fun _ => raise (TankError "context change not supported"))
    (fun _ => ret tt)
    (event_loop_turn (posix_host "/home/u" [])).


(** ** [engine.py]: the commands run at start-up *)

Module Startup.

(** An entry of the [run_at_startup] setting. *)
Record Setting : Type := mkSetting {
  app_instance : string;
  setting_name : string
}.

(** What [self.logger.warning] is called with. *)
Inductive Warned : Type :=
| AppNotInstalled (app_instance_name : string)
| UnknownCommand (app_instance_name setting_cmd_name : string)
    (known_commands : list string).

(** What comes out of [command_function()] when it does not return: the
    exception of the callback, or the [TypeError] of calling [None]. *)
Inductive failure : Type :=
| CallbackRaised (x : exn)
| NotCallable.

(** The engine the callbacks act on, and the warnings logged so far. *)
Record State : Type := mkState {
  engine : Engine;
  warned : list Warned
}.

Definition warn (w : Warned) (s : State) : State :=
  mkState (engine s) (warned s ++ [w]).

Definition msg_startup_running : string :=
  "('%s startup running app '%s' command '%s'.', ...)".

Definition debug_running (s : State) : State :=
  mkState (add_log (LogDebug msg_startup_running) (engine s)) (warned s).

(** A dictionary that is iterated: keys in insertion order. *)
Fixpoint dict_get {V} (k : string) (d : list (string * V)) : option V :=
  match d with
  | [] => None
  | (k', v) :: d' => if bool_decide (k' = k) then Some v else dict_get k d'
  end.

Fixpoint dict_set {V} (k : string) (v : V) (d : list (string * V))
    : list (string * V) :=
  match d with
  | [] => [(k, v)]
  | (k', v') :: d' =>
      if bool_decide (k' = k) then (k, v) :: d' else (k', v') :: dict_set k v d'
  end.

(** One turn of the first loop:
    [app_instance_commands.setdefault(app_instance.instance_name, {})[cmd_name] = value["callback"]]
    for a command that has an app. *)
Definition file_startup_command (instance_name : App -> string)
    (acc : gmap string (list (string * option callback)))
    (kv : string * CommandDict)
    : gmap string (list (string * option callback)) :=
  match prop_app (cd_properties kv.2) with
  | Some a =>
      <[instance_name a :=
          dict_set kv.1 (cd_callback kv.2)
            (default [] (acc !! instance_name a))]> acc
  | None => acc
  end.

(** The dictionary [app_instance_commands]. *)
Definition app_instance_commands (instance_name : App -> string)
    (e : Engine) : gmap string (list (string * option callback)) :=
  fold_left (file_startup_command instance_name)
    (map_to_list (commands e)) ∅.

(** [command_function()] *)
Definition call_command (h : Host) (command_function : option callback)
    (s : State) : option failure * State :=
  match command_function with
  | None => (Some NotCallable, s)
  | Some cb =>
      match run_callback h cb (engine s) with
      | (Ok _, e') => (None, mkState e' (warned s))
      | (Raise x, e') => (Some (CallbackRaised x), mkState e' (warned s))
      end
  end.

(** The loop that runs all commands of an app instance. *)
Fixpoint run_all (h : Host) (cmd_dict : list (string * option callback))
    (s : State) : option failure * State :=
  match cmd_dict with
  | [] => (None, s)
  | (_, command_function) :: rest =>
      match call_command h command_function (debug_running s) with
      | (None, s') => run_all h rest s'
      | (Some f, s') => (Some f, s')
      end
  end.

(** The body of the loop over the [run_at_startup] setting. *)
Definition run_setting (h : Host)
    (app_instance_commands : gmap string (list (string * option callback)))
    (app_setting_dict : Setting) (s : State) : option failure * State :=
  let app_instance_name := app_instance app_setting_dict in
  let setting_cmd_name := setting_name app_setting_dict in
  match app_instance_commands !! app_instance_name with
  | None => (None, warn (AppNotInstalled app_instance_name) s)
  | Some cmd_dict =>
      if bool_decide (setting_cmd_name = "") then run_all h cmd_dict s
      else
        match dict_get setting_cmd_name cmd_dict with
        | Some (Some cb) => call_command h (Some cb) (debug_running s)
        | _ =>
            (None,
             warn (UnknownCommand app_instance_name setting_cmd_name
                     (map fst cmd_dict)) s)
        end
  end.

Fixpoint run_settings (h : Host)
    (app_instance_commands : gmap string (list (string * option callback)))
    (settings : list Setting) (s : State) : option failure * State :=
  match settings with
  | [] => (None, s)
  | st :: rest =>
      match run_setting h app_instance_commands st s with
      | (None, s') => run_settings h app_instance_commands rest s'
      | (Some f, s') => (Some f, s')
      end
  end.

(** [GafferEngine._run_app_instance_commands], for the value
    [run_at_startup] of the setting of that name. *)
Definition _run_app_instance_commands (h : Host)
    (instance_name : App -> string) (run_at_startup : list Setting)
    (s : State) : option failure * State :=
  run_settings h (app_instance_commands instance_name (engine s))
    run_at_startup s.

(** The commands of the registry whose app has the instance name
    [inst], as pairs of a name and a callback. *)
Definition instance_commands (instance_name : App -> string)
    (l : list (string * CommandDict)) (inst : string)
    : list (string * option callback) :=
  omap (fun kv =>
          match prop_app (cd_properties kv.2) with
          | Some a =>
              if bool_decide (instance_name a = inst)
              then Some (kv.1, cd_callback kv.2) else None
          | None => None
          end) l.

Definition dict_update {V} (d mine : list (string * V))
    : list (string * V) :=
  fold_left (fun d kv => dict_set kv.1 kv.2 d) mine d.

End Startup.

(** A host every callback of which returns after leaving a debug line. *)
Definition logging_host : Host :=
  mkHost (fun _ => false) (abspath "/home/u")
    (fun _ => Raise (TankError "path is not associated with a pipeline"))
    (fun _ _ _ => Ok None)
    (fun _ _ => Raise (TankError "no project"))
    (fun _ => raise (TankError "context change not supported"))
    (fun cb => modify (add_log (LogDebug "callback ran")))
    (ret tt).

(** ** [menu_generation.py]: the jump to the file system *)

Module JumpToFs.

(** What [sys.platform] and the three tests of [tank.util] answer. *)
Record Platform : Type := mkPlatform {
  system : string;
  is_linux : bool;
  is_macos : bool;
  is_windows : bool
}.

(** The exceptions of [subprocess.check_output]. *)
Inductive process_error : Type :=
| CalledProcessError (returncode : nat) (output : string)
| OSError (msg : string).

(** What [_jump_to_fs] raises. *)
Inductive raised : Type :=
| PlatformNotSupported (msg : string)
| CheckOutputRaised (x : process_error).

(** The two kinds of Python value the test [exit_code != 0] compares. *)
Inductive pyval : Type :=
| PyBytes (b : string)
| PyInt (n : nat).

(** [a != b]: values of different types are never equal. *)
Definition py_ne (a b : pyval) : bool :=
  match a, b with
  | PyBytes x, PyBytes y => negb (String.eqb x y)
  | PyInt x, PyInt y => negb (Nat.eqb x y)
  | _, _ => true
  end.

(** The commands handed to [check_output] and the command lines passed
    to [logger.error], in order. *)
Record Trace : Type := mkTrace {
  launched : list (list string);
  errors : list (list string)
}.

Definition dquote : string := String "034"%char "".

(** The [args] of a location, or [None] on a platform that none of the
    three tests recognises. *)
Definition launch_args (p : Platform) (disk_location : string)
    : option (list string) :=
  if is_linux p then Some ["xdg-open"; disk_location]
  else if is_macos p then
    Some ["open " +:+ dquote +:+ "%s" +:+ dquote; disk_location]
  else if is_windows p then
    Some ["cmd.exe"; "/C"; "start";
          dquote +:+ "Folder " +:+ disk_location +:+ dquote]
  else None.

(** The loop of [_jump_to_fs] over the locations. *)
Fixpoint launch_each (p : Platform)
    (check_output : list string -> process_error + string)
    (paths : list string) (t : Trace) : option raised * Trace :=
  match paths with
  | [] => (None, t)
  | disk_location :: rest =>
      match launch_args p disk_location with
      | None =>
          (Some (PlatformNotSupported
                   ("Platform '" +:+ system p +:+ "' is not supported.")), t)
      | Some args =>
          let t1 := mkTrace (launched t ++ [args]) (errors t) in
          match check_output args with
          | inl x => (Some (CheckOutputRaised x), t1)
          | inr exit_code =>
              launch_each p check_output rest
                (if py_ne (PyBytes exit_code) (PyInt 0)
                 then mkTrace (launched t1) (errors t1 ++ [args])
                 else t1)
          end
      end
  end.

(** [MenuGenerator._jump_to_fs] *)
Definition _jump_to_fs (p : Platform)
    (check_output : list string -> process_error + string)
    (ctx : Context) (t : Trace) : option raised * Trace :=
  launch_each p check_output (filesystem_locations ctx) t.

Definition linux : Platform := mkPlatform "linux2" true false false.

Definition freebsd : Platform := mkPlatform "freebsd12" false false false.

(** A [check_output] under which every command exits with status 0 and
    prints nothing. *)
Definition quiet_success (args : list string) : process_error + string :=
  inr "".

End JumpToFs.

(** ** [engine.py]: the log messages shown in Gaffer *)

Module Logging.

(** The fields of a [logging.LogRecord] that the engine reads. *)
Record LogRecord : Type := mkLogRecord {
  levelno : nat;
  basename : string;
  message : string
}.

(** The levels of [logging]. *)
Definition DEBUG : nat := 10.
Definition INFO : nat := 20.
Definition WARNING : nat := 30.
Definition ERROR : nat := 40.

(** The functions of [IECore.Log]. *)
Inductive Level : Type :=
| LogError
| LogWarning
| LogInfo
| LogDebug.

(** The messages handed to [IECore.Log] and the lines printed. *)
Record Out : Type := mkOut {
  iecore : list (Level * string);
  stdout : list string
}.

Definition APPLICATION_NAME : string := "Gaffer".

(** ["%s - Shotgun <kind> | %s engine | %s " % (t, APPLICATION_NAME, msg)] *)
Definition headed (t kind msg : string) : string :=
  t +:+ " - Shotgun " +:+ kind +:+ " | " +:+ APPLICATION_NAME
    +:+ " engine | " +:+ msg +:+ " ".

(** [display_error], at the time [t] that [time.asctime] gives. *)
Definition display_error (t msg : string) (o : Out) : Out :=
  let message := headed t "Error" msg in
  mkOut (iecore o ++ [(LogError, message)]) (stdout o ++ [message]).

(** [display_warning] *)
Definition display_warning (t msg : string) (o : Out) : Out :=
  let message := headed t "Warning" msg in
  mkOut (iecore o ++ [(LogWarning, message)]) (stdout o).

(** [display_info] *)
Definition display_info (t msg : string) (o : Out) : Out :=
  let message := headed t "Information" msg in
  mkOut (iecore o ++ [(LogInfo, message)]) (stdout o).

(** [display_debug], where [tk_debug] is [os.environ.get("TK_DEBUG")]. *)
Definition display_debug (tk_debug : option string) (t msg : string)
    (o : Out) : Out :=
  if bool_decide (tk_debug = Some "1") then
    let message := headed t "Debug" msg in
    mkOut (iecore o ++ [(LogDebug, message)]) (stdout o)
  else o.

(** [logging.Formatter(...).format(record)] for the two format strings of
    [_emit_log_message]. *)
Definition format_record (debug_prefix : bool) (record : LogRecord)
    : string :=
  (if debug_prefix then "Debug: Shotgun " else "Shotgun ")
    +:+ basename record +:+ ": " +:+ message record.

(** [GafferEngine._emit_log_message], with the display function run in
    the main thread at time [t]. *)
Definition _emit_log_message (tk_debug : option string) (t : string)
    (record : LogRecord) (o : Out) : Out :=
  let msg := format_record (levelno record <? INFO)%nat record in
  if (ERROR <=? levelno record)%nat then display_error t msg o
  else if (WARNING <=? levelno record)%nat then display_warning t msg o
  else if (INFO <=? levelno record)%nat then display_info t msg o
  else display_debug tk_debug t msg o.

End Logging.

(** ** [engine.py]: closing the windows of the engine *)

Module CloseWindows.

Inductive Event : Type :=
| Debug (msg : string)
| PrintExc (x : exn)
| Error (dialog_window_title : string) (x : exn).

(** The dialogs and the dock widgets the engine holds, by identity, and
    what has been logged and printed. *)
Record Windows : Type := mkWindows {
  created_qt_dialogs : list nat;
  _dock_widgets : list nat;
  trace : list Event
}.

(** What Qt does when asked: the title of a dialog, and the closing of
    a dialog or of a dock widget, whose callbacks may take it off the
    lists of the engine. *)
Record Qt : Type := mkQt {
  windowTitle : nat -> result string;
  dialog_close : nat -> M Windows unit;
  dock_widget_close : nat -> M Windows unit
}.

Definition emit (ev : Event) : M Windows unit :=
  modify (fun w =>
            mkWindows (created_qt_dialogs w) (_dock_widgets w)
              (trace w ++ [ev])).

(** [GafferEngine.close_windows] *)
Definition close_windows (q : Qt) : M Windows unit :=
  emit (Debug "Closing all engine dialogs...") ;;
  opened_dialog_list <- gets created_qt_dialogs ;;
  for_each opened_dialog_list
    (fun dialog =>
       dialog_window_title <- (fun w => (windowTitle q dialog, w)) ;;
       try_except (dialog_close q dialog) is_Exception
         (fun exception =>
            emit (PrintExc exception) ;;
            emit (Error dialog_window_title exception))) ;;
  dock_widgets <- gets _dock_widgets ;;
  for_each dock_widgets (dock_widget_close q).

(** [GafferEngine.destroy_engine] *)
Definition destroy_engine (q : Qt) : M Windows unit :=
  emit (Debug "%s: Destroying...") ;;
  close_windows q.

(** A Qt in which the dialogs numbered below [n] refuse to close and the
    others, like every dock widget, close and leave the lists. *)
Definition stubborn_qt (n : nat) : Qt :=
  mkQt (fun d => Ok "Publish")
    (fun d =>
       if (d <? n)%nat then raise (RuntimeError "wrapped C/C++ object deleted")
       else modify (fun w =>
                      mkWindows (filter (fun x => x <> d) (created_qt_dialogs w))
                        (_dock_widgets w) (trace w)))
    (fun k =>
       modify (fun w =>
                 mkWindows (created_qt_dialogs w)
                   (filter (fun x => x <> k) (_dock_widgets w)) (trace w))).

End CloseWindows.

(** Two paths under the same menu and with the same name, the number
    that ends the second being [shift] more than the number that ends the
    first. *)
Definition renumbered (shift : nat) (p1 p2 : string) : Prop :=
  exists parent stem i,
    p1 = parent +:+ "/" +:+ stem +:+ pretty i /\
    p2 = parent +:+ "/" +:+ stem +:+ pretty (i + shift).

(** Two entries with the same description whose paths differ by the
    number only: by [k] for an item, by [j] for a divider. *)
Definition renumbered_entry (k j : nat) (pe1 pe2 : string * Entry) : Prop :=
  pe1.2 = pe2.2 /\
  renumbered (match pe1.2 with Divider => j | Item _ => k end) pe1.1 pe2.1.

(** Two generators whose counters are [k] and [j] apart and whose
    definitions are, entry by entry, renumbered copies. *)
Definition renumbered_copy (k j : nat) (g1 g2 : MenuGenerator) : Prop :=
  _menu_item_id g2 = _menu_item_id g1 + k /\
  _divider_id g2 = _divider_id g1 + j /\
  exists d1 d2,
    _menu_def g1 = Some d1 /\ _menu_def g2 = Some d2 /\
    Forall2 (renumbered_entry k j) d1 d2.

(** A generator whose counters have moved on from [i0] and [d0] by at
    least the numbers of items and of dividers it holds. *)
Definition counted (i0 d0 : nat) (g : MenuGenerator) : Prop :=
  is_Some (_menu_def g) /\
  i0 + weight 0 (fun _ => 1) g <= _menu_item_id g /\
  d0 + weight 1 (fun _ => 0) g <= _divider_id g.

(** ** The entries of an enabled build, section by section *)

(** The description of the item of a command. *)
Definition command_item (c : AppCommand) : result MenuItem :=
  item_description (name c) (cmd_callback c) (Some (properties c)).

(** The entries that consecutive calls of [add_command_to_menu] append,
    for commands paired with the menu each is added to, when the item
    counter is [id] before the first call.  In a build that returns, the
    build-time callbacks of every command added have returned. *)
Fixpoint numbered (id : nat) (placed : list (string * AppCommand))
    : MenuDefinition :=
  match placed with
  | [] => []
  | (menu, c) :: rest =>
      match command_item c with
      | Ok d => [(menu +:+ "/" +:+ name c +:+ pretty (id + 1), Item d)]
      | Raise _ => []
      end ++ numbered (id + 1) rest
  end.

(** The build-time callbacks of the commands placed have all returned. *)
Definition returned (placed : list (string * AppCommand)) : Prop :=
  Forall (fun pc => exists d, command_item pc.2 = Ok d) placed.

(** What the scans of the favourites add: for each entry of the setting
    in turn, the commands it matches, in the order of the sorted list,
    each at the top level. *)
Definition favourite_placements (e : Engine) (favs : list Favourite)
    (cmds : list AppCommand) : list (string * AppCommand) :=
  flat_map
    (fun fav =>
       map (fun c => ("", c))
         (filter (fun c => matches_favourite e fav c = true) cmds))
    favs.

(** What the second scan adds: the commands of type [context_menu], each
    in the context submenu. *)
Definition context_placements (ctx_menu : string) (cmds : list AppCommand)
    : list (string * AppCommand) :=
  map (fun c => (ctx_menu, c))
    (filter (fun c => is_context_menu c = true) cmds).

(** What [_add_app_menu] adds for one application group: its commands
    in name order inside a submenu when there are several, its one
    command at the top level when it is alone and not a favourite. *)
Definition group_placements (groups : gmap string (list AppCommand))
    (app_name : string) : list (string * AppCommand) :=
  match groups !! app_name with
  | None => []
  | Some cmds =>
      if (1 <? length cmds)%nat
      then map (fun c => (_add_sub_menu app_name "", c)) (sort_by name cmds)
      else match cmds with
           | c :: _ => if favourite c then [] else [("", c)]
           | [] => []
           end
  end.

Definition app_placements (groups : gmap string (list AppCommand))
    : list (string * AppCommand) :=
  flat_map (group_placements groups)
    (sort_by id (map fst (map_to_list groups))).

(** What [_add_context_menu] appends for a generator with the counters
    of [g]: "Jump to Shotgun", "Jump to File System" when the context has
    locations on disk, and the divider that closes the submenu. *)
Definition context_item_count (e : Engine) : nat :=
  match filesystem_locations (context e) with
  | [] => 1
  | _ :: _ => 2
  end.

Definition context_entries (g : MenuGenerator) (e : Engine) : MenuDefinition :=
  let ctx_menu := _add_sub_menu (ctx_str (context e)) "" in
  [(ctx_menu +:+ "/" +:+ "Jump to Shotgun" +:+ pretty (_menu_item_id g + 1),
    plain_item "Jump to Shotgun" JumpToShotgun)]
  ++ match filesystem_locations (context e) with
     | [] => []
     | _ :: _ =>
         [(ctx_menu +:+ "/" +:+ "Jump to File System"
             +:+ pretty (_menu_item_id g + 2),
           Item (mkMenuItem (Some JumpToFileSystem) "Jump to File System"
                   (Some "Jump to File System") (Some "my tooliotoop")
                   None None None))]
     end
  ++ [(ctx_menu +:+ "/divider" +:+ pretty (_divider_id g + 1), Divider)].

(** The state [s'] holds what [s] held and the entries [added] after
    it, the counters have moved on by [ni] and [nd], and the rest is as
    in [grows]. *)
Definition emits (added : MenuDefinition) (ni nd : nat) (s s' : GS) : Prop :=
  _menu_def (gen s') = (fun d => d ++ added) <$> _menu_def (gen s) /\
  _menu_item_id (gen s') = _menu_item_id (gen s) + ni /\
  _divider_id (gen s') = _divider_id (gen s) + nd /\
  frame_view (eng s') = frame_view (eng s) /\
  _context_menu (gen s') = _context_menu (gen s).

(** The state [s'] holds what [s] held and one item for each command
    placed. *)
Definition places (placed : list (string * AppCommand)) (s s' : GS) : Prop :=
  returned placed /\
  emits (numbered (_menu_item_id (gen s)) placed) (length placed) 0 s s'.

(** The number of commands named [n] among the commands placed. *)
Definition placed_count (n : string) (placed : list (string * AppCommand))
    : nat :=
  sum_list_with (fun pc => label_is n (name pc.2)) placed.

(** The menu in which [_add_app_menu] or the second scan puts a
    command. *)
Definition home_menu (e : Engine) (c : AppCommand) : string :=
  if is_context_menu c then _add_sub_menu (ctx_str (context e)) ""
  else if (1 <? group_size e c)%nat then _add_sub_menu (group_name c) ""
  else "".

(** The menu definition of an enabled build that returns, written out:
    the context submenu, a divider, the favourites, a divider when the
    setting lists any favourite, the commands of the context submenu and
    of the application groups, and a last divider.  Items and dividers
    are numbered on from the counters of the generator [g]. *)
Definition expected_definition (g : MenuGenerator) (e : Engine)
    : MenuDefinition :=
  let ctx_menu := _add_sub_menu (ctx_str (context e)) "" in
  let favs := menu_favourites e in
  let cmds := registry_commands e in
  let marked := map (mark_by e favs) cmds in
  let promoted := favourite_placements e favs cmds in
  let others :=
    context_placements ctx_menu marked ++ app_placements (groups_of marked) in
  let i1 := _menu_item_id g + context_item_count e in
  let f := if (0 <? length favs)%nat then 1 else 0 in
  context_entries g e
  ++ [("" +:+ "/divider" +:+ pretty (_divider_id g + 2), Divider)]
  ++ numbered i1 promoted
  ++ (if (0 <? length favs)%nat
      then [("" +:+ "/divider" +:+ pretty (_divider_id g + 3), Divider)]
      else [])
  ++ numbered (i1 + length promoted) others
  ++ [("" +:+ "/divider" +:+ pretty (_divider_id g + 3 + f), Divider)].

(** * Properties *)

(** ** The disabled menu *)

(** C9: for every generator and engine, whatever commands are registered,
    [create_menu] with [disabled] true returns normally and leaves a menu
    definition holding the single placeholder entry (no callback, label
    "Sgtk is disabled."); the engine, its registry and the counters of the
    generator are not touched. *)
Theorem create_menu_disabled_placeholder (g : MenuGenerator) (e : Engine) :
  create_menu true (mkGS g e)
  = (Ok tt, mkGS (set_menu_def (Some [disabled_placeholder]) g) e).
Proof. reflexivity. Qed.

(** ** The scenario of the three commands *)

(** C2: with the registry {(AppA, Open), (AppA, Save), (AppB, Render)}, the
    favourites [(AppB, Render)] and [disabled] false, a fresh generator
    emits, in this order: the entries of the context submenu, a divider,
    the favourite "Render" at the top level, a divider, "Open" then "Save"
    under the submenu "AppA", and a trailing divider; no entry stands for
    the group "AppB".  This holds for every context and all callbacks. *)
Theorem create_menu_scenario (ctx : Context) (open save render : nat) :
  let ctx_menu := "/" +:+ ctx_str ctx in
  let shift := match filesystem_locations ctx with [] => 0 | _ => 1 end in
  let run := create_menu false
               (mkGS (MenuGenerator_init "Shotgun")
                  (scenario_engine ctx open save render)) in
  fst run = Ok tt /\
  _menu_def (gen (snd run))
  = Some
      ([(ctx_menu +:+ "/Jump to Shotgun2",
         plain_item "Jump to Shotgun" JumpToShotgun)]
       ++ match filesystem_locations ctx with
          | [] => []
          | _ =>
              [(ctx_menu +:+ "/Jump to File System3",
                Item (mkMenuItem (Some JumpToFileSystem) "Jump to File System"
                        (Some "Jump to File System") (Some "my tooliotoop")
                        None None None))]
          end
       ++ [(ctx_menu +:+ "/divider2", Divider);
           ("/divider3", Divider);
           ("/Render" +:+ pretty (3 + shift),
            plain_item "Render" (AppCallback render));
           ("/divider4", Divider);
           ("/AppA/Open" +:+ pretty (4 + shift),
            plain_item "Open" (AppCallback open));
           ("/AppA/Save" +:+ pretty (5 + shift),
            plain_item "Save" (AppCallback save));
           ("/divider5", Divider)]).
Proof.
  destruct ctx as [cs [|loc locs] url prj]; vm_compute; split; reflexivity.
Qed.

(** ** Polling the active document *)

(** What a poll does once the application and the script are bound and
    the observed path exists: the stored name is put through [abspath],
    the observed one is compared as it is. *)
Lemma check_if_document_changed_bound (h : Host) (e : Engine) (sc : Script) :
  _application e = true ->
  _script e = Some sc ->
  os_path_exists h (fileName sc) = true ->
  check_if_document_changed h e
  = if bool_decide
         (os_path_abspath h (active_document_filename e) <> fileName sc)
    then (logger_debug "Active document changed from: %s to: %s" ;;
          modify (set_active_document_filename
                    (os_path_abspath h (fileName sc))) ;;
          refresh_engine h) e
    else (Ok tt, e).
Proof.
  intros Happ Hsc Hex. unfold check_if_document_changed, bind, gets.
  rewrite Happ. cbn. rewrite Hsc. cbn. rewrite Hex. cbn.
  destruct (bool_decide _); reflexivity.
Qed.

(** C10: when the path held by the script's [fileName] does not exist, a
    poll returns normally, keeps the stored document name and does not
    enter [refresh_engine], whatever the stored name is: the engine is
    left as it was, up to the debug line written when no application is
    bound. *)
Theorem check_if_document_changed_missing_path
    (h : Host) (e : Engine) (sc : Script) :
  _script e = Some sc ->
  os_path_exists h (fileName sc) = false ->
  check_if_document_changed h e
  = (Ok tt,
     if _application e then e
     else add_log (LogDebug "No Application loaded") e) /\
  active_document_filename (snd (check_if_document_changed h e))
  = active_document_filename e /\
  refresh_count (log (snd (check_if_document_changed h e)))
  = refresh_count (log e).
Proof.
  intros Hsc Hex.
  assert (Hrun : check_if_document_changed h e
                 = (Ok tt,
                    if _application e then e
                    else add_log (LogDebug "No Application loaded") e)).
  { unfold check_if_document_changed, bind, gets.
    destruct (_application e); cbn; [|reflexivity].
    rewrite Hsc. cbn. rewrite Hex. reflexivity. }
  rewrite Hrun. split; [reflexivity|].
  destruct (_application e); simpl; [split; reflexivity|].
  split; [reflexivity|].
  unfold refresh_count. rewrite filter_app, length_app.
  change (length (filter _ [LogDebug "No Application loaded"])) with 0. lia.
Qed.

Lemma check_if_document_changed_missing_path_witness :
  let h := posix_host "/home/u" [] in
  let e := engine_with shot_context [] ∅ in
  check_if_document_changed h e = (Ok tt, e) /\
  active_document_filename (snd (check_if_document_changed h e)) = "untitled" /\
  refresh_count (log (snd (check_if_document_changed h e))) = 0.
Proof.
  exact (check_if_document_changed_missing_path (posix_host "/home/u" [])
           (engine_with shot_context [] ∅) (mkScript "/proj/shot.gfr" true)
           eq_refl eq_refl).
Defined.

(** C1, at an observed path that exists and is not in normalised form:
    the script shows "/proj//shot.gfr" at three polls in a row.  The
    first poll stores "/proj/shot.gfr"; the later ones compare that
    stored name with the observed one as written, find them different,
    and enter [refresh_engine] again, so three refreshes answer a single
    change.  The same three polls with the path written "/proj/shot.gfr"
    refresh once. *)
Theorem polls_refresh_on_repeated_observation :
  let h := posix_host "/home/u" ["/proj/shot.gfr"] in
  let e := engine_with shot_context [] ∅ in
  let raw := polls h ["/proj//shot.gfr"; "/proj//shot.gfr"; "/proj//shot.gfr"] e in
  let normal := polls h ["/proj/shot.gfr"; "/proj/shot.gfr"; "/proj/shot.gfr"] e in
  fst raw = Ok tt /\
  active_document_filename (snd raw) = "/proj/shot.gfr" /\
  refresh_count (log (snd raw)) = 3 /\
  fst normal = Ok tt /\
  active_document_filename (snd normal) = "/proj/shot.gfr" /\
  refresh_count (log (snd normal)) = 1.
Proof. vm_compute. repeat split; reflexivity. Qed.

(** ** The build flag *)

(** While the flag is up and pumping the event queue changes nothing,
    [get_menu]'s loop never leaves: every amount of fuel is used up. *)
Lemma wait_for_menu_spins (h : Host) (fuel : nat) (e : Engine) :
  _creating_menu e = true ->
  (forall e', process_events h e' = (Ok tt, e')) ->
  wait_for_menu h fuel e = (Ok None, e).
Proof.
  intros Hflag Hidle. induction fuel as [|fuel IH]; cbn.
  - unfold bind, gets. rewrite Hflag. reflexivity.
  - unfold bind, gets. rewrite Hflag. cbn. rewrite Hidle. exact IH.
Qed.

(** C3, at a build that raises: the registry holds one command whose
    [enable_callback] raises.  [create_shotgun_menu] raises that
    exception to its caller after it has set [_creating_menu]; the
    assignment that clears the flag is never reached, so the flag is
    still up when the call has ended, and a later [get_menu] spins for
    any number of turns. *)
Theorem create_shotgun_menu_leaves_flag_on_raise :
  let e := engine_with shot_context [] {["Publish" := broken_command]} in
  let run := create_shotgun_menu false e in
  _creating_menu e = false /\
  fst run = Raise (RuntimeError "enable_callback failed") /\
  _creating_menu (snd run) = true /\
  forall fuel,
    fst (wait_for_menu (posix_host "/home/u" []) fuel (snd run)) = Ok None.
Proof.
  cbv zeta. split; [reflexivity|]. split; [vm_compute; reflexivity|].
  assert (Hflag : _creating_menu
                    (snd (create_shotgun_menu false
                            (engine_with shot_context []
                               {["Publish" := broken_command]}))) = true)
    by (vm_compute; reflexivity).
  split; [exact Hflag|]. intros fuel.
  rewrite wait_for_menu_spins; [reflexivity|exact Hflag|reflexivity].
Qed.

(** ** The callback wrapper *)

(** C8 as stated fails at a callback that raises [SystemExit]: the
    wrapper's [except Exception] does not catch it, so the turn of the
    event loop that runs the deferred callback raises it into the
    dispatch, and nothing is logged. *)
Lemma callback_SystemExit_propagates :
  let e := engine_with shot_context [] ∅ in
  let armed := Callback_call (AppCallback 7) [true] e in
  fst armed = Ok tt /\
  fst (event_loop_turn quitting_host (snd armed)) = Raise SystemExit /\
  log (snd (event_loop_turn quitting_host (snd armed))) = [].
Proof. vm_compute. repeat split; reflexivity. Qed.

Lemma set_single_shots_add_single_shot (e : Engine) (ms : nat) (t : Task) :
  single_shots e = [] ->
  set_single_shots [] (add_single_shot ms t e) = e.
Proof. destruct e; cbn. intros ->. reflexivity. Qed.

(** C8, amended: for every callback, argument list and engine with no
    other timer pending, calling the wrapper only arms a zero-delay
    single-shot timer, the same for all arguments, and runs nothing; the
    next turn of the event loop runs the callback.  If the callback
    returns, the turn returns.  If it raises an exception that derives
    from [Exception] while an engine is current, the turn ends normally
    with one exception record added to the log that the callback left;
    with no engine current the handler itself fails with
    [AttributeError].  If it raises an exception that does not derive
    from [Exception], the turn raises that exception with nothing logged;
    those exceptions are [SystemExit] and [KeyboardInterrupt]. *)
Theorem callback_deferred_and_trapped {A : Type}
    (h : Host) (cb : callback) (args : list A) (e : Engine) :
  single_shots e = [] ->
  Callback_call cb args e
  = (Ok tt, add_single_shot 0 (ExecuteWithinExceptionTrap cb) e) /\
  event_loop_turn h (snd (Callback_call cb args e))
  = match run_callback h cb e with
    | (Ok _, e1) => (Ok tt, e1)
    | (Raise x, e1) =>
        if is_Exception x then
          if is_current_engine e1 then
            (Ok tt,
             add_log (LogException "An exception was raised from Toolkit") e1)
          else (Raise (AttributeError "logger"), e1)
        else (Raise x, e1)
    end /\
  (forall x,
     is_Exception x = false <-> x = SystemExit \/ x = KeyboardInterrupt).
Proof.
  intros Hq. split; [reflexivity|]. split.
  - unfold Callback_call, modify, event_loop_turn, bind, gets. cbn.
    rewrite Hq. cbn. rewrite (set_single_shots_add_single_shot e _ _ Hq).
    unfold _execute_within_exception_trap, try_except, bind.
    destruct (run_callback h cb e) as [[[]|x] e1]; [reflexivity|].
    destruct (is_Exception x); [|reflexivity].
    unfold gets. destruct (is_current_engine e1); reflexivity.
  - intros x. split.
    + destruct x; cbn; intros H; try discriminate; auto.
    + intros [->| ->]; reflexivity.
Qed.

Lemma callback_deferred_and_trapped_witness :
  let e := engine_with shot_context [] ∅ in
  Callback_call (AppCallback 7) [1; 2] e
  = (Ok tt, add_single_shot 0 (ExecuteWithinExceptionTrap (AppCallback 7)) e) /\
  event_loop_turn failing_callback_host
    (snd (Callback_call (AppCallback 7) [1; 2] e))
  = (Ok tt, add_log (LogException "An exception was raised from Toolkit") e) /\
  event_loop_turn quitting_host
    (snd (Callback_call (AppCallback 7) [1; 2] e))
  = (Raise SystemExit, e).
Proof.
  cbv zeta.
  destruct (callback_deferred_and_trapped failing_callback_host
              (AppCallback 7) [1; 2] (engine_with shot_context [] ∅) eq_refl)
    as (Harm & Hturn & _).
  destruct (callback_deferred_and_trapped quitting_host
              (AppCallback 7) [1; 2] (engine_with shot_context [] ∅) eq_refl)
    as (_ & Hquit & _).
  split; [exact Harm|]. split.
  - rewrite Hturn. reflexivity.
  - rewrite Hquit. reflexivity.
Defined.

(** ** Refreshing the engine *)

(** C7 as stated fails when [change_context] raises an exception that is
    not a [tank.TankError]: the handler does not apply and
    [refresh_engine] raises it to its caller, without a warning. *)
Lemma refresh_engine_propagates_other_errors :
  let h := resolving_host (RuntimeError "app failed to initialise") in
  let e := engine_with shot_context [] ∅ in
  fst (refresh_engine h e) = Raise (RuntimeError "app failed to initialise") /\
  warnings (log (snd (refresh_engine h e))) = [].
Proof. vm_compute. split; reflexivity. Qed.

(** The disabled rebuild never raises. *)
Lemma create_shotgun_menu_disabled_returns (e : Engine) :
  fst (create_shotgun_menu true e) = Ok true.
Proof.
  unfold create_shotgun_menu, has_ui, is_batch_mode, bind, gets. cbn.
  destruct (can_create_menu (_script e)) eqn:Hc; reflexivity.
Qed.

Local Arguments create_shotgun_menu : simpl never.

(** C7, amended: for an engine that is current and whose script has a
    file name, [refresh_engine] absorbs a [tank.TankError] at two places.
    (a) When [sgtk_from_path] raises one, it shows a warning and returns
    with the engine otherwise as it was: the context is the same and
    [change_context] is not called.  (b) When a context different from
    the current one is resolved, from the path or, failing that, from the
    project of the current context, and [change_context] raises a
    [tank.TankError], it shows a warning, calls
    [create_shotgun_menu(disabled=True)] and returns normally.
    Every other exception comes out of [refresh_engine], with no warning
    shown and no menu rebuilt: (c) an exception of [sgtk_from_path] that
    is not a [tank.TankError]; (d) any exception of [context_from_path];
    (e) the [AttributeError] of reading the project of a context that has
    none, when the path resolves to no context; (f) any exception of
    [context_from_entity_dictionary]; (g) an exception of
    [change_context] that is not a [tank.TankError], for a context
    resolved from the path or from the project. *)
Theorem refresh_engine_absorbs_TankError (h : Host) (e : Engine) (sc : Script) :
  is_current_engine e = true ->
  _script e = Some sc ->
  fileName sc <> "" ->
  let path := os_path_abspath h (fileName sc) in
  let e0 := add_log (LogDebug msg_refreshing) e in
  let e1 := add_log (LogDebug msg_given_path)
              (add_log (LogDebug msg_extracted) e0) in
  let disabled_rebuild ctx e' :=
    snd (create_shotgun_menu true
           (add_log (DisplayWarning (CouldNotChangeContext ctx)) e')) in
  (forall msg,
     sgtk_from_path h path = Raise (TankError msg) ->
     refresh_engine h e
     = (Ok tt, add_log (DisplayWarning (CouldNotDetectContext (context e))) e0))
  /\
  (forall tk ctx msg e',
     sgtk_from_path h path = Ok tk ->
     context_from_path h tk path (context e) = Ok (Some ctx) ->
     ctx <> context e ->
     engine_change_context h ctx e1 = (Raise (TankError msg), e') ->
     refresh_engine h e = (Ok tt, disabled_rebuild ctx e'))
  /\
  (forall tk prj ctx msg e',
     sgtk_from_path h path = Ok tk ->
     context_from_path h tk path (context e) = Ok None ->
     project (context e) = Some prj ->
     context_from_entity_dictionary h tk prj = Ok ctx ->
     ctx <> context e ->
     engine_change_context h ctx (add_log (LogDebug msg_project_fallback) e1)
     = (Raise (TankError msg), e') ->
     refresh_engine h e = (Ok tt, disabled_rebuild ctx e'))
  /\
  (forall x,
     sgtk_from_path h path = Raise x ->
     is_TankError x = false ->
     refresh_engine h e = (Raise x, e0))
  /\
  (forall tk x,
     sgtk_from_path h path = Ok tk ->
     context_from_path h tk path (context e) = Raise x ->
     refresh_engine h e = (Raise x, add_log (LogDebug msg_extracted) e0))
  /\
  (forall tk,
     sgtk_from_path h path = Ok tk ->
     context_from_path h tk path (context e) = Ok None ->
     project (context e) = None ->
     refresh_engine h e = (Raise (AttributeError "get"), e1))
  /\
  (forall tk prj x,
     sgtk_from_path h path = Ok tk ->
     context_from_path h tk path (context e) = Ok None ->
     project (context e) = Some prj ->
     context_from_entity_dictionary h tk prj = Raise x ->
     refresh_engine h e = (Raise x, e1))
  /\
  (forall tk ctx x e',
     sgtk_from_path h path = Ok tk ->
     context_from_path h tk path (context e) = Ok (Some ctx) ->
     ctx <> context e ->
     engine_change_context h ctx e1 = (Raise x, e') ->
     is_TankError x = false ->
     refresh_engine h e = (Raise x, e'))
  /\
  (forall tk prj ctx x e',
     sgtk_from_path h path = Ok tk ->
     context_from_path h tk path (context e) = Ok None ->
     project (context e) = Some prj ->
     context_from_entity_dictionary h tk prj = Ok ctx ->
     ctx <> context e ->
     engine_change_context h ctx (add_log (LogDebug msg_project_fallback) e1)
     = (Raise x, e') ->
     is_TankError x = false ->
     refresh_engine h e = (Raise x, e')).
Proof.
  intros Hcur Hsc Hname. cbv zeta.
  assert (Hempty : bool_decide (fileName sc = "") = false)
    by (apply bool_decide_eq_false; exact Hname).
  assert (Hstart : refresh_engine h e
            = (let active_doc_path := os_path_abspath h (fileName sc) in
               current_context <- gets context ;;
               resolved <-
                 try_except
                   (tk <- host_call (sgtk_from_path h active_doc_path) ;;
                    logger_debug msg_extracted ;;
                    ret (Some tk))
                   is_TankError
                   (fun _ =>
                      display_warning (CouldNotDetectContext current_context) ;;
                      ret None) ;;
               match resolved with
               | None => ret tt
               | Some tk =>
                   ctx <- host_call
                            (context_from_path h tk active_doc_path
                               current_context) ;;
                   logger_debug msg_given_path ;;
                   ctx <- match ctx with
                          | Some c => ret c
                          | None =>
                              engine_context <- gets context ;;
                              match project engine_context with
                              | None => raise (AttributeError "get")
                              | Some prj =>
                                  c <- host_call
                                         (context_from_entity_dictionary h tk
                                            prj) ;;
                                  logger_debug msg_project_fallback ;;
                                  ret c
                              end
                          end ;;
                   if bool_decide (ctx <> current_context) then
                     try_except (engine_change_context h ctx) is_TankError
                       (fun _ =>
                          display_warning (CouldNotChangeContext ctx) ;;
                          create_shotgun_menu true ;;
                          ret tt)
                   else ret tt
               end)
                (add_log (LogDebug msg_refreshing) e)).
  { unfold refresh_engine. unfold bind at 1, logger_debug at 1, modify at 1.
    unfold bind at 1, gets at 1. cbn [is_current_engine add_log].
    rewrite Hcur. cbn [negb]. unfold bind at 1, gets at 1.
    cbn [_script add_log]. rewrite Hsc, Hempty. reflexivity. }
  rewrite Hstart. clear Hstart. cbv zeta.
  repeat split.
  - intros msg Hsg.
    unfold bind, gets, logger_debug, modify, try_except, host_call. cbn.
    rewrite Hsg. reflexivity.
  - intros tk ctx msg e' Hsg Hctx Hne Hchg.
    unfold bind, gets, logger_debug, modify, try_except, host_call. cbn.
    rewrite Hsg. cbn. rewrite Hctx. cbn.
    rewrite bool_decide_eq_true_2 by exact Hne.
    rewrite Hchg. cbn. unfold display_warning, modify.
    pose proof (create_shotgun_menu_disabled_returns
                  (add_log (DisplayWarning (CouldNotChangeContext ctx)) e')) as Hr.
    destruct (create_shotgun_menu true _) as [r e2]. cbn in Hr. subst r.
    reflexivity.
  - intros tk prj ctx msg e' Hsg Hctx Hprj Hent Hne Hchg.
    unfold bind, gets, logger_debug, modify, try_except, host_call. cbn.
    rewrite Hsg. cbn. rewrite Hctx. cbn.
    rewrite Hprj. cbn. rewrite Hent. cbn.
    rewrite bool_decide_eq_true_2 by exact Hne.
    rewrite Hchg. cbn. unfold display_warning, modify.
    pose proof (create_shotgun_menu_disabled_returns
                  (add_log (DisplayWarning (CouldNotChangeContext ctx)) e')) as Hr.
    destruct (create_shotgun_menu true _) as [r e2]. cbn in Hr. subst r.
    reflexivity.
  - intros x Hsg Hx.
    unfold bind, gets, logger_debug, modify, try_except, host_call. cbn.
    rewrite Hsg. cbn. rewrite Hx. reflexivity.
  - intros tk x Hsg Hctx.
    unfold bind, gets, logger_debug, modify, try_except, host_call. cbn.
    rewrite Hsg. cbn. rewrite Hctx. reflexivity.
  - intros tk Hsg Hctx Hprj.
    unfold bind, gets, logger_debug, modify, try_except, host_call. cbn.
    rewrite Hsg. cbn. rewrite Hctx. cbn. rewrite Hprj. reflexivity.
  - intros tk prj x Hsg Hctx Hprj Hent.
    unfold bind, gets, logger_debug, modify, try_except, host_call. cbn.
    rewrite Hsg. cbn. rewrite Hctx. cbn. rewrite Hprj. cbn. rewrite Hent.
    reflexivity.
  - intros tk ctx x e' Hsg Hctx Hne Hchg Hx.
    unfold bind, gets, logger_debug, modify, try_except, host_call. cbn.
    rewrite Hsg. cbn. rewrite Hctx. cbn.
    rewrite bool_decide_eq_true_2 by exact Hne.
    rewrite Hchg, Hx. reflexivity.
  - intros tk prj ctx x e' Hsg Hctx Hprj Hent Hne Hchg Hx.
    unfold bind, gets, logger_debug, modify, try_except, host_call. cbn.
    rewrite Hsg. cbn. rewrite Hctx. cbn.
    rewrite Hprj. cbn. rewrite Hent. cbn.
    rewrite bool_decide_eq_true_2 by exact Hne.
    rewrite Hchg, Hx. reflexivity.
Qed.

Lemma refresh_engine_absorbs_TankError_witness :
  let e := engine_with shot_context [] ∅ in
  let refused := resolving_host (TankError "context change refused") in
  refresh_engine (posix_host "/home/u" ["/proj/shot.gfr"]) e
  = (Ok tt,
     add_log (DisplayWarning (CouldNotDetectContext shot_context))
       (add_log (LogDebug msg_refreshing) e)) /\
  fst (refresh_engine refused e) = Ok tt /\
  warnings (log (snd (refresh_engine refused e)))
  = [CouldNotChangeContext asset_context] /\
  context (snd (refresh_engine refused e)) = shot_context /\
  (_menu_generator (snd (refresh_engine refused e)) ≫= _menu_def)
  = Some [disabled_placeholder].
Proof.
  cbv zeta.
  assert (Hname : fileName (mkScript "/proj/shot.gfr" true) <> "")
    by discriminate.
  assert (Hne : asset_context <> context (engine_with shot_context [] ∅))
    by discriminate.
  split.
  - exact (proj1 (refresh_engine_absorbs_TankError
                    (posix_host "/home/u" ["/proj/shot.gfr"])
                    (engine_with shot_context [] ∅)
                    (mkScript "/proj/shot.gfr" true) eq_refl eq_refl Hname)
             "path is not associated with a pipeline" eq_refl).
  - rewrite (proj1 (proj2 (refresh_engine_absorbs_TankError
                      (resolving_host (TankError "context change refused"))
                      (engine_with shot_context [] ∅)
                      (mkScript "/proj/shot.gfr" true) eq_refl eq_refl Hname))
               (mkTk "primary") asset_context "context change refused" _
               eq_refl eq_refl Hne eq_refl).
    vm_compute. repeat split; reflexivity.
Defined.

(** ** Invariants kept by a computation *)

Section Preserves.
Context {S : Type} (I : S -> Prop).

Lemma preserves_ret {A} (a : A) : preserves I (ret a).
Proof. intros s Hs. exact Hs. Qed.

Lemma preserves_raise {A} (x : exn) : preserves I (@raise S A x).
Proof. intros s Hs. exact Hs. Qed.

Lemma preserves_gets {A} (f : S -> A) : preserves I (gets f).
Proof. intros s Hs. exact Hs. Qed.

Lemma preserves_modify (f : S -> S) :
  (forall s, I s -> I (f s)) -> preserves I (modify f).
Proof. intros Hf s Hs. apply Hf, Hs. Qed.

Lemma preserves_bind {A B} (m : M S A) (k : A -> M S B) :
  preserves I m -> (forall a, preserves I (k a)) -> preserves I (bind m k).
Proof.
  intros Hm Hk s Hs. unfold bind. specialize (Hm s Hs).
  destruct (m s) as [[a|x] s']; cbn in *; [apply Hk, Hm|exact Hm].
Qed.

Lemma preserves_for_each {A} (l : list A) (body : A -> M S unit) :
  (forall x, preserves I (body x)) -> preserves I (for_each l body).
Proof.
  intros Hb. induction l as [|x l IH]; cbn.
  - apply preserves_ret.
  - apply preserves_bind; [apply Hb|intros _; exact IH].
Qed.

Lemma preserves_for_each_upd {A} (l : list A) (body : A -> M S A) :
  (forall x, preserves I (body x)) -> preserves I (for_each_upd l body).
Proof.
  intros Hb. induction l as [|x l IH]; cbn.
  - apply preserves_ret.
  - apply preserves_bind; [apply Hb|intros x'].
    apply preserves_bind; [exact IH|intros l'; apply preserves_ret].
Qed.

Lemma preserves_for_each_acc {A B} (l : list A) (acc : B)
    (body : B -> A -> M S B) :
  (forall b x, preserves I (body b x)) -> preserves I (for_each_acc l acc body).
Proof.
  intros Hb. revert acc. induction l as [|x l IH]; intros acc; cbn.
  - apply preserves_ret.
  - apply preserves_bind; [apply Hb|intros acc'; apply IH].
Qed.
End Preserves.

(** A build step changes the engine through [on_eng] only, and then
    only the log or the enabled state of a bound menu. *)
Section Frame.
Context (I : GS -> Prop).
Hypothesis I_gen : forall s f, I s -> I (mkGS (f (gen s)) (eng s)).
Hypothesis I_log : forall s r, I s -> I (mkGS (gen s) (add_log r (eng s))).
Hypothesis I_enabled : forall s b,
  is_Some (_application_menu (eng s)) ->
  I s -> I (mkGS (gen s) (set_application_menu_enabled b (eng s))).

Lemma preserves_on_gen f : preserves I (on_gen f).
Proof. apply preserves_modify. intros s. apply I_gen. Qed.

Lemma preserves_log_debug msg : preserves I (log_debug msg).
Proof. apply preserves_modify. intros s. apply I_log. Qed.

Lemma preserves_menu_def_append path item :
  preserves I (menu_def_append path item).
Proof.
  intros s Hs. unfold menu_def_append, bind, gets.
  destruct (_menu_def (gen s)); cbn; [apply I_gen, Hs|exact Hs].
Qed.

Lemma preserves_application_menu_setEnabled b :
  preserves I (application_menu_setEnabled b).
Proof.
  intros s Hs. unfold application_menu_setEnabled, bind, gets.
  destruct (_application_menu (eng s)) eqn:Hm; cbn; [|exact Hs].
  apply I_enabled; [rewrite Hm; eexists; reflexivity|exact Hs].
Qed.

Lemma preserves_call {A} (r : result A) : preserves I (call r).
Proof. destruct r; [apply preserves_ret|apply preserves_raise]. Qed.

Lemma preserves_add_divider p : preserves I (_add_divider p).
Proof.
  unfold _add_divider. apply preserves_bind; [apply preserves_on_gen|intros _].
  apply preserves_bind; [apply preserves_gets|intros n].
  apply preserves_menu_def_append.
Qed.

Lemma preserves_add_menu_item n p cb props :
  preserves I (_add_menu_item n p cb props).
Proof.
  unfold _add_menu_item.
  apply preserves_bind; [apply preserves_on_gen|intros _].
  apply preserves_bind.
  - destruct props as [pr|]; [|apply preserves_ret].
    apply preserves_bind.
    + destruct (prop_enable_callback pr); [|apply preserves_ret].
      apply preserves_bind; [apply preserves_call|intros b; apply preserves_ret].
    + intros act. apply preserves_bind; [|intros chk; apply preserves_ret].
      destruct (prop_checkable pr); [apply preserves_ret|].
      destruct (prop_checkable_callback pr); [|apply preserves_ret].
      apply preserves_bind; [apply preserves_call|intros b; apply preserves_ret].
  - intros d. apply preserves_bind; [apply preserves_gets|intros k].
    apply preserves_menu_def_append.
Qed.

Lemma preserves_add_command_to_menu c menu :
  preserves I (add_command_to_menu c menu).
Proof. apply preserves_add_menu_item. Qed.

Lemma preserves_add_context_menu p : preserves I (_add_context_menu p).
Proof.
  unfold _add_context_menu.
  apply preserves_bind; [apply preserves_gets|intros ctx].
  apply preserves_bind; [apply preserves_add_menu_item|intros _].
  apply preserves_bind.
  { destruct (filesystem_locations ctx);
      [apply preserves_ret|apply preserves_add_menu_item]. }
  intros _. apply preserves_bind; [apply preserves_add_divider|intros _].
  apply preserves_ret.
Qed.

Lemma preserves_enumerate_commands : preserves I enumerate_commands.
Proof.
  unfold enumerate_commands.
  apply preserves_bind; [apply preserves_gets|intros cmds].
  apply preserves_bind; [|intros l; apply preserves_ret].
  apply preserves_for_each_acc. intros acc kv.
  apply preserves_bind; [apply preserves_log_debug|intros _; apply preserves_ret].
Qed.

Lemma preserves_add_favourites favs l : preserves I (add_favourites favs l).
Proof.
  unfold add_favourites. apply preserves_for_each_acc. intros acc fav.
  apply preserves_for_each_upd. intros cmd.
  apply preserves_bind; [apply preserves_log_debug|intros _].
  apply preserves_bind; [apply preserves_gets|intros found].
  destruct found; [|apply preserves_ret].
  apply preserves_bind; [apply preserves_add_command_to_menu|intros _].
  apply preserves_ret.
Qed.

Lemma preserves_separate_commands l : preserves I (separate_commands l).
Proof.
  unfold separate_commands. apply preserves_for_each_acc. intros acc cmd.
  destruct (bool_decide _); [|apply preserves_ret].
  apply preserves_bind; [apply preserves_gets|intros cm].
  destruct cm; [|apply preserves_raise].
  apply preserves_bind; [apply preserves_add_command_to_menu|intros _].
  apply preserves_ret.
Qed.

Lemma preserves_add_app_menu cba : preserves I (_add_app_menu cba).
Proof.
  unfold _add_app_menu.
  apply preserves_bind; [|intros _; apply preserves_add_divider].
  apply preserves_for_each. intros a.
  destruct (cba !! a) as [cmds|]; [|apply preserves_raise].
  destruct (1 <? length cmds)%nat.
  - apply preserves_for_each. intros c. apply preserves_add_command_to_menu.
  - destruct cmds as [|c cmds]; [apply preserves_raise|].
    destruct (favourite c);
      [apply preserves_ret|apply preserves_add_command_to_menu].
Qed.

Lemma preserves_create_menu disabled : preserves I (create_menu disabled).
Proof.
  unfold create_menu.
  apply preserves_bind; [apply preserves_on_gen|intros _].
  destruct disabled; cbn [negb]; [apply preserves_menu_def_append|].
  apply preserves_bind; [apply preserves_application_menu_setEnabled|intros _].
  apply preserves_bind; [apply preserves_add_context_menu|intros cm].
  apply preserves_bind; [apply preserves_on_gen|intros _].
  apply preserves_bind; [apply preserves_add_divider|intros _].
  apply preserves_bind; [apply preserves_enumerate_commands|intros l].
  apply preserves_bind; [apply preserves_gets|intros favs].
  apply preserves_bind; [apply preserves_add_favourites|intros l'].
  apply preserves_bind.
  { destruct (0 <? length favs)%nat;
      [apply preserves_add_divider|apply preserves_ret]. }
  intros _.
  apply preserves_bind; [apply preserves_separate_commands|intros cba].
  apply preserves_bind; [apply preserves_log_debug|intros _].
  apply preserves_bind; [apply preserves_add_app_menu|intros _].
  apply preserves_application_menu_setEnabled.
Qed.
End Frame.

(** A build leaves the engine as it found it, up to the log and the
    enabled state of the menu. *)
Lemma create_menu_frame (disabled : bool) (s : GS) :
  frame_view (eng (snd (create_menu disabled s))) = frame_view (eng s).
Proof.
  apply (preserves_create_menu (fun s' => frame_view (eng s') = frame_view (eng s))).
  - intros s' f Hs'. exact Hs'.
  - intros s' r Hs'. rewrite <- Hs'. reflexivity.
  - intros s' b Hb Hs'. rewrite <- Hs'. unfold frame_view. cbn.
    rewrite (bool_decide_eq_true_2 _ Hb). reflexivity.
  - reflexivity.
Qed.

Lemma frame_view_creating_menu (e1 e2 : Engine) :
  frame_view e1 = frame_view e2 -> _creating_menu e1 = _creating_menu e2.
Proof. unfold frame_view. intros H. injection H. auto. Qed.

(** The flag after [create_shotgun_menu], in general: a call that builds
    and returns has lowered it, a call that raises has left it up. *)
Lemma create_shotgun_menu_flag (disabled : bool) (e : Engine) :
  match fst (create_shotgun_menu disabled e) with
  | Ok _ =>
      _creating_menu (snd (create_shotgun_menu disabled e))
      = if can_create_menu (_script e) then false else _creating_menu e
  | Raise _ => _creating_menu (snd (create_shotgun_menu disabled e)) = true
  end.
Proof.
  unfold create_shotgun_menu, has_ui, is_batch_mode. cbn [negb].
  unfold bind, gets, logger_debug, modify, with_menu_generator, ret.
  cbn -[create_menu].
  destruct (can_create_menu (_script e)); cbn -[create_menu]; [|reflexivity].
  pose proof (create_menu_frame disabled
    (mkGS (MenuGenerator_init (engine_menu_name e))
       (set_menu_generator (Some (MenuGenerator_init (engine_menu_name e)))
          (set_creating_menu true
             (add_log (LogDebug "Creating shotgun menu...") e))))) as Hf.
  apply frame_view_creating_menu in Hf. cbn -[create_menu] in Hf.
  destruct (create_menu disabled _) as [[[]|x] s]; cbn in *;
    [reflexivity|exact Hf].
Qed.

(** ** Two runs side by side *)

Section RelRun.
Context {S : Type} (E : S -> S -> Prop).

Lemma rel_ret {A} (P : S -> S -> Prop) (V : A -> A -> Prop) (a1 a2 : A) :
  V a1 a2 -> rel_run P V P E (ret a1) (ret a2).
Proof. intros HV s1 s2 HP. split; [exact HV|exact HP]. Qed.

Lemma rel_raise {A} (P : S -> S -> Prop) (V : A -> A -> Prop) (x : exn) :
  (forall s1 s2, P s1 s2 -> E s1 s2) ->
  rel_run P V P E (raise x) (raise x).
Proof. intros HE s1 s2 HP. split; [reflexivity|apply HE, HP]. Qed.

Lemma rel_gets {A} (P : S -> S -> Prop) (V : A -> A -> Prop)
    (f1 f2 : S -> A) :
  (forall s1 s2, P s1 s2 -> V (f1 s1) (f2 s2)) ->
  rel_run P V P E (gets f1) (gets f2).
Proof. intros Hf s1 s2 HP. split; [apply Hf, HP|exact HP]. Qed.

Lemma rel_modify (P Q : S -> S -> Prop) (f1 f2 : S -> S) :
  (forall s1 s2, P s1 s2 -> Q (f1 s1) (f2 s2)) ->
  rel_run P eq Q E (modify f1) (modify f2).
Proof. intros Hf s1 s2 HP. split; [reflexivity|apply Hf, HP]. Qed.

Lemma rel_bind {A B} (P Q T : S -> S -> Prop) (V : A -> A -> Prop)
    (W : B -> B -> Prop) (m1 m2 : M S A) (k1 k2 : A -> M S B) :
  rel_run P V Q E m1 m2 ->
  (forall a1 a2, V a1 a2 -> rel_run Q W T E (k1 a1) (k2 a2)) ->
  rel_run P W T E (bind m1 k1) (bind m2 k2).
Proof.
  intros Hm Hk s1 s2 HP. specialize (Hm s1 s2 HP). unfold bind.
  unfold agree in Hm.
  destruct (m1 s1) as [[a1|x1] s1'], (m2 s2) as [[a2|x2] s2'];
    cbn in Hm; try contradiction; destruct Hm as [Hv Hq].
  - apply (Hk a1 a2 Hv), Hq.
  - split; [exact Hv|exact Hq].
Qed.

Lemma rel_for_each {A} (P : S -> S -> Prop) (l : list A)
    (f1 f2 : A -> M S unit) :
  (forall x, rel_run P eq P E (f1 x) (f2 x)) ->
  rel_run P eq P E (for_each l f1) (for_each l f2).
Proof.
  intros Hf. induction l as [|x l IH]; cbn.
  - apply rel_ret. reflexivity.
  - eapply rel_bind; [apply Hf|intros _ _ _; exact IH].
Qed.

Lemma rel_for_each_upd {A} (P : S -> S -> Prop) (l : list A)
    (f1 f2 : A -> M S A) :
  (forall x, rel_run P eq P E (f1 x) (f2 x)) ->
  rel_run P eq P E (for_each_upd l f1) (for_each_upd l f2).
Proof.
  intros Hf. induction l as [|x l IH]; cbn.
  - apply rel_ret. reflexivity.
  - eapply rel_bind; [apply Hf|intros x1 x2 <-].
    eapply rel_bind; [exact IH|intros l1 l2 <-].
    apply rel_ret. reflexivity.
Qed.

Lemma rel_for_each_acc {A B} (P : S -> S -> Prop) (V : B -> B -> Prop)
    (l : list A) (f1 f2 : B -> A -> M S B) :
  (forall b1 b2 x, V b1 b2 -> rel_run P V P E (f1 b1 x) (f2 b2 x)) ->
  forall acc1 acc2,
    V acc1 acc2 ->
    rel_run P V P E (for_each_acc l acc1 f1) (for_each_acc l acc2 f2).
Proof.
  intros Hf. induction l as [|x l IH]; intros acc1 acc2 HV; cbn.
  - apply rel_ret. exact HV.
  - eapply rel_bind; [apply Hf, HV|intros b1 b2 Hb; apply IH, Hb].
Qed.

(** A list rebuilt in place, every element of which satisfies [G]
    before and after. *)
Lemma rel_for_each_upd_all {A} (P : S -> S -> Prop) (G : A -> Prop)
    (l : list A) (f1 f2 : A -> M S A) :
  (forall x, G x ->
     rel_run P (fun a1 a2 => a1 = a2 /\ G a1) P E (f1 x) (f2 x)) ->
  Forall G l ->
  rel_run P (fun l1 l2 => l1 = l2 /\ Forall G l1) P E
    (for_each_upd l f1) (for_each_upd l f2).
Proof.
  intros Hf. induction l as [|x l IH]; intros Hl; cbn.
  - apply rel_ret. split; [reflexivity|constructor].
  - inversion Hl as [|? ? Hx Hl']; subst.
    eapply rel_bind; [apply Hf, Hx|intros x1 x2 [<- Hx1]].
    eapply rel_bind; [apply IH, Hl'|intros l1 l2 [<- Hl1]].
    apply rel_ret. split; [reflexivity|constructor; assumption].
Qed.

(** A step of the first run that returns and keeps the relation, with
    nothing facing it in the second run. *)
Lemma rel_left_step {A B} (P Q : S -> S -> Prop) (W : B -> B -> Prop)
    (m : M S A) (a : A) (k : A -> M S B) (m2 : M S B) :
  (forall s1 s2, P s1 s2 -> exists s1', m s1 = (Ok a, s1') /\ P s1' s2) ->
  rel_run P W Q E (k a) m2 ->
  rel_run P W Q E (bind m k) m2.
Proof.
  intros Hm Hk s1 s2 HP. destruct (Hm s1 s2 HP) as (s1' & Hrun & Hkeep).
  unfold bind. rewrite Hrun. apply Hk, Hkeep.
Qed.

Lemma rel_weaken {A} (P P' Q Q' : S -> S -> Prop) (V V' : A -> A -> Prop)
    (m1 m2 : M S A) :
  (forall s1 s2, P' s1 s2 -> P s1 s2) ->
  (forall a1 a2, V a1 a2 -> V' a1 a2) ->
  (forall s1 s2, Q s1 s2 -> Q' s1 s2) ->
  rel_run P V Q E m1 m2 -> rel_run P' V' Q' E m1 m2.
Proof.
  intros HP HV HQ Hm s1 s2 Hs. specialize (Hm s1 s2 (HP _ _ Hs)).
  unfold agree in *.
  destruct (fst (m1 s1)), (fst (m2 s2)); try contradiction.
  - destruct Hm. split; auto.
  - exact Hm.
Qed.
End RelRun.

Lemma matches_favourite_apps (e1 e2 : Engine) (fav : Favourite)
    (c : AppCommand) :
  apps e1 = apps e2 -> matches_favourite e1 fav c = matches_favourite e2 fav c.
Proof.
  intros H. unfold matches_favourite, get_app_instance_name. rewrite H.
  reflexivity.
Qed.

(** ** The two appending methods, in closed form *)

Lemma add_divider_run (p : string) (s : GS) :
  _add_divider p s
  = (match _menu_def (gen s) with
     | Some _ => Ok tt
     | None => Raise (AttributeError "append")
     end,
     mkGS (with_divider (p +:+ "/divider" +:+ pretty (_divider_id (gen s) + 1))
             (gen s)) (eng s)).
Proof.
  unfold _add_divider, menu_def_append, on_gen, modify, bind, gets. cbn.
  destruct s as [[nm [d|] did iid cm] e]; reflexivity.
Qed.

Lemma add_menu_item_run (n p : string) (cb : option callback)
    (props : option Properties) (s : GS) :
  _add_menu_item n p cb props s
  = match item_description n cb props with
    | Raise x =>
        (Raise x, mkGS (set_menu_item_id (_menu_item_id (gen s) + 1) (gen s))
                    (eng s))
    | Ok d =>
        (match _menu_def (gen s) with
         | Some _ => Ok tt
         | None => Raise (AttributeError "append")
         end,
         mkGS (with_item
                 (p +:+ "/" +:+ n +:+ pretty (_menu_item_id (gen s) + 1)) d
                 (gen s)) (eng s))
    end.
Proof.
  unfold _add_menu_item, menu_def_append, on_gen, modify, bind, gets,
    item_description, call, ret, raise.
  destruct s as [[nm d did iid cm] e]. cbn.
  destruct props as [[a t tt sc [[b|x]|] [v|] [[b'|x']|]]|]; cbn;
    destruct d; reflexivity.
Qed.

Lemma item_description_label (n : string) (cb : option callback)
    (props : option Properties) (d : MenuItem) :
  item_description n cb props = Ok d -> label d = n.
Proof.
  unfold item_description.
  destruct props as [[a t tt sc [[b|x]|] [v|] [[b'|x']|]]|]; cbn;
    intros H; inversion H; reflexivity.
Qed.

(** ** The engine seen through [frame_view] *)

Lemma frame_view_add_log (r : LogRecord) (e : Engine) :
  frame_view (add_log r e) = frame_view e.
Proof. reflexivity. Qed.

Lemma frame_view_set_enabled (b : bool) (e : Engine) :
  is_Some (_application_menu e) ->
  frame_view (set_application_menu_enabled b e) = frame_view e.
Proof.
  intros H. unfold frame_view. cbn. rewrite (bool_decide_eq_true_2 _ H).
  reflexivity.
Qed.

Lemma frame_view_inputs (e1 e2 : Engine) :
  frame_view e1 = frame_view e2 ->
  commands e1 = commands e2 /\ apps e1 = apps e2 /\ context e1 = context e2 /\
  menu_favourites e1 = menu_favourites e2 /\
  bool_decide (is_Some (_application_menu e1))
  = bool_decide (is_Some (_application_menu e2)).
Proof. unfold frame_view. intros H. injection H. intros. auto. Qed.

(** From facts about generators to facts about the two appending
    methods run side by side. *)
Section Alike.
Context (Qg : MenuGenerator -> MenuGenerator -> Prop) (e1 e2 : Engine).

Hypothesis Qg_defined : forall g1 g2,
  Qg g1 g2 -> is_Some (_menu_def g1) <-> is_Some (_menu_def g2).
Hypothesis Qg_with_divider : forall g1 g2 p,
  Qg g1 g2 ->
  Qg (with_divider (p +:+ "/divider" +:+ pretty (_divider_id g1 + 1)) g1)
     (with_divider (p +:+ "/divider" +:+ pretty (_divider_id g2 + 1)) g2).
Hypothesis Qg_with_item : forall g1 g2 p n d,
  Qg g1 g2 ->
  Qg (with_item (p +:+ "/" +:+ n +:+ pretty (_menu_item_id g1 + 1)) d g1)
     (with_item (p +:+ "/" +:+ n +:+ pretty (_menu_item_id g2 + 1)) d g2).
Hypothesis Qg_item_id : forall g1 g2,
  Qg g1 g2 ->
  Qg (set_menu_item_id (_menu_item_id g1 + 1) g1)
     (set_menu_item_id (_menu_item_id g2 + 1) g2).

Lemma related_gen_step b s1 s2 g1 g2 :
  related Qg b e1 e2 s1 s2 ->
  Qg g1 g2 ->
  _context_menu g1 = _context_menu (gen s1) ->
  _context_menu g2 = _context_menu (gen s2) ->
  related Qg b e1 e2 (mkGS g1 (eng s1)) (mkGS g2 (eng s2)).
Proof.
  intros (Hv1 & Hv2 & Hg & Hc) Hg' H1 H2.
  repeat split; cbn; try assumption.
  intros Hb. rewrite H1, H2. apply Hc, Hb.
Qed.

Lemma related_weaken_false b s1 s2 :
  related Qg b e1 e2 s1 s2 -> related Qg false e1 e2 s1 s2.
Proof.
  intros (Hv1 & Hv2 & Hg & Hc).
  repeat split; try assumption. intros; discriminate.
Qed.

Lemma defined_cases g1 g2 :
  Qg g1 g2 ->
  (exists d1 d2, _menu_def g1 = Some d1 /\ _menu_def g2 = Some d2) \/
  (_menu_def g1 = None /\ _menu_def g2 = None).
Proof.
  intros Hg. destruct (Qg_defined _ _ Hg) as [H12 H21].
  destruct (_menu_def g1) as [d1|], (_menu_def g2) as [d2|].
  - left. eauto.
  - destruct H12 as [? ?]; [eexists; reflexivity|discriminate].
  - destruct H21 as [? ?]; [eexists; reflexivity|discriminate].
  - right. auto.
Qed.

Lemma alike_add_divider b p :
  rel_run (related Qg b e1 e2) eq (related Qg b e1 e2)
    (related Qg false e1 e2) (_add_divider p) (_add_divider p).
Proof.
  intros s1 s2 HR. rewrite !add_divider_run. unfold agree. cbn.
  pose proof HR as (_ & _ & Hg & _).
  assert (Hstep : related Qg b e1 e2
            (mkGS (with_divider
                     (p +:+ "/divider" +:+ pretty (_divider_id (gen s1) + 1))
                     (gen s1)) (eng s1))
            (mkGS (with_divider
                     (p +:+ "/divider" +:+ pretty (_divider_id (gen s2) + 1))
                     (gen s2)) (eng s2))).
  { apply related_gen_step; [exact HR|apply Qg_with_divider, Hg| |];
      reflexivity. }
  destruct (defined_cases _ _ Hg) as [(d1 & d2 & -> & ->)|[-> ->]].
  - split; [reflexivity|exact Hstep].
  - split; [reflexivity|exact (related_weaken_false _ _ _ Hstep)].
Qed.

Lemma alike_add_menu_item b n p cb props :
  rel_run (related Qg b e1 e2) eq (related Qg b e1 e2)
    (related Qg false e1 e2) (_add_menu_item n p cb props)
    (_add_menu_item n p cb props).
Proof.
  intros s1 s2 HR. rewrite !add_menu_item_run. unfold agree.
  pose proof HR as (_ & _ & Hg & _).
  destruct (item_description n cb props) as [d|x]; cbn.
  - assert (Hstep : related Qg b e1 e2
              (mkGS (with_item
                       (p +:+ "/" +:+ n +:+ pretty (_menu_item_id (gen s1) + 1))
                       d (gen s1)) (eng s1))
              (mkGS (with_item
                       (p +:+ "/" +:+ n +:+ pretty (_menu_item_id (gen s2) + 1))
                       d (gen s2)) (eng s2))).
    { apply related_gen_step; [exact HR|apply Qg_with_item, Hg| |];
        reflexivity. }
    destruct (defined_cases _ _ Hg) as [(d1 & d2 & -> & ->)|[-> ->]].
    + split; [reflexivity|exact Hstep].
    + split; [reflexivity|exact (related_weaken_false _ _ _ Hstep)].
  - split; [reflexivity|]. apply related_weaken_false with (b := b).
    apply related_gen_step; [exact HR|apply Qg_item_id, Hg| |]; reflexivity.
Qed.
End Alike.

Lemma bind_on_gen {A} (f : MenuGenerator -> MenuGenerator)
    (k : unit -> M GS A) (s : GS) :
  bind (on_gen f) k s = k tt (mkGS (f (gen s)) (eng s)).
Proof. reflexivity. Qed.

(** [enumerate_commands] never raises and returns the sorted registry. *)
Lemma enumerate_loop_run (cmds : list (string * CommandDict))
    (acc : list AppCommand) (s : GS) :
  exists s',
    for_each_acc cmds acc
      (fun items kv =>
         log_debug ("engine command: " +:+ kv.1) ;;
         ret (items ++ [AppCommand_init kv.1 kv.2])) s
    = (Ok (acc ++ map (fun kv => AppCommand_init kv.1 kv.2) cmds), s') /\
    gen s' = gen s /\ frame_view (eng s') = frame_view (eng s).
Proof.
  revert acc s. induction cmds as [|kv cmds IH]; intros acc s; cbn.
  - exists s. rewrite app_nil_r. auto.
  - destruct (IH (acc ++ [AppCommand_init kv.1 kv.2])
                (mkGS (gen s) (add_log (LogDebug ("engine command: " +:+ kv.1))
                                 (eng s)))) as (s' & Hrun & Hg & Hf).
    exists s'. rewrite Hrun. rewrite <- app_assoc. auto.
Qed.

Lemma enumerate_commands_run (s : GS) :
  exists s',
    enumerate_commands s = (Ok (registry_commands (eng s)), s') /\
    gen s' = gen s /\ frame_view (eng s') = frame_view (eng s).
Proof.
  destruct (enumerate_loop_run (map_to_list (commands (eng s))) [] s)
    as (s' & Hrun & Hg & Hf).
  exists s'. unfold enumerate_commands. unfold bind, gets in Hrun |- *.
  rewrite Hrun. auto.
Qed.

(** The steps of a build on two related states, for any notion [Qg] of
    alike generators that the two appending methods respect, on two
    engines that offer the same inputs. *)
Section Related.
Context (Qg : MenuGenerator -> MenuGenerator -> Prop) (e1 e2 : Engine).

Abbreviation R b := (related Qg b e1 e2).

Hypothesis inputs : same_inputs e1 e2.
Hypothesis Qg_context_menu : forall g1 g2 p1 p2,
  Qg g1 g2 -> Qg (set_context_menu p1 g1) (set_context_menu p2 g2).
Hypothesis Qg_add_divider : forall b p,
  rel_run (R b) eq (R b) (R false) (_add_divider p) (_add_divider p).
Hypothesis Qg_add_menu_item : forall b n p cb props,
  rel_run (R b) eq (R b) (R false) (_add_menu_item n p cb props)
    (_add_menu_item n p cb props).

Lemma related_weaken b s1 s2 : R b s1 s2 -> R false s1 s2.
Proof.
  intros (Hv1 & Hv2 & Hg & Hc). repeat split; try assumption.
  intros; discriminate.
Qed.

Lemma related_inputs b s1 s2 :
  R b s1 s2 -> same_inputs (eng s1) (eng s2).
Proof.
  intros (Hv1 & Hv2 & _). unfold same_inputs.
  apply frame_view_inputs in Hv1 as (-> & -> & -> & _ & ->).
  apply frame_view_inputs in Hv2 as (-> & -> & -> & _ & ->).
  exact inputs.
Qed.

Lemma related_log_debug b m1 m2 :
  rel_run (R b) eq (R b) (R false) (log_debug m1) (log_debug m2).
Proof.
  apply rel_modify. intros s1 s2 (Hv1 & Hv2 & Hg & Hc).
  repeat split; cbn; assumption.
Qed.

Lemma related_application_menu_setEnabled b v :
  rel_run (R b) eq (R b) (R false) (application_menu_setEnabled v)
    (application_menu_setEnabled v).
Proof.
  intros s1 s2 HR. pose proof (related_inputs _ _ _ HR) as (_ & _ & _ & H4).
  pose proof HR as (Hv1 & Hv2 & Hg & Hc).
  unfold application_menu_setEnabled, bind, gets, agree.
  destruct (_application_menu (eng s1)) as [v1|] eqn:E1,
           (_application_menu (eng s2)) as [v2|] eqn:E2;
    cbn in H4; try discriminate; cbn.
  - split; [reflexivity|]. repeat split; cbn; try assumption.
    + rewrite frame_view_set_enabled; [exact Hv1|rewrite E1; eauto].
    + rewrite frame_view_set_enabled; [exact Hv2|rewrite E2; eauto].
  - split; [reflexivity|]. apply (related_weaken _ _ _ HR).
Qed.

Lemma related_set_context_menu b p :
  rel_run (R b) eq (R true) (R false) (on_gen (set_context_menu p))
    (on_gen (set_context_menu p)).
Proof.
  apply rel_modify. intros s1 s2 (Hv1 & Hv2 & Hg & Hc).
  repeat split; cbn; try assumption.
  apply Qg_context_menu, Hg.
Qed.

Lemma related_add_command_to_menu b c menu :
  rel_run (R b) eq (R b) (R false) (add_command_to_menu c menu)
    (add_command_to_menu c menu).
Proof. apply Qg_add_menu_item. Qed.

Lemma related_add_context_menu b p :
  rel_run (R b) eq (R b) (R false) (_add_context_menu p)
    (_add_context_menu p).
Proof.
  unfold _add_context_menu.
  eapply rel_bind with (V := eq).
  { apply rel_gets. intros s1 s2 HR. apply (related_inputs _ _ _ HR). }
  intros ctx ? <-.
  eapply rel_bind; [apply Qg_add_menu_item|intros _ _ _].
  eapply rel_bind with (V := eq).
  { destruct (filesystem_locations ctx);
      [apply rel_ret; reflexivity|apply Qg_add_menu_item]. }
  intros _ _ _.
  eapply rel_bind; [apply Qg_add_divider|intros _ _ _].
  apply rel_ret. reflexivity.
Qed.

Lemma related_enumerate_commands b :
  rel_run (R b) (fun l1 l2 => l1 = l2 /\ l1 = registry_commands e1) (R b)
    (R false) enumerate_commands enumerate_commands.
Proof.
  intros s1 s2 HR. pose proof (related_inputs _ _ _ HR) as (Hc & _).
  pose proof HR as (Hv1 & Hv2 & Hg & Hcm).
  destruct (enumerate_commands_run s1) as (s1' & -> & Hg1 & Hf1).
  destruct (enumerate_commands_run s2) as (s2' & -> & Hg2 & Hf2).
  unfold agree. cbn. unfold registry_commands.
  apply frame_view_inputs in Hv1 as Hi1. destruct Hi1 as (Hc1 & _).
  rewrite <- Hc, Hc1. split; [split; reflexivity|].
  unfold related. rewrite Hg1, Hg2. repeat split; try congruence; assumption.
Qed.

Lemma related_add_favourites b favs l :
  rel_run (R b) eq (R b) (R false) (add_favourites favs l)
    (add_favourites favs l).
Proof.
  unfold add_favourites. apply rel_for_each_acc; [|reflexivity].
  intros acc ? fav <-.
  apply rel_for_each_upd. intros cmd.
  eapply rel_bind; [apply related_log_debug|intros _ _ _].
  eapply rel_bind with (V := eq).
  { apply rel_gets. intros s1 s2 HR.
    apply matches_favourite_apps, (related_inputs _ _ _ HR). }
  intros found ? <-. destruct found; [|apply rel_ret; reflexivity].
  eapply rel_bind; [apply related_add_command_to_menu|intros _ _ _].
  apply rel_ret. reflexivity.
Qed.

Lemma related_separate_commands l :
  rel_run (R true) eq (R true) (R false) (separate_commands l)
    (separate_commands l).
Proof.
  unfold separate_commands. apply rel_for_each_acc; [|reflexivity].
  intros acc ? cmd <-.
  destruct (bool_decide _); [|apply rel_ret; reflexivity].
  eapply rel_bind with (V := eq).
  { apply rel_gets. intros s1 s2 (_ & _ & _ & Hc). apply Hc. reflexivity. }
  intros cm ? <-. destruct cm; [|apply rel_raise, related_weaken].
  eapply rel_bind; [apply related_add_command_to_menu|intros _ _ _].
  apply rel_ret. reflexivity.
Qed.

Lemma related_add_app_menu b cba :
  rel_run (R b) eq (R b) (R false) (_add_app_menu cba) (_add_app_menu cba).
Proof.
  unfold _add_app_menu.
  eapply rel_bind; [|intros _ _ _; apply Qg_add_divider].
  apply rel_for_each. intros a.
  destruct (cba !! a) as [cmds|]; [|apply rel_raise, related_weaken].
  destruct (1 <? length cmds)%nat.
  - apply rel_for_each. intros c. apply related_add_command_to_menu.
  - destruct cmds as [|c cmds]; [apply rel_raise, related_weaken|].
    destruct (favourite c);
      [apply rel_ret; reflexivity|apply related_add_command_to_menu].
Qed.

(** The whole enabled build, from the states in which the definition
    has just been replaced by an empty one, given that the two scans of
    the favourites and the two dividers after them agree. *)
Lemma related_create_menu b (s1 s2 : GS) :
  (forall l,
     l = registry_commands e1 ->
     rel_run (R true) eq (R true) (R false)
       (add_favourites (menu_favourites e1) l)
       (add_favourites (menu_favourites e2) l)) ->
  rel_run (R true) eq (R true) (R false)
    (if (0 <? length (menu_favourites e1))%nat then _add_divider ""
     else ret tt)
    (if (0 <? length (menu_favourites e2))%nat then _add_divider ""
     else ret tt) ->
  R b (mkGS (set_menu_def (Some []) (gen s1)) (eng s1))
      (mkGS (set_menu_def (Some []) (gen s2)) (eng s2)) ->
  agree eq (R true) (R false) (create_menu false s1) (create_menu false s2).
Proof.
  intros Hfav Hdiv HR.
  unfold create_menu. cbn [negb]. rewrite !bind_on_gen. cbv beta.
  match goal with
  | |- agree _ _ _ (?m1 ?sA) (?m2 ?sB) =>
      cut (rel_run (R b) eq (R true) (R false) m1 m2);
        [intros H; apply H; exact HR|]
  end.
  eapply rel_bind; [apply related_application_menu_setEnabled|intros _ _ _].
  eapply rel_bind; [apply related_add_context_menu|intros cm ? <-].
  eapply rel_bind; [apply related_set_context_menu|intros _ _ _].
  eapply rel_bind; [apply Qg_add_divider|intros _ _ _].
  eapply rel_bind; [apply related_enumerate_commands|intros l ? [<- Hl]].
  eapply rel_bind with (V := fun f1 f2 => f1 = menu_favourites e1
                                          /\ f2 = menu_favourites e2).
  { apply rel_gets. intros s1' s2' (Hv1 & Hv2 & _).
    apply frame_view_inputs in Hv1 as (_ & _ & _ & -> & _).
    apply frame_view_inputs in Hv2 as (_ & _ & _ & -> & _). auto. }
  intros f1 f2 [-> ->].
  eapply rel_bind; [apply Hfav, Hl|intros l' ? <-].
  eapply rel_bind; [apply Hdiv|intros _ _ _].
  eapply rel_bind; [apply related_separate_commands|intros cba ? <-].
  eapply rel_bind; [apply related_log_debug|intros _ _ _].
  eapply rel_bind; [apply related_add_app_menu|intros _ _ _].
  apply related_application_menu_setEnabled.
Qed.
End Related.

Lemma agree_outcome {S A} (Q E T : S -> S -> Prop) (r1 r2 : result A * S) :
  agree eq Q E r1 r2 ->
  (forall s1 s2, Q s1 s2 -> T s1 s2) ->
  (forall s1 s2, E s1 s2 -> T s1 s2) ->
  fst r1 = fst r2 /\ T (snd r1) (snd r2).
Proof.
  unfold agree. intros H HQ HE.
  destruct (fst r1), (fst r2); try contradiction; destruct H as [-> H];
    split; auto.
Qed.

Lemma fmap_is_Some_eq {A B} (f : A -> B) (o1 o2 : option A) :
  f <$> o1 = f <$> o2 -> is_Some o1 <-> is_Some o2.
Proof.
  destruct o1, o2; cbn; intros H; try discriminate; split; intros [? ?];
    try discriminate; eexists; reflexivity.
Qed.

(** *** Generators with the same definition and counters *)

Lemma same_definition_defined g1 g2 :
  same_definition g1 g2 -> is_Some (_menu_def g1) <-> is_Some (_menu_def g2).
Proof. intros (_ & _ & ->). reflexivity. Qed.

Lemma same_definition_with_divider g1 g2 p :
  same_definition g1 g2 ->
  same_definition
    (with_divider (p +:+ "/divider" +:+ pretty (_divider_id g1 + 1)) g1)
    (with_divider (p +:+ "/divider" +:+ pretty (_divider_id g2 + 1)) g2).
Proof.
  intros (Hd & Hi & Hm). unfold same_definition. cbn.
  rewrite Hd, Hi, Hm. auto.
Qed.

Lemma same_definition_with_item g1 g2 p n d :
  same_definition g1 g2 ->
  same_definition
    (with_item (p +:+ "/" +:+ n +:+ pretty (_menu_item_id g1 + 1)) d g1)
    (with_item (p +:+ "/" +:+ n +:+ pretty (_menu_item_id g2 + 1)) d g2).
Proof.
  intros (Hd & Hi & Hm). unfold same_definition. cbn.
  rewrite Hd, Hi, Hm. auto.
Qed.

Lemma same_definition_item_id g1 g2 :
  same_definition g1 g2 ->
  same_definition (set_menu_item_id (_menu_item_id g1 + 1) g1)
    (set_menu_item_id (_menu_item_id g2 + 1) g2).
Proof.
  intros (Hd & Hi & Hm). unfold same_definition. cbn.
  rewrite Hd, Hi, Hm. auto.
Qed.

Lemma same_definition_context_menu g1 g2 p1 p2 :
  same_definition g1 g2 ->
  same_definition (set_context_menu p1 g1) (set_context_menu p2 g2).
Proof. intros H. exact H. Qed.

(** *** Generators with the same descriptions *)

Lemma same_descriptions_defined g1 g2 :
  same_descriptions g1 g2 -> is_Some (_menu_def g1) <-> is_Some (_menu_def g2).
Proof. apply fmap_is_Some_eq. Qed.

Lemma same_descriptions_append g1 g2 (x1 x2 : string * Entry) :
  snd x1 = snd x2 ->
  map snd <$> _menu_def g1 = map snd <$> _menu_def g2 ->
  map snd <$> ((fun d => d ++ [x1]) <$> _menu_def g1)
  = map snd <$> ((fun d => d ++ [x2]) <$> _menu_def g2).
Proof.
  intros Hx. destruct (_menu_def g1) as [d1|], (_menu_def g2) as [d2|]; cbn;
    intros H; try discriminate; [|reflexivity].
  injection H as H. rewrite !map_app, H. cbn. rewrite Hx. reflexivity.
Qed.

Lemma same_descriptions_with_divider g1 g2 p :
  same_descriptions g1 g2 ->
  same_descriptions
    (with_divider (p +:+ "/divider" +:+ pretty (_divider_id g1 + 1)) g1)
    (with_divider (p +:+ "/divider" +:+ pretty (_divider_id g2 + 1)) g2).
Proof. apply same_descriptions_append. reflexivity. Qed.

Lemma same_descriptions_with_item g1 g2 p n d :
  same_descriptions g1 g2 ->
  same_descriptions
    (with_item (p +:+ "/" +:+ n +:+ pretty (_menu_item_id g1 + 1)) d g1)
    (with_item (p +:+ "/" +:+ n +:+ pretty (_menu_item_id g2 + 1)) d g2).
Proof. apply same_descriptions_append. reflexivity. Qed.

Lemma same_descriptions_item_id g1 g2 :
  same_descriptions g1 g2 ->
  same_descriptions (set_menu_item_id (_menu_item_id g1 + 1) g1)
    (set_menu_item_id (_menu_item_id g2 + 1) g2).
Proof. intros H. exact H. Qed.

Lemma same_descriptions_context_menu g1 g2 p1 p2 :
  same_descriptions g1 g2 ->
  same_descriptions (set_context_menu p1 g1) (set_context_menu p2 g2).
Proof. intros H. exact H. Qed.

(** *** Generators with the same items *)

Lemma same_items_defined g1 g2 :
  same_items g1 g2 -> is_Some (_menu_def g1) <-> is_Some (_menu_def g2).
Proof. intros (_ & _ & H). revert H. apply fmap_is_Some_eq. Qed.

Lemma same_items_append g1 g2 (x1 x2 : string * Entry) :
  filter (fun pe => is_item pe = true) [x1]
  = filter (fun pe => is_item pe = true) [x2] ->
  items g1 = items g2 ->
  filter (fun pe => is_item pe = true) <$> ((fun d => d ++ [x1]) <$> _menu_def g1)
  = filter (fun pe => is_item pe = true) <$> ((fun d => d ++ [x2]) <$> _menu_def g2).
Proof.
  intros Hx. unfold items.
  destruct (_menu_def g1) as [d1|], (_menu_def g2) as [d2|]; intros H;
    try discriminate H; [|reflexivity].
  apply (inj Some) in H.
  change (Some (filter (fun pe => is_item pe = true) (d1 ++ [x1]))
          = Some (filter (fun pe => is_item pe = true) (d2 ++ [x2]))).
  rewrite !filter_app, H, Hx. reflexivity.
Qed.

Lemma fmap_is_Some {A B} (f : A -> B) (o : option A) :
  is_Some o -> is_Some (f <$> o).
Proof. intros [a ->]. eexists. reflexivity. Qed.

Lemma same_items_with_divider g1 g2 p :
  same_items g1 g2 ->
  same_items
    (with_divider (p +:+ "/divider" +:+ pretty (_divider_id g1 + 1)) g1)
    (with_divider (p +:+ "/divider" +:+ pretty (_divider_id g2 + 1)) g2).
Proof.
  intros (Hs & Hi & H). split; [apply fmap_is_Some, Hs|]. split; [exact Hi|].
  apply same_items_append; [reflexivity|exact H].
Qed.

Lemma same_items_with_item g1 g2 p n d :
  same_items g1 g2 ->
  same_items
    (with_item (p +:+ "/" +:+ n +:+ pretty (_menu_item_id g1 + 1)) d g1)
    (with_item (p +:+ "/" +:+ n +:+ pretty (_menu_item_id g2 + 1)) d g2).
Proof.
  intros (Hs & Hi & H). split; [apply fmap_is_Some, Hs|].
  split; [cbn; rewrite Hi; reflexivity|].
  apply same_items_append; [rewrite Hi; reflexivity|exact H].
Qed.

Lemma same_items_item_id g1 g2 :
  same_items g1 g2 ->
  same_items (set_menu_item_id (_menu_item_id g1 + 1) g1)
    (set_menu_item_id (_menu_item_id g2 + 1) g2).
Proof.
  intros (Hs & Hi & H). split; [exact Hs|].
  split; [cbn; rewrite Hi; reflexivity|exact H].
Qed.

Lemma same_items_context_menu g1 g2 p1 p2 :
  same_items g1 g2 ->
  same_items (set_context_menu p1 g1) (set_context_menu p2 g2).
Proof. intros H. exact H. Qed.

(** ** Building twice *)

(** Two enabled builds on engines that differ at most in the log and the
    enabled state of the menu, from generators that are alike once their
    definitions are emptied, end alike and with the same outcome. *)
Lemma create_menu_alike (Qg : MenuGenerator -> MenuGenerator -> Prop)
    (s1 s2 : GS) :
  (forall g1 g2,
     Qg g1 g2 -> is_Some (_menu_def g1) <-> is_Some (_menu_def g2)) ->
  (forall g1 g2 p,
     Qg g1 g2 ->
     Qg (with_divider (p +:+ "/divider" +:+ pretty (_divider_id g1 + 1)) g1)
        (with_divider (p +:+ "/divider" +:+ pretty (_divider_id g2 + 1)) g2)) ->
  (forall g1 g2 p n d,
     Qg g1 g2 ->
     Qg (with_item (p +:+ "/" +:+ n +:+ pretty (_menu_item_id g1 + 1)) d g1)
        (with_item (p +:+ "/" +:+ n +:+ pretty (_menu_item_id g2 + 1)) d g2)) ->
  (forall g1 g2,
     Qg g1 g2 ->
     Qg (set_menu_item_id (_menu_item_id g1 + 1) g1)
        (set_menu_item_id (_menu_item_id g2 + 1) g2)) ->
  (forall g1 g2 p1 p2,
     Qg g1 g2 -> Qg (set_context_menu p1 g1) (set_context_menu p2 g2)) ->
  frame_view (eng s1) = frame_view (eng s2) ->
  Qg (set_menu_def (Some []) (gen s1)) (set_menu_def (Some []) (gen s2)) ->
  fst (create_menu false s1) = fst (create_menu false s2) /\
  Qg (gen (snd (create_menu false s1))) (gen (snd (create_menu false s2))).
Proof.
  intros Hdef Hdiv Hitem Hid Hctx Hframe Hg.
  pose proof (frame_view_inputs _ _ Hframe) as (Hc & Ha & Hx & Hfv & Hb).
  assert (Hin : same_inputs (eng s1) (eng s2)) by (repeat split; assumption).
  pose proof (alike_add_divider Qg (eng s1) (eng s2) Hdef Hdiv) as Hd.
  pose proof (alike_add_menu_item Qg (eng s1) (eng s2) Hdef Hitem Hid) as Hi.
  apply (agree_outcome (related Qg true (eng s1) (eng s2))
           (related Qg false (eng s1) (eng s2))
           (fun t1 t2 => Qg (gen t1) (gen t2))).
  - apply (related_create_menu Qg (eng s1) (eng s2) Hin Hctx Hd Hi false).
    + intros l _. rewrite <- Hfv.
      apply (related_add_favourites Qg (eng s1) (eng s2) Hin Hi).
    + rewrite <- Hfv. destruct (0 <? length (menu_favourites (eng s1)))%nat.
      * apply Hd.
      * apply rel_ret. reflexivity.
    + repeat split; cbn; try reflexivity; [exact Hg|intros; discriminate].
  - intros t1 t2 (_ & _ & H & _). exact H.
  - intros t1 t2 (_ & _ & H & _). exact H.
Qed.


(** ** Counting the entries of a build that returns *)

Lemma bind_Ok {S A B} (m : M S A) (k : A -> M S B) (s s'' : S) (b : B) :
  bind m k s = (Ok b, s'') ->
  exists a s', m s = (Ok a, s') /\ k a s' = (Ok b, s'').
Proof.
  unfold bind. destruct (m s) as [[a|x] s']; intros H; [eauto|discriminate].
Qed.

Lemma matches_favourite_mark (e : Engine) (fav : Favourite) (c : AppCommand) :
  matches_favourite e fav (mark_favourite c) = matches_favourite e fav c.
Proof. reflexivity. Qed.

Lemma matches_favourite_frame (e1 e2 : Engine) (fav : Favourite)
    (c : AppCommand) :
  frame_view e1 = frame_view e2 ->
  matches_favourite e1 fav c = matches_favourite e2 fav c.
Proof.
  intros H. apply matches_favourite_apps. apply (frame_view_inputs _ _ H).
Qed.

Lemma mark_by_cons (e : Engine) (fav : Favourite) (favs : list Favourite)
    (c : AppCommand) :
  mark_by e favs (mark_by e [fav] c) = mark_by e (fav :: favs) c.
Proof.
  unfold mark_by. cbn. rewrite orb_false_r.
  destruct (matches_favourite e fav c) eqn:Hm; cbn; [|reflexivity].
  destruct (existsb _ favs); reflexivity.
Qed.

Lemma mark_by_nil (e : Engine) (c : AppCommand) : mark_by e [] c = c.
Proof. reflexivity. Qed.

Lemma mark_by_name (e : Engine) (favs : list Favourite) (c : AppCommand) :
  name (mark_by e favs c) = name c.
Proof. unfold mark_by. destruct (existsb _ favs); reflexivity. Qed.

Lemma mark_by_properties (e : Engine) (favs : list Favourite)
    (c : AppCommand) :
  properties (mark_by e favs c) = properties c.
Proof. unfold mark_by. destruct (existsb _ favs); reflexivity. Qed.

Lemma mark_by_matches (e : Engine) (favs : list Favourite) (fav : Favourite)
    (c : AppCommand) :
  matches_favourite e fav (mark_by e favs c) = matches_favourite e fav c.
Proof. unfold mark_by. destruct (existsb _ favs); reflexivity. Qed.

Lemma sum_list_with_map {A B} (f : B -> nat) (g : A -> B) (l : list A) :
  sum_list_with f (map g l) = sum_list_with (fun x => f (g x)) l.
Proof. induction l as [|x l IH]; cbn; [reflexivity|rewrite IH; reflexivity]. Qed.

Lemma sum_list_with_ext {A} (f g : A -> nat) (l : list A) :
  (forall x, x ∈ l -> f x = g x) -> sum_list_with f l = sum_list_with g l.
Proof.
  induction l as [|x l IH]; cbn; intros H; [reflexivity|].
  rewrite H by left. rewrite IH; [reflexivity|].
  intros y Hy. apply H. right. exact Hy.
Qed.

Lemma sum_list_with_zero {A} (f : A -> nat) (l : list A) :
  (forall x, x ∈ l -> f x = 0) -> sum_list_with f l = 0.
Proof.
  induction l as [|x l IH]; cbn; intros H; [reflexivity|].
  rewrite H by left. rewrite IH; [reflexivity|].
  intros y Hy. apply H. right. exact Hy.
Qed.

Section Weight.
Context (pd : nat) (pl : string -> nat).

Abbreviation G w := (grows pd pl w).

Lemma grows_refl s : G 0 s s.
Proof. repeat split. unfold weight. lia. Qed.

Lemma grows_trans w1 w2 s1 s2 s3 :
  G w1 s1 s2 -> G w2 s2 s3 -> G (w1 + w2) s1 s3.
Proof.
  intros (H1 & H2 & H3) (H4 & H5 & H6). repeat split; try congruence.
  rewrite H4, H1. lia.
Qed.

Lemma grows_eq w w' s s' : w = w' -> G w s s' -> G w' s s'.
Proof. intros ->. auto. Qed.

Lemma add_divider_grows p s s' :
  _add_divider p s = (Ok tt, s') -> G pd s s'.
Proof.
  rewrite add_divider_run. destruct (_menu_def (gen s)) as [d|] eqn:Hd;
    intros H; [|discriminate].
  injection H as <-. repeat split. unfold weight. cbn. rewrite Hd. cbn.
  rewrite sum_list_with_app. cbn. lia.
Qed.

Lemma add_menu_item_grows n p cb props s s' :
  _add_menu_item n p cb props s = (Ok tt, s') -> G (pl n) s s'.
Proof.
  rewrite add_menu_item_run.
  destruct (item_description n cb props) as [d|x] eqn:Hdesc;
    [|intros H; discriminate].
  destruct (_menu_def (gen s)) as [defs|] eqn:Hd; intros H; [|discriminate].
  injection H as <-. repeat split. unfold weight. cbn. rewrite Hd. cbn.
  rewrite sum_list_with_app. cbn.
  rewrite (item_description_label _ _ _ _ Hdesc). lia.
Qed.

Lemma add_command_to_menu_grows c menu s s' :
  add_command_to_menu c menu s = (Ok tt, s') -> G (pl (name c)) s s'.
Proof. apply add_menu_item_grows. Qed.

Lemma log_debug_grows msg s a s' :
  log_debug msg s = (Ok a, s') -> G 0 s s'.
Proof.
  unfold log_debug, on_eng, modify. intros H. injection H as _ <-.
  repeat split. unfold weight. cbn. lia.
Qed.

Lemma on_gen_context_menu_grows p s a s' :
  on_gen (set_context_menu p) s = (Ok a, s') ->
  weight pd pl (gen s') = weight pd pl (gen s) /\
  frame_view (eng s') = frame_view (eng s) /\ _context_menu (gen s') = p.
Proof.
  unfold on_gen, modify. intros H. injection H as _ <-. repeat split.
Qed.

Lemma application_menu_setEnabled_grows b s a s' :
  application_menu_setEnabled b s = (Ok a, s') -> G 0 s s'.
Proof.
  unfold application_menu_setEnabled, bind, gets.
  destruct (_application_menu (eng s)) as [v|] eqn:Hm; cbn; intros H;
    [|discriminate].
  injection H as _ <-. repeat split; cbn.
  - unfold weight. lia.
  - apply frame_view_set_enabled. rewrite Hm. eauto.
Qed.

Lemma add_context_menu_grows p s cm s' :
  _add_context_menu p s = (Ok cm, s') ->
  G (context_menu_weight pd pl (context (eng s))) s s'.
Proof.
  unfold _add_context_menu. intros H.
  apply bind_Ok in H as (ctx & s0 & H0 & H). injection H0 as <- <-.
  apply bind_Ok in H as ([] & s1 & H1 & H).
  apply add_menu_item_grows in H1.
  apply bind_Ok in H as ([] & s2 & H2 & H).
  apply bind_Ok in H as ([] & s3 & H3 & H).
  apply add_divider_grows in H3. injection H as _ <-.
  unfold context_menu_weight.
  apply (grows_trans _ _ _ s2); [|exact H3].
  apply (grows_trans _ _ _ s1); [exact H1|].
  destruct (filesystem_locations (context (eng s))).
  - injection H2 as <-. apply grows_refl.
  - apply add_menu_item_grows in H2. exact H2.
Qed.

Lemma enumerate_commands_grows s l s' :
  enumerate_commands s = (Ok l, s') ->
  l = registry_commands (eng s) /\ G 0 s s'.
Proof.
  destruct (enumerate_commands_run s) as (s0 & -> & Hg & Hf).
  intros H. injection H as <- <-. split; [reflexivity|].
  repeat split; try assumption; rewrite Hg; [lia|reflexivity].
Qed.

(** The scan of the commands for one favourite. *)
Lemma scan_favourite_grows e0 fav l s l' s' :
  frame_view (eng s) = frame_view e0 ->
  for_each_upd l
    (fun cmd =>
       log_debug ("cmd: " +:+ name cmd) ;;
       found <- gets (fun s => matches_favourite (eng s) fav cmd) ;;
       if (found : bool) then
         add_command_to_menu cmd "" ;; ret (mark_favourite cmd)
       else ret cmd) s = (Ok l', s') ->
  l' = map (mark_by e0 [fav]) l /\
  G (sum_list_with
       (fun c => if matches_favourite e0 fav c then pl (name c) else 0) l)
    s s'.
Proof.
  revert s l' s'. induction l as [|c l IH]; intros s l' s' Hf H; cbn in H.
  - injection H as <- <-. split; [reflexivity|apply grows_refl].
  - apply bind_Ok in H as (c' & s1 & Hc & H).
    apply bind_Ok in H as (l1 & s2 & Hl & H). injection H as <- <-.
    apply bind_Ok in Hc as ([] & t1 & Hlog & Hc).
    apply log_debug_grows in Hlog.
    apply bind_Ok in Hc as (found & t2 & Hfound & Hc).
    injection Hfound as <- <-.
    assert (Hf1 : frame_view (eng t1) = frame_view e0)
      by (destruct Hlog as (_ & -> & _); exact Hf).
    rewrite (matches_favourite_frame _ e0 fav c Hf1) in Hc.
    assert (Hstep : c' = mark_by e0 [fav] c /\
                    G (if matches_favourite e0 fav c then pl (name c) else 0)
                      t1 s1).
    { unfold mark_by. cbn. rewrite orb_false_r.
      destruct (matches_favourite e0 fav c).
      - apply bind_Ok in Hc as ([] & t3 & Hadd & Hc). injection Hc as <- <-.
        split; [reflexivity|apply (add_command_to_menu_grows _ _ _ _ Hadd)].
      - injection Hc as <- <-. split; [reflexivity|apply grows_refl]. }
    destruct Hstep as [-> Hstep].
    assert (Hf2 : frame_view (eng s1) = frame_view e0)
      by (destruct Hstep as (_ & -> & _); exact Hf1).
    destruct (IH _ _ _ Hf2 Hl) as [-> Hrest].
    split; [reflexivity|]. cbn.
    apply (grows_trans _ _ _ s1); [|exact Hrest].
    exact (grows_trans _ _ _ _ _ Hlog Hstep).
Qed.
End Weight.

Section BuildWeight.
Context (pd : nat) (pl : string -> nat).

Abbreviation G' w := (grows pd pl w).

Lemma favourite_weight_mark e0 favs l fav :
  favourite_weight pl e0 (map (mark_by e0 favs) l) fav
  = favourite_weight pl e0 l fav.
Proof.
  unfold favourite_weight. rewrite sum_list_with_map.
  apply sum_list_with_ext. intros c _.
  rewrite mark_by_matches, mark_by_name. reflexivity.
Qed.

Lemma add_favourites_grows e0 favs l s l' s' :
  frame_view (eng s) = frame_view e0 ->
  add_favourites favs l s = (Ok l', s') ->
  l' = map (mark_by e0 favs) l /\
  G' (sum_list_with (favourite_weight pl e0 l) favs) s s'.
Proof.
  unfold add_favourites.
  revert l s l' s'. induction favs as [|fav favs IH];
    intros l s l' s' Hf H; cbn in H.
  - injection H as <- <-. split; [|apply grows_refl].
    rewrite <- (map_id l) at 1. apply map_ext. intros c. reflexivity.
  - apply bind_Ok in H as (l1 & s1 & Hscan & H).
    destruct (scan_favourite_grows pd pl e0 fav l s l1 s1 Hf Hscan)
      as [-> Hg1].
    assert (Hf1 : frame_view (eng s1) = frame_view e0)
      by (destruct Hg1 as (_ & -> & _); exact Hf).
    destruct (IH _ _ _ _ Hf1 H) as [-> Hg2]. split.
    + rewrite map_map. apply map_ext. intros c. apply mark_by_cons.
    + cbn. apply (grows_trans _ _ _ _ _ _ _ Hg1).
      eapply grows_eq; [|exact Hg2].
      apply sum_list_with_ext. intros f _. apply favourite_weight_mark.
Qed.

Lemma separate_commands_loop_grows l acc s cba s' :
  for_each_acc l acc
    (fun commands_by_app cmd =>
       if bool_decide (get_type cmd = "context_menu") then
         cm <- gets (fun s => _context_menu (gen s)) ;;
         match cm with
         | Some ctx_menu =>
             add_command_to_menu cmd ctx_menu ;; ret commands_by_app
         | None => raise (AttributeError "_context_menu")
         end
       else
         let app_name := group_name cmd in
         let group := default [] (commands_by_app !! app_name) in
         ret (<[app_name := group ++ [cmd]]> commands_by_app)) s
  = (Ok cba, s') ->
  cba = fold_left file_command l acc /\
  G' (sum_list_with (fun c => if is_context_menu c then pl (name c) else 0) l)
    s s'.
Proof.
  revert acc s. induction l as [|c l IH]; intros acc s H; cbn in H.
  - injection H as <- <-. split; [reflexivity|apply grows_refl].
  - apply bind_Ok in H as (acc1 & s1 & Hc & H).
    assert (Hstep : acc1 = file_command acc c /\
                    G' (if is_context_menu c then pl (name c) else 0) s s1).
    { unfold file_command, is_context_menu.
      destruct (bool_decide (get_type c = "context_menu")).
      - apply bind_Ok in Hc as (cm & t & Hcm & Hc). injection Hcm as <- <-.
        destruct (_context_menu (gen s)) as [ctx_menu|]; [|discriminate].
        apply bind_Ok in Hc as ([] & t & Hadd & Hc). injection Hc as <- <-.
        split; [reflexivity|apply (add_command_to_menu_grows _ _ _ _ _ _ Hadd)].
      - injection Hc as <- <-. split; [reflexivity|apply grows_refl]. }
    destruct Hstep as [-> Hstep].
    destruct (IH _ _ H) as [-> Hrest].
    split; [reflexivity|]. cbn. exact (grows_trans _ _ _ _ _ _ _ Hstep Hrest).
Qed.

Lemma separate_commands_grows l s cba s' :
  separate_commands l s = (Ok cba, s') ->
  cba = groups_of l /\
  G' (sum_list_with (fun c => if is_context_menu c then pl (name c) else 0) l)
    s s'.
Proof. apply separate_commands_loop_grows. Qed.

Lemma for_each_grows {A} (l : list A) (body : A -> M GS unit)
    (w : A -> nat) :
  (forall x s s', body x s = (Ok tt, s') -> G' (w x) s s') ->
  forall s s',
    for_each l body s = (Ok tt, s') -> G' (sum_list_with w l) s s'.
Proof.
  intros Hb. induction l as [|x l IH]; intros s s' H; cbn in H.
  - injection H as <-. apply grows_refl.
  - apply bind_Ok in H as ([] & s1 & Hx & H). cbn.
    exact (grows_trans _ _ _ _ _ _ _ (Hb _ _ _ Hx) (IH _ _ H)).
Qed.

Lemma add_app_menu_grows cba s s' :
  _add_app_menu cba s = (Ok tt, s') ->
  G' (sum_list_with (group_weight pl cba)
        (sort_by id (map fst (map_to_list cba))) + pd) s s'.
Proof.
  unfold _add_app_menu. intros H.
  apply bind_Ok in H as ([] & s1 & Hloop & Hdiv).
  apply add_divider_grows with (pd := pd) (pl := pl) in Hdiv.
  refine (grows_trans _ _ _ _ _ _ _ _ Hdiv).
  revert Hloop. apply for_each_grows. clear. intros a s s' H.
  unfold group_weight. destruct (cba !! a) as [cmds|]; [|discriminate].
  destruct (1 <? length cmds)%nat.
  - revert H. apply for_each_grows. intros c t t'.
    apply add_command_to_menu_grows.
  - destruct cmds as [|c cmds]; [discriminate|].
    destruct (favourite c).
    + injection H as <-. apply grows_refl.
    + apply (add_command_to_menu_grows _ _ _ _ _ _ H).
Qed.

(** The weight of the definition that an enabled build leaves when it
    returns, section by section. *)
Lemma create_menu_weight g e s' :
  create_menu false (mkGS g e) = (Ok tt, s') ->
  let cmds := registry_commands e in
  let favs := menu_favourites e in
  let marked := map (mark_by e favs) cmds in
  weight pd pl (gen s')
  = context_menu_weight pd pl (context e) + pd
    + sum_list_with (favourite_weight pl e cmds) favs
    + (if (0 <? length favs)%nat then pd else 0)
    + sum_list_with
        (fun c => if is_context_menu c then pl (name c) else 0) marked
    + (sum_list_with (group_weight pl (groups_of marked))
         (sort_by id (map fst (map_to_list (groups_of marked)))) + pd).
Proof.
  unfold create_menu. cbn [negb]. rewrite bind_on_gen. intros H.
  apply bind_Ok in H as ([] & s1 & H1 & H).
  apply application_menu_setEnabled_grows with (pd := pd) (pl := pl) in H1.
  apply bind_Ok in H as (cm & s2 & H2 & H).
  apply add_context_menu_grows with (pd := pd) (pl := pl) in H2.
  apply bind_Ok in H as ([] & s3 & H3 & H).
  apply on_gen_context_menu_grows with (pd := pd) (pl := pl) in H3.
  apply bind_Ok in H as ([] & s4 & H4 & H).
  apply add_divider_grows with (pd := pd) (pl := pl) in H4.
  apply bind_Ok in H as (l & s5 & H5 & H).
  apply enumerate_commands_grows with (pd := pd) (pl := pl) in H5.
  apply bind_Ok in H as (favs & s6 & H6 & H). injection H6 as <- <-.
  apply bind_Ok in H as (l' & s7 & H7 & H).
  apply bind_Ok in H as ([] & s8 & H8 & H).
  apply bind_Ok in H as (cba & s9 & H9 & H).
  apply separate_commands_grows in H9.
  apply bind_Ok in H as ([] & s10 & H10 & H).
  apply log_debug_grows with (pd := pd) (pl := pl) in H10.
  apply bind_Ok in H as ([] & s11 & H11 & H).
  apply add_app_menu_grows in H11.
  apply application_menu_setEnabled_grows with (pd := pd) (pl := pl) in H.
  destruct H1 as (W1 & F1 & C1). destruct H2 as (W2 & F2 & C2).
  destruct H3 as (W3 & F3 & C3). destruct H4 as (W4 & F4 & C4).
  destruct H5 as (-> & W5 & F5 & C5). cbn in F1, W1.
  assert (Fe5 : frame_view (eng s5) = frame_view e) by congruence.
  assert (Fe4 : frame_view (eng s4) = frame_view e) by congruence.
  assert (Fe1 : frame_view (eng s1) = frame_view e) by congruence.
  pose proof (frame_view_inputs _ _ Fe5) as (Hc5 & _ & _ & Hfv5 & _).
  pose proof (frame_view_inputs _ _ Fe4) as (Hc4 & _ & _ & _ & _).
  pose proof (frame_view_inputs _ _ Fe1) as (_ & _ & Hx1 & _ & _).
  rewrite Hfv5 in H7, H8.
  apply (add_favourites_grows e) in H7; [|exact Fe5].
  destruct H7 as (-> & W7 & F7 & C7).
  assert (W8 : weight pd pl (gen s8)
               = weight pd pl (gen s7)
                 + (if (0 <? length (menu_favourites e))%nat then pd else 0)).
  { destruct (0 <? length (menu_favourites e))%nat.
    - apply add_divider_grows with (pd := pd) (pl := pl) in H8. apply H8.
    - injection H8 as <-. lia. }
  destruct H9 as (-> & W9 & F9 & C9). destruct H10 as (W10 & F10 & C10).
  destruct H11 as (W11 & F11 & C11). destruct H as (W12 & F12 & C12).
  cbv zeta. unfold registry_commands in *. rewrite Hc4 in *.
  rewrite Hx1 in W2.
  rewrite W12, W11, W10, W9, W8, W7, W5, W4, W3, W2, W1. lia.
Qed.
End BuildWeight.
(*EMITS-BEGIN*)
(** ** The entries of an enabled build that returns, one by one *)

Lemma emits_refl (s : GS) : emits [] 0 0 s s.
Proof.
  unfold emits. repeat split; try lia.
  destruct (_menu_def (gen s)); cbn; [rewrite app_nil_r|]; reflexivity.
Qed.

Lemma emits_trans (a b : MenuDefinition) (ni nd ni' nd' : nat)
    (s1 s2 s3 : GS) :
  emits a ni nd s1 s2 -> emits b ni' nd' s2 s3 ->
  emits (a ++ b) (ni + ni') (nd + nd') s1 s3.
Proof.
  intros (H1 & H2 & H3 & H4 & H5) (K1 & K2 & K3 & K4 & K5).
  unfold emits. repeat split; try congruence; try lia.
  rewrite K1, H1. destruct (_menu_def (gen s1)); cbn; [|reflexivity].
  rewrite app_assoc. reflexivity.
Qed.

Lemma emits_eq (a b : MenuDefinition) (ni nd ni' nd' : nat) (s s' : GS) :
  a = b -> ni = ni' -> nd = nd' -> emits a ni nd s s' -> emits b ni' nd' s s'.
Proof. intros -> -> ->. auto. Qed.

Lemma add_divider_emits (p : string) (s s' : GS) :
  _add_divider p s = (Ok tt, s') ->
  emits [(p +:+ "/divider" +:+ pretty (_divider_id (gen s) + 1), Divider)]
    0 1 s s'.
Proof.
  rewrite add_divider_run. destruct (_menu_def (gen s)) as [d|] eqn:Hd;
    intros H; [|discriminate].
  injection H as <-. unfold emits. cbn. rewrite Hd. repeat split. lia.
Qed.

Lemma add_menu_item_emits (n p : string) (cb : option callback)
    (props : option Properties) (s s' : GS) :
  _add_menu_item n p cb props s = (Ok tt, s') ->
  exists d,
    item_description n cb props = Ok d /\
    emits [(p +:+ "/" +:+ n +:+ pretty (_menu_item_id (gen s) + 1), Item d)]
      1 0 s s'.
Proof.
  rewrite add_menu_item_run.
  destruct (item_description n cb props) as [d|x] eqn:Hdesc;
    [|intros H; discriminate].
  destruct (_menu_def (gen s)) as [defs|] eqn:Hd; intros H; [|discriminate].
  injection H as <-. exists d. split; [reflexivity|].
  unfold emits. cbn. rewrite Hd. repeat split. lia.
Qed.

Lemma log_debug_emits (msg : string) (s : GS) (a : unit) (s' : GS) :
  log_debug msg s = (Ok a, s') -> emits [] 0 0 s s'.
Proof.
  unfold log_debug, on_eng, modify. intros H. injection H as _ <-.
  pose proof (emits_refl s) as (H1 & H2 & H3 & _ & H5).
  unfold emits. cbn. repeat split; assumption.
Qed.

Lemma application_menu_setEnabled_emits (b : bool) (s : GS) (a : unit)
    (s' : GS) :
  application_menu_setEnabled b s = (Ok a, s') -> emits [] 0 0 s s'.
Proof.
  unfold application_menu_setEnabled, bind, gets.
  destruct (_application_menu (eng s)) as [v|] eqn:Hm; cbn; intros H;
    [|discriminate].
  injection H as _ <-.
  pose proof (emits_refl s) as (H1 & H2 & H3 & _ & H5).
  unfold emits. cbn. repeat split; try assumption.
  apply frame_view_set_enabled. rewrite Hm. eauto.
Qed.

Lemma add_context_menu_emits (s : GS) (cm : string) (s' : GS) :
  _add_context_menu "" s = (Ok cm, s') ->
  cm = _add_sub_menu (ctx_str (context (eng s))) "" /\
  emits (context_entries (gen s) (eng s)) (context_item_count (eng s)) 1 s s'.
Proof.
  unfold _add_context_menu. intros H.
  apply bind_Ok in H as (ctx & s0 & H0 & H). injection H0 as <- <-.
  apply bind_Ok in H as ([] & s1 & H1 & H).
  apply add_menu_item_emits in H1 as (d1 & Hd1 & H1).
  cbn in Hd1. injection Hd1 as <-.
  apply bind_Ok in H as ([] & s2 & H2 & H).
  apply bind_Ok in H as ([] & s3 & H3 & H).
  apply add_divider_emits in H3. injection H as <- <-.
  split; [reflexivity|].
  unfold context_entries, context_item_count.
  destruct (filesystem_locations (context (eng s))) as [|loc locs].
  - injection H2 as <-.
    eapply emits_eq; [| | |exact (emits_trans _ _ _ _ _ _ _ _ _ H1 H3)];
      [|reflexivity|reflexivity].
    destruct H1 as (_ & _ & Hv & _). rewrite Hv, Nat.add_0_r. reflexivity.
  - apply add_menu_item_emits in H2 as (d2 & Hd2 & H2).
    cbn in Hd2. injection Hd2 as <-.
    eapply emits_eq;
      [| | |exact (emits_trans _ _ _ _ _ _ _ _ _
                     (emits_trans _ _ _ _ _ _ _ _ _ H1 H2) H3)];
      [|reflexivity|reflexivity].
    destruct H1 as (_ & Hi & Hv & _). destruct H2 as (_ & _ & Hv2 & _).
    rewrite Hv2, Hv, Hi, !Nat.add_0_r.
    replace (_menu_item_id (gen s) + 1 + 1) with (_menu_item_id (gen s) + 2)
      by lia.
    reflexivity.
Qed.

Lemma numbered_app (id : nat) (a b : list (string * AppCommand)) :
  numbered id (a ++ b) = numbered id a ++ numbered (id + length a) b.
Proof.
  revert id. induction a as [|[menu c] a IH]; intros id; cbn.
  - rewrite Nat.add_0_r. reflexivity.
  - rewrite IH, <- app_assoc.
    replace (id + 1 + length a) with (id + S (length a)) by lia.
    reflexivity.
Qed.

Lemma places_refl (s : GS) : places [] s s.
Proof. split; [constructor|apply emits_refl]. Qed.

Lemma places_trans (a b : list (string * AppCommand)) (s1 s2 s3 : GS) :
  places a s1 s2 -> places b s2 s3 -> places (a ++ b) s1 s3.
Proof.
  intros [Ra Ha] [Rb Hb]. split; [apply Forall_app; auto|].
  rewrite numbered_app, length_app.
  eapply emits_eq; [| | |exact (emits_trans _ _ _ _ _ _ _ _ _ Ha Hb)];
    [|reflexivity|reflexivity].
  destruct Ha as (_ & -> & _). reflexivity.
Qed.

Lemma places_eq (a b : list (string * AppCommand)) (s s' : GS) :
  a = b -> places a s s' -> places b s s'.
Proof. intros ->. auto. Qed.

Lemma places_frame (a : list (string * AppCommand)) (s s' : GS) :
  places a s s' -> frame_view (eng s') = frame_view (eng s).
Proof. intros (_ & _ & _ & _ & H & _). exact H. Qed.

Lemma places_context_menu (a : list (string * AppCommand)) (s s' : GS) :
  places a s s' -> _context_menu (gen s') = _context_menu (gen s).
Proof. intros (_ & _ & _ & _ & _ & H). exact H. Qed.

Lemma add_command_to_menu_places (c : AppCommand) (menu : string)
    (s s' : GS) :
  add_command_to_menu c menu s = (Ok tt, s') -> places [(menu, c)] s s'.
Proof.
  intros H. apply add_menu_item_emits in H as (d & Hd & H).
  split; [constructor; [exists d; exact Hd|constructor]|].
  unfold numbered, command_item. rewrite Hd, app_nil_r. exact H.
Qed.

Lemma log_debug_places (msg : string) (s : GS) (a : unit) (s' : GS) :
  log_debug msg s = (Ok a, s') -> places [] s s'.
Proof. intros H. split; [constructor|apply (log_debug_emits _ _ _ _ H)]. Qed.

Lemma for_each_places {A} (l : list A) (body : A -> M GS unit)
    (place : A -> list (string * AppCommand)) :
  (forall x s s', body x s = (Ok tt, s') -> places (place x) s s') ->
  forall s s',
    for_each l body s = (Ok tt, s') -> places (flat_map place l) s s'.
Proof.
  intros Hb. induction l as [|x l IH]; intros s s' H; cbn in H.
  - injection H as <-. apply places_refl.
  - apply bind_Ok in H as ([] & s1 & Hx & H). cbn.
    exact (places_trans _ _ _ _ _ (Hb _ _ _ Hx) (IH _ _ H)).
Qed.

(** Marking a command as a favourite changes nothing of its item. *)
Lemma numbered_mark (e : Engine) (favs : list Favourite) (menu : string)
    (id : nat) (l : list AppCommand) :
  numbered id (map (fun c => (menu, mark_by e favs c)) l)
  = numbered id (map (fun c => (menu, c)) l).
Proof.
  revert id. induction l as [|c l IH]; intros id; [reflexivity|]. cbn.
  rewrite IH. unfold command_item.
  rewrite mark_by_name, mark_by_properties.
  replace (cmd_callback (mark_by e favs c)) with (cmd_callback c)
    by (unfold mark_by; destruct (existsb _ favs); reflexivity).
  reflexivity.
Qed.

Lemma returned_mark (e : Engine) (favs : list Favourite) (menu : string)
    (l : list AppCommand) :
  returned (map (fun c => (menu, mark_by e favs c)) l) <->
  returned (map (fun c => (menu, c)) l).
Proof.
  unfold returned. rewrite !Forall_map. apply Forall_proper; [|reflexivity].
  intros c. cbn. unfold command_item.
  rewrite mark_by_name, mark_by_properties.
  replace (cmd_callback (mark_by e favs c)) with (cmd_callback c)
    by (unfold mark_by; destruct (existsb _ favs); reflexivity).
  reflexivity.
Qed.

Lemma filter_matches_mark (e : Engine) (favs : list Favourite)
    (fav : Favourite) (l : list AppCommand) :
  filter (fun c => matches_favourite e fav c = true)
    (map (mark_by e favs) l)
  = map (mark_by e favs)
      (filter (fun c => matches_favourite e fav c = true) l).
Proof.
  induction l as [|c l IH]; [reflexivity|]. cbn [map].
  rewrite !filter_cons, mark_by_matches.
  destruct (decide (matches_favourite e fav c = true)); cbn; rewrite IH;
    reflexivity.
Qed.

(** The scan of the commands for one favourite. *)
Lemma scan_favourite_places (e0 : Engine) (fav : Favourite)
    (l : list AppCommand) (s : GS) (l' : list AppCommand) (s' : GS) :
  frame_view (eng s) = frame_view e0 ->
  for_each_upd l
    (fun cmd =>
       log_debug ("cmd: " +:+ name cmd) ;;
       found <- gets (fun s => matches_favourite (eng s) fav cmd) ;;
       if (found : bool) then
         add_command_to_menu cmd "" ;; ret (mark_favourite cmd)
       else ret cmd) s = (Ok l', s') ->
  places (map (fun c => ("", c))
            (filter (fun c => matches_favourite e0 fav c = true) l)) s s'.
Proof.
  revert s l' s'. induction l as [|c l IH]; intros s l' s' Hf H; cbn in H.
  - injection H as <- <-. apply places_refl.
  - apply bind_Ok in H as (c' & s1 & Hc & H).
    apply bind_Ok in H as (l1 & s2 & Hl & H). injection H as <- <-.
    apply bind_Ok in Hc as ([] & t1 & Hlog & Hc).
    apply log_debug_places in Hlog.
    apply bind_Ok in Hc as (found & t2 & Hfound & Hc).
    injection Hfound as <- <-.
    assert (Hf1 : frame_view (eng t1) = frame_view e0)
      by (rewrite (places_frame _ _ _ Hlog); exact Hf).
    rewrite (matches_favourite_frame _ e0 fav c Hf1) in Hc.
    rewrite filter_cons.
    destruct (matches_favourite e0 fav c) eqn:Hm.
    + apply bind_Ok in Hc as ([] & t3 & Hadd & Hc). injection Hc as <- <-.
      apply add_command_to_menu_places in Hadd.
      assert (Hf2 : frame_view (eng t3) = frame_view e0)
        by (rewrite (places_frame _ _ _ Hadd); exact Hf1).
      rewrite decide_True by reflexivity. cbn [map].
      change (("", c) :: ?r) with ([] ++ [("", c)] ++ r).
      exact (places_trans _ _ _ _ _ Hlog
               (places_trans _ _ _ _ _ Hadd (IH _ _ _ Hf2 Hl))).
    + injection Hc as <- <-.
      rewrite decide_False by discriminate.
      exact (places_trans [] _ _ _ _ Hlog (IH _ _ _ Hf1 Hl)).
Qed.

Lemma favourite_placements_mark (e0 : Engine) (fav : Favourite)
    (favs : list Favourite) (l : list AppCommand) :
  (forall id,
     numbered id (favourite_placements e0 favs (map (mark_by e0 [fav]) l))
     = numbered id (favourite_placements e0 favs l)) /\
  length (favourite_placements e0 favs (map (mark_by e0 [fav]) l))
  = length (favourite_placements e0 favs l) /\
  (returned (favourite_placements e0 favs (map (mark_by e0 [fav]) l)) ->
   returned (favourite_placements e0 favs l)).
Proof.
  unfold favourite_placements.
  induction favs as [|f favs (IHn & IHl & IHr)]; [repeat split; auto|].
  cbn [flat_map]. split; [|split].
  - intros id. rewrite !numbered_app, IHn.
    rewrite filter_matches_mark, map_map, !length_map.
    rewrite (numbered_mark e0 [fav] ""). reflexivity.
  - rewrite !length_app, IHl, filter_matches_mark, !length_map. reflexivity.
  - unfold returned in *. rewrite !Forall_app. intros [H1 H2].
    split; [|apply IHr, H2].
    rewrite filter_matches_mark, map_map in H1.
    apply (returned_mark e0 [fav] "") in H1. exact H1.
Qed.

Lemma add_favourites_places (e0 : Engine) (favs : list Favourite)
    (l : list AppCommand) (s : GS) (l' : list AppCommand) (s' : GS) :
  frame_view (eng s) = frame_view e0 ->
  add_favourites favs l s = (Ok l', s') ->
  places (favourite_placements e0 favs l) s s'.
Proof.
  unfold add_favourites.
  revert l s l' s'. induction favs as [|fav favs IH];
    intros l s l' s' Hf H; cbn in H.
  - injection H as <- <-. apply places_refl.
  - apply bind_Ok in H as (l1 & s1 & Hscan & H).
    pose proof (scan_favourite_places e0 fav l s l1 s1 Hf Hscan) as Hp1.
    destruct (scan_favourite_grows 0 (fun _ => 0) e0 fav l s l1 s1 Hf Hscan)
      as [-> _].
    assert (Hf1 : frame_view (eng s1) = frame_view e0)
      by (rewrite (places_frame _ _ _ Hp1); exact Hf).
    pose proof (IH _ _ _ _ Hf1 H) as [Hr He].
    destruct (favourite_placements_mark e0 fav favs l) as (Hn & Hl & Hret).
    change (favourite_placements e0 (fav :: favs) l)
      with (map (fun c => ("", c))
              (filter (fun c => matches_favourite e0 fav c = true) l)
            ++ favourite_placements e0 favs l).
    refine (places_trans _ _ _ _ _ Hp1 _).
    split; [apply Hret, Hr|]. rewrite <- Hn, <- Hl. exact He.
Qed.
(*EMITS-END*)
(*EMITS2-BEGIN*)
Lemma enumerate_commands_emits (s : GS) (l : list AppCommand) (s' : GS) :
  enumerate_commands s = (Ok l, s') ->
  l = registry_commands (eng s) /\ emits [] 0 0 s s'.
Proof.
  destruct (enumerate_commands_run s) as (s0 & -> & Hg & Hf).
  intros H. injection H as <- <-. split; [reflexivity|].
  pose proof (emits_refl s) as (H1 & H2 & H3 & _ & H5).
  unfold emits. rewrite Hg. repeat split; assumption.
Qed.

Lemma separate_commands_loop_places (cm : string) (l : list AppCommand)
    (acc : gmap string (list AppCommand)) (s : GS)
    (cba : gmap string (list AppCommand)) (s' : GS) :
  _context_menu (gen s) = Some cm ->
  for_each_acc l acc
    (fun commands_by_app cmd =>
       if bool_decide (get_type cmd = "context_menu") then
         cm <- gets (fun s => _context_menu (gen s)) ;;
         match cm with
         | Some ctx_menu =>
             add_command_to_menu cmd ctx_menu ;; ret commands_by_app
         | None => raise (AttributeError "_context_menu")
         end
       else
         let app_name := group_name cmd in
         let group := default [] (commands_by_app !! app_name) in
         ret (<[app_name := group ++ [cmd]]> commands_by_app)) s
  = (Ok cba, s') ->
  places (context_placements cm l) s s'.
Proof.
  revert acc s. induction l as [|c l IH]; intros acc s Hcm H; cbn in H.
  - injection H as <- <-. apply places_refl.
  - apply bind_Ok in H as (acc1 & s1 & Hc & H).
    unfold context_placements. rewrite filter_cons. unfold is_context_menu.
    destruct (bool_decide (get_type c = "context_menu")) eqn:Hctx.
    + apply bind_Ok in Hc as (cm' & t & Hcm' & Hc). injection Hcm' as <- <-.
      rewrite Hcm in Hc.
      apply bind_Ok in Hc as ([] & t & Hadd & Hc). injection Hc as <- <-.
      apply add_command_to_menu_places in Hadd.
      rewrite decide_True by reflexivity. cbn [map].
      change ((cm, c) :: ?r) with ([(cm, c)] ++ r).
      refine (places_trans _ _ _ _ _ Hadd _).
      apply (IH acc t); [|exact H].
      rewrite (places_context_menu _ _ _ Hadd). exact Hcm.
    + injection Hc as <- <-. rewrite decide_False by discriminate.
      apply (IH _ s Hcm H).
Qed.

Lemma separate_commands_places (cm : string) (l : list AppCommand) (s : GS)
    (cba : gmap string (list AppCommand)) (s' : GS) :
  _context_menu (gen s) = Some cm ->
  separate_commands l s = (Ok cba, s') ->
  places (context_placements cm l) s s'.
Proof. apply separate_commands_loop_places. Qed.

Lemma flat_map_singleton {A B} (f : A -> B) (l : list A) :
  flat_map (fun x => [f x]) l = map f l.
Proof. induction l as [|x l IH]; [reflexivity|]. cbn. rewrite IH. reflexivity. Qed.

Lemma add_app_menu_places (cba : gmap string (list AppCommand)) (s s' : GS) :
  _add_app_menu cba s = (Ok tt, s') ->
  exists s1,
    places (app_placements cba) s s1 /\
    emits [("" +:+ "/divider" +:+ pretty (_divider_id (gen s1) + 1), Divider)]
      0 1 s1 s'.
Proof.
  unfold _add_app_menu. intros H.
  apply bind_Ok in H as ([] & s1 & Hloop & Hdiv).
  apply add_divider_emits in Hdiv. exists s1. split; [|exact Hdiv].
  revert Hloop. apply for_each_places. clear. intros a s s' H.
  unfold group_placements. destruct (cba !! a) as [cmds|]; [|discriminate].
  destruct (1 <? length cmds)%nat.
  - rewrite <- flat_map_singleton. revert H. apply for_each_places.
    intros c t t'. apply add_command_to_menu_places.
  - destruct cmds as [|c cmds]; [discriminate|].
    destruct (favourite c).
    + injection H as <-. apply places_refl.
    + apply (add_command_to_menu_places _ _ _ _ H).
Qed.

(** The menu definition that an enabled build leaves when it returns. *)
Lemma create_menu_definition (g : MenuGenerator) (e : Engine) (s' : GS) :
  create_menu false (mkGS g e) = (Ok tt, s') ->
  let favs := menu_favourites e in
  let marked := map (mark_by e favs) (registry_commands e) in
  _menu_def (gen s') = Some (expected_definition g e) /\
  returned (favourite_placements e favs (registry_commands e)) /\
  returned (context_placements (_add_sub_menu (ctx_str (context e)) "") marked
            ++ app_placements (groups_of marked)).
Proof.
  unfold create_menu. cbn [negb]. rewrite bind_on_gen. intros H.
  apply bind_Ok in H as ([] & s1 & H1 & H).
  apply application_menu_setEnabled_emits in H1.
  apply bind_Ok in H as (cm & s2 & H2 & H).
  apply add_context_menu_emits in H2 as [Hcm H2].
  apply bind_Ok in H as ([] & s3 & H3 & H).
  unfold on_gen, modify in H3. injection H3 as <-.
  apply bind_Ok in H as ([] & s4 & H4 & H).
  apply add_divider_emits in H4.
  apply bind_Ok in H as (l & s5 & H5 & H).
  apply enumerate_commands_emits in H5 as [-> H5].
  apply bind_Ok in H as (favs & s6 & H6 & H). injection H6 as <- <-.
  apply bind_Ok in H as (l' & s7 & H7 & H).
  apply bind_Ok in H as ([] & s8 & H8 & H).
  apply bind_Ok in H as (cba & s9 & H9 & H).
  apply bind_Ok in H as ([] & s10 & H10 & H).
  apply log_debug_emits in H10.
  apply bind_Ok in H as ([] & s11 & H11 & H).
  apply add_app_menu_places in H11 as (s11' & H11 & H11d).
  apply application_menu_setEnabled_emits in H.
  destruct H1 as (D1 & I1 & V1 & F1 & C1). cbn in D1, I1, V1, F1, C1.
  destruct H2 as (D2 & I2 & V2 & F2 & C2).
  destruct H4 as (D4 & I4 & V4 & F4 & C4). cbn in D4, I4, V4, F4, C4.
  destruct H5 as (D5 & I5 & V5 & F5 & C5).
  assert (Fe1 : frame_view (eng s1) = frame_view e) by congruence.
  assert (Fe4 : frame_view (eng s4) = frame_view e) by congruence.
  assert (Fe5 : frame_view (eng s5) = frame_view e) by congruence.
  pose proof (frame_view_inputs _ _ Fe5) as (Hc5 & _ & _ & Hfv5 & _).
  pose proof (frame_view_inputs _ _ Fe4) as (Hc4 & _ & _ & _ & _).
  pose proof (frame_view_inputs _ _ Fe1) as (_ & _ & Hx1 & _ & _).
  rewrite Hfv5 in H7, H8.
  assert (Hreg : registry_commands (eng s4) = registry_commands e)
    by (unfold registry_commands; rewrite Hc4; reflexivity).
  rewrite Hreg in H7.
  pose proof (add_favourites_places e _ _ _ _ _ Fe5 H7) as [R7 H7p].
  destruct (add_favourites_grows 0 (fun _ => 0) e _ _ _ _ _ Fe5 H7)
    as [-> _].
  destruct H7p as (D7 & I7 & V7 & F7 & C7).
  assert (H8e : emits
                  (if (0 <? length (menu_favourites e))%nat
                   then [("" +:+ "/divider" +:+ pretty (_divider_id (gen s7) + 1),
                          Divider)]
                   else [])
                  0 (if (0 <? length (menu_favourites e))%nat then 1 else 0)
                  s7 s8).
  { destruct (0 <? length (menu_favourites e))%nat.
    - apply add_divider_emits in H8. exact H8.
    - injection H8 as <-. apply emits_refl. }
  destruct H8e as (D8 & I8 & V8 & F8 & C8).
  assert (Hcm8 : _context_menu (gen s8) = Some cm) by congruence.
  pose proof (separate_commands_places cm _ _ _ _ Hcm8 H9) as [R9 H9p].
  destruct (separate_commands_grows 0 (fun _ => 0) _ _ _ _ H9) as [-> _].
  destruct H9p as (D9 & I9 & V9 & F9 & C9).
  destruct H10 as (D10 & I10 & V10 & F10 & C10).
  destruct H11 as [R11 (D11 & I11 & V11 & F11 & C11)].
  destruct H11d as (D11d & I11d & V11d & F11d & C11d).
  destruct H as (D12 & I12 & V12 & F12 & C12).
  cbv zeta. rewrite Hcm, Hx1 in *. split; [|split].
  - rewrite D12, D11d, D11, D10, D9, D8, D7, D5, D4, D2, D1. cbn [fmap option_fmap option_map].
    unfold expected_definition. cbv zeta. f_equal. cbn [app].
    assert (Hcic : context_item_count (eng s1) = context_item_count e)
      by (unfold context_item_count; rewrite Hx1; reflexivity).
    assert (Ei1 : _menu_item_id (gen s1) = _menu_item_id g) by lia.
    assert (Ev1 : _divider_id (gen s1) = _divider_id g) by lia.
    assert (Ev2 : _divider_id (gen s2) = _divider_id g + 1) by lia.
    assert (Ei5 : _menu_item_id (gen s5)
                  = _menu_item_id g + context_item_count e) by lia.
    assert (Ev7 : _divider_id (gen s7) = _divider_id g + 2) by lia.
    assert (Ei8 : _menu_item_id (gen s8)
                  = _menu_item_id g + context_item_count e
                    + length (favourite_placements e (menu_favourites e)
                                (registry_commands e))) by lia.
    assert (Ei10 : _menu_item_id (gen s10)
                   = _menu_item_id (gen s8)
                     + length (context_placements
                                 (_add_sub_menu (ctx_str (context e)) "")
                                 (map (mark_by e (menu_favourites e))
                                    (registry_commands e)))) by lia.
    assert (Ev11 : _divider_id (gen s11')
                   = _divider_id g + 2
                     + (if (0 <? length (menu_favourites e))%nat
                        then 1 else 0)) by lia.
    rewrite numbered_app, <- Ei8, <- Ei10.
    replace (context_entries (gen s1) (eng s1)) with (context_entries g e)
      by (unfold context_entries; rewrite Ei1, Ev1, Hx1; reflexivity).
    rewrite Ev2, Ei5, Ev7, Ev11. rewrite <- !app_assoc, ?app_nil_r. cbn [app].
    replace (_divider_id g + 2 + 1) with (_divider_id g + 3) by lia.
    repeat (f_equal; try lia).
  - exact R7.
  - apply Forall_app. split; [exact R9|exact R11].
Qed.
(*EMITS2-END*)

(** ** Sorting keeps the elements *)

Lemma insert_by_Permutation {A} (key : A -> string) (x : A) (l : list A) :
  insert_by key x l ≡ₚ x :: l.
Proof.
  induction l as [|y l IH]; cbn; [reflexivity|].
  destruct (String.ltb (key x) (key y)); [reflexivity|].
  rewrite IH. apply Permutation_swap.
Qed.

Lemma sort_by_acc_Permutation {A} (key : A -> string) (l acc : list A) :
  fold_left (fun acc x => insert_by key x acc) l acc ≡ₚ l ++ acc.
Proof.
  revert acc. induction l as [|x l IH]; intros acc; cbn; [reflexivity|].
  rewrite IH, insert_by_Permutation. symmetry. apply Permutation_middle.
Qed.

Lemma sort_by_Permutation {A} (key : A -> string) (l : list A) :
  sort_by key l ≡ₚ l.
Proof.
  unfold sort_by. rewrite sort_by_acc_Permutation, app_nil_r. reflexivity.
Qed.

Lemma registry_commands_Permutation (e : Engine) :
  registry_commands e
  ≡ₚ map (fun kv => AppCommand_init kv.1 kv.2) (map_to_list (commands e)).
Proof. apply sort_by_Permutation. Qed.

Lemma elem_of_registry_commands (e : Engine) (c : AppCommand) :
  c ∈ registry_commands e <->
  exists cd, commands e !! name c = Some cd /\ c = AppCommand_init (name c) cd.
Proof.
  rewrite registry_commands_Permutation, list_elem_of_fmap. split.
  - intros ([n cd] & -> & Hin). apply elem_of_map_to_list in Hin.
    exists cd. cbn. auto.
  - intros (cd & Hcd & Hc). exists (name c, cd). split; [exact Hc|].
    apply elem_of_map_to_list. exact Hcd.
Qed.

(** ** A favourite that matches no command *)

(** The scan for a favourite that matches none of the commands adds
    nothing, marks nothing and does not raise. *)
Lemma scan_unmatched (e0 : Engine) (fav : Favourite) (l : list AppCommand)
    (s : GS) :
  frame_view (eng s) = frame_view e0 ->
  Forall (fun c => matches_favourite e0 fav c = false) l ->
  exists s',
    for_each_upd l
      (fun cmd =>
         log_debug ("cmd: " +:+ name cmd) ;;
         found <- gets (fun s => matches_favourite (eng s) fav cmd) ;;
         if (found : bool) then
           add_command_to_menu cmd "" ;; ret (mark_favourite cmd)
         else ret cmd) s = (Ok l, s') /\
    gen s' = gen s /\ frame_view (eng s') = frame_view (eng s).
Proof.
  intros Hf Hl. revert s Hf.
  induction Hl as [|c l Hc Hl IH]; intros s Hf; cbn.
  - exists s. auto.
  - destruct (IH (mkGS (gen s) (add_log (LogDebug ("cmd: " +:+ name c)) (eng s))))
      as (s' & Hrun & Hg & Hfr); [exact Hf|].
    exists s'. unfold bind at 1. unfold bind at 1.
    unfold log_debug at 1, on_eng at 1, modify at 1.
    unfold bind at 1, gets at 1. cbn [eng].
    rewrite (matches_favourite_frame _ e0) by exact Hf. rewrite Hc.
    unfold ret at 1. unfold bind at 1. rewrite Hrun. auto.
Qed.

Lemma for_each_acc_app {S A B} (l1 l2 : list A) (acc : B)
    (f : B -> A -> M S B) (s : S) :
  for_each_acc (l1 ++ l2) acc f s
  = bind (for_each_acc l1 acc f) (fun acc' => for_each_acc l2 acc' f) s.
Proof.
  revert acc s. induction l1 as [|x l1 IH]; intros acc s; cbn; [reflexivity|].
  unfold bind in *. destruct (f acc x s) as [[acc'|exc] s']; [|reflexivity].
  apply IH.
Qed.

Lemma rel_run_ext {S A} (P Q E : S -> S -> Prop) (V : A -> A -> Prop)
    (m1 m1' m2 m2' : M S A) :
  (forall s, m1 s = m1' s) -> (forall s, m2 s = m2' s) ->
  rel_run P V Q E m1' m2' -> rel_run P V Q E m1 m2.
Proof. intros H1 H2 H s1 s2 HP. rewrite H1, H2. apply H, HP. Qed.

Lemma same_items_add_divider (e1 e2 : Engine) (b : bool) (p : string) :
  rel_run (related same_items b e1 e2) eq (related same_items b e1 e2)
    (related same_items false e1 e2) (_add_divider p) (_add_divider p).
Proof.
  apply alike_add_divider;
    [apply same_items_defined|apply same_items_with_divider].
Qed.

Lemma same_items_add_menu_item (e1 e2 : Engine) (b : bool) (n p : string)
    (cb : option callback) (props : option Properties) :
  rel_run (related same_items b e1 e2) eq (related same_items b e1 e2)
    (related same_items false e1 e2) (_add_menu_item n p cb props)
    (_add_menu_item n p cb props).
Proof.
  apply alike_add_menu_item;
    [apply same_items_defined|apply same_items_with_item
    |apply same_items_item_id].
Qed.

(** A divider added in the first run only keeps the items alike. *)
Lemma same_items_divider_left (e1 e2 : Engine) (b : bool) (p : string) :
  rel_run (related same_items b e1 e2) eq (related same_items b e1 e2)
    (related same_items false e1 e2) (_add_divider p) (ret tt).
Proof.
  intros s1 s2 HR. rewrite add_divider_run. unfold agree, ret. cbn.
  destruct HR as (Hv1 & Hv2 & (Hs & Hi & Hit) & Hc).
  destruct Hs as [d Hd]. rewrite Hd. split; [reflexivity|].
  repeat split; cbn; try assumption.
  - rewrite Hd. eexists. reflexivity.
  - rewrite <- Hit. unfold items. cbn. rewrite Hd. cbn.
    rewrite filter_app. cbn. rewrite app_nil_r. reflexivity.
Qed.

(** The scans for [pre ++ fav :: post] and for [pre ++ post] side by
    side, when [fav] matches none of the commands. *)
Lemma add_favourites_unmatched (e1 e2 : Engine) (pre post : list Favourite)
    (fav : Favourite) (l : list AppCommand) :
  same_inputs e1 e2 ->
  Forall (fun c => matches_favourite e1 fav c = false) l ->
  rel_run (related same_items true e1 e2) eq (related same_items true e1 e2)
    (related same_items false e1 e2)
    (add_favourites (pre ++ fav :: post) l) (add_favourites (pre ++ post) l).
Proof.
  intros Hin Hl. unfold add_favourites.
  eapply rel_run_ext; [intros s; apply for_each_acc_app..|].
  eapply rel_bind
    with (V := fun l1 l2 =>
                 l1 = l2 /\ Forall (fun c => matches_favourite e1 fav c = false) l1).
  - apply rel_for_each_acc; [|split; [reflexivity|exact Hl]].
    intros l1 ? f [<- Hl1]. apply rel_for_each_upd_all; [|exact Hl1].
    intros c Hc.
    eapply rel_bind; [apply (related_log_debug same_items e1 e2)|intros _ _ _].
    eapply rel_bind with (V := eq).
    { apply rel_gets. intros s1 s2 HR. apply matches_favourite_apps.
      apply (related_inputs same_items e1 e2 Hin _ _ _ HR). }
    intros found ? <-. destruct found.
    + eapply rel_bind; [apply same_items_add_menu_item|intros _ _ _].
      apply rel_ret. split; [reflexivity|exact Hc].
    + apply rel_ret. split; [reflexivity|exact Hc].
  - intros l1 ? [<- Hl1]. cbn [for_each_acc].
    apply rel_left_step with (a := l1).
    + intros s1 s2 HR. pose proof HR as (Hv1 & Hv2 & Hg & Hc).
      destruct (scan_unmatched e1 fav l1 s1 Hv1 Hl1) as (s1' & Hrun & Hg1 & Hf1).
      exists s1'. split; [exact Hrun|].
      unfold related. rewrite Hg1, Hf1. auto.
    + apply (related_add_favourites same_items e1 e2 Hin).
      intros b n p cb props. apply same_items_add_menu_item.
Qed.

Lemma divider_count_weight_zero (l : list AppCommand) (f : AppCommand -> bool) :
  sum_list_with (fun c => if f c then 0 else 0) l = 0.
Proof. apply sum_list_with_zero. intros c _. destruct (f c); reflexivity. Qed.

(** The dividers of an enabled build that returns: the one that closes
    the context submenu, the one under it, the trailing one, and one
    after the favourites when the setting lists any. *)
Lemma create_menu_divider_count (g : MenuGenerator) (e : Engine) (s' : GS) :
  create_menu false (mkGS g e) = (Ok tt, s') ->
  divider_count (gen s')
  = 3 + match menu_favourites e with [] => 0 | _ :: _ => 1 end.
Proof.
  intros H. unfold divider_count.
  rewrite (create_menu_weight 1 (fun _ => 0) g e s' H).
  unfold context_menu_weight.
  rewrite (sum_list_with_zero (favourite_weight _ _ _)).
  2:{ intros f _. apply divider_count_weight_zero. }
  rewrite divider_count_weight_zero.
  rewrite (sum_list_with_zero (group_weight _ _)).
  2:{ intros a _. unfold group_weight.
      destruct (_ !! a) as [cmds|]; [|reflexivity].
      destruct (1 <? length cmds)%nat.
      - apply sum_list_with_zero. reflexivity.
      - destruct cmds as [|c cmds]; [reflexivity|].
        destruct (favourite c); reflexivity. }
  destruct (filesystem_locations (context e)), (menu_favourites e); cbn; lia.
Qed.



Lemma scenario_registry_unmatched (open save render : nat) :
  forall n cd,
    scenario_registry open save render !! n = Some cd ->
    matches_favourite
      (engine_with shot_context [] (scenario_registry open save render))
      (mkFavourite "AppB" "Export") (AppCommand_init n cd) = false.
Proof.
  intros n cd H. unfold scenario_registry in H.
  apply lookup_insert_Some in H as [[<- <-]|[_ H]]; [reflexivity|].
  apply lookup_insert_Some in H as [[<- <-]|[_ H]]; [reflexivity|].
  apply lookup_insert_Some in H as [[<- <-]|[_ H]]; [reflexivity|].
  rewrite lookup_empty in H. discriminate.
Qed.


(** ** How often a command is emitted *)

Lemma sum_list_with_unique {A} (key : A -> string) (f : A -> nat)
    (l : list A) (x : A) :
  NoDup (map key l) ->
  x ∈ l ->
  (forall y, y ∈ l -> key y <> key x -> f y = 0) ->
  sum_list_with f l = f x.
Proof.
  induction l as [|y l IH]; intros Hnd Hx Hz; [inversion Hx|].
  cbn in Hnd. apply NoDup_cons in Hnd as [Hy Hnd]. cbn.
  apply elem_of_cons in Hx as [->|Hx].
  - rewrite (sum_list_with_zero f l); [lia|].
    intros z Hz'. apply Hz; [right; exact Hz'|].
    intros Heq. apply Hy. rewrite <- Heq. apply list_elem_of_fmap_2, Hz'.
  - rewrite (Hz y); [|left|].
    + rewrite IH; [reflexivity|exact Hnd|exact Hx|].
      intros z Hz' Hne. apply Hz; [right; exact Hz'|exact Hne].
    + intros Heq. apply Hy. rewrite Heq. apply list_elem_of_fmap_2, Hx.
Qed.

Lemma sum_list_with_at_most_one (f : string -> nat) (l : list string)
    (x : string) :
  NoDup l ->
  (forall y, y ∈ l -> y <> x -> f y = 0) ->
  sum_list_with f l = if bool_decide (x ∈ l) then f x else 0.
Proof.
  intros Hnd Hz. destruct (bool_decide (x ∈ l)) eqn:Hx.
  - apply bool_decide_eq_true in Hx.
    apply (sum_list_with_unique id); [rewrite map_id; exact Hnd|exact Hx|].
    intros y Hy Hne. apply Hz; assumption.
  - apply bool_decide_eq_false in Hx. apply sum_list_with_zero.
    intros y Hy. apply Hz; [exact Hy|]. intros ->. contradiction.
Qed.

Lemma registry_commands_names (e : Engine) :
  NoDup (map name (registry_commands e)).
Proof.
  rewrite registry_commands_Permutation, map_map. cbn.
  apply (NoDup_fst_map_to_list (commands e)).
Qed.

(** What [commands_by_app] holds under a name once the loop is over. *)
Lemma fold_file_command_lookup (l : list AppCommand)
    (m : gmap string (list AppCommand)) (a : string) :
  fold_left file_command l m !! a
  = match group_members a l with
    | [] => m !! a
    | members => Some (default [] (m !! a) ++ members)
    end.
Proof.
  revert m. induction l as [|c l IH]; intros m; [reflexivity|].
  cbn [fold_left]. rewrite IH. unfold group_members, file_command.
  destruct (is_context_menu c) eqn:Hctx.
  - rewrite filter_cons_False; [reflexivity|].
    intros [Hc _]. rewrite Hctx in Hc. discriminate.
  - destruct (decide (group_name c = a)) as [Ha|Ha].
    + rewrite filter_cons_True by auto. rewrite Ha, lookup_insert_eq. cbn.
      destruct (filter _ l); [reflexivity|].
      rewrite <- app_assoc. reflexivity.
    + rewrite filter_cons_False by (intros [_ H]; contradiction).
      rewrite lookup_insert_ne by exact Ha. reflexivity.
Qed.

Lemma groups_of_lookup (l : list AppCommand) (a : string) :
  groups_of l !! a
  = match group_members a l with
    | [] => None
    | members => Some members
    end.
Proof.
  unfold groups_of. rewrite fold_file_command_lookup, lookup_empty.
  destruct (group_members a l); reflexivity.
Qed.

Lemma group_members_mark (e : Engine) (favs : list Favourite) (a : string)
    (l : list AppCommand) :
  group_members a (map (mark_by e favs) l)
  = map (mark_by e favs) (group_members a l).
Proof.
  unfold group_members. induction l as [|c l IH]; [reflexivity|]. cbn [map].
  assert (Hiff : (is_context_menu (mark_by e favs c) = false /\
                  group_name (mark_by e favs c) = a)
                 <-> (is_context_menu c = false /\ group_name c = a)).
  { unfold is_context_menu, group_name, get_type, get_app_name.
    rewrite mark_by_properties. reflexivity. }
  destruct (decide (is_context_menu c = false /\ group_name c = a)) as [H|H].
  - rewrite (filter_cons_True _ (mark_by e favs c)) by (apply Hiff; exact H).
    rewrite (filter_cons_True _ c) by exact H.
    cbn [map]. rewrite IH. reflexivity.
  - rewrite (filter_cons_False _ (mark_by e favs c))
      by (rewrite Hiff; exact H).
    rewrite (filter_cons_False _ c) by exact H. exact IH.
Qed.

Lemma registry_commands_inj (e : Engine) (c1 c2 : AppCommand) :
  c1 ∈ registry_commands e -> c2 ∈ registry_commands e ->
  name c1 = name c2 -> c1 = c2.
Proof.
  intros H1 H2 Hn.
  apply elem_of_registry_commands in H1 as (cd1 & Hcd1 & ->).
  apply elem_of_registry_commands in H2 as (cd2 & Hcd2 & ->).
  cbn in *. rewrite Hn in Hcd1. rewrite Hcd1 in Hcd2.
  injection Hcd2 as ->. rewrite Hn. reflexivity.
Qed.

Lemma registry_commands_init (e : Engine) (n : string) (cd : CommandDict) :
  commands e !! n = Some cd -> AppCommand_init n cd ∈ registry_commands e.
Proof.
  intros H. apply elem_of_registry_commands. exists cd. cbn. auto.
Qed.

Lemma sum_list_with_filter {A} (P : A -> Prop) `{forall x, Decision (P x)}
    (f : A -> nat) (l : list A) :
  sum_list_with f (filter P l)
  = sum_list_with (fun x => if decide (P x) then f x else 0) l.
Proof.
  induction l as [|x l IH]; [reflexivity|]. rewrite filter_cons. cbn.
  destruct (decide (P x)); cbn; rewrite IH; reflexivity.
Qed.

Lemma hits_existsb (e : Engine) (favs : list Favourite) (c : AppCommand) :
  (0 <? hits e favs c)%nat = existsb (fun fav => matches_favourite e fav c) favs.
Proof.
  unfold hits. induction favs as [|fav favs IH]; [reflexivity|]. cbn.
  destruct (matches_favourite e fav c); cbn; [reflexivity|exact IH].
Qed.

Lemma label_is_same (n : string) : label_is n n = 1.
Proof. unfold label_is. rewrite bool_decide_eq_true_2; reflexivity. Qed.

Lemma label_is_other (n m : string) : m <> n -> label_is n m = 0.
Proof. intros H. unfold label_is. rewrite bool_decide_eq_false_2; auto. Qed.

(** The items labelled [n] that the scans of the favourites add. *)
Lemma occurrences_favourites (e : Engine) (n : string) (cd : CommandDict) :
  commands e !! n = Some cd ->
  sum_list_with (favourite_weight (label_is n) e (registry_commands e))
    (menu_favourites e)
  = hits e (menu_favourites e) (AppCommand_init n cd).
Proof.
  intros Hcd. unfold hits. apply sum_list_with_ext. intros fav _.
  unfold favourite_weight.
  rewrite (sum_list_with_unique name _ _ (AppCommand_init n cd)).
  - cbn [name AppCommand_init]. rewrite label_is_same. reflexivity.
  - apply registry_commands_names.
  - apply registry_commands_init, Hcd.
  - intros c _ Hne. cbn in Hne. rewrite (label_is_other _ _ Hne).
    destruct (matches_favourite e fav c); reflexivity.
Qed.

(** The items labelled [n] that the second scan puts in the context
    submenu. *)
Lemma occurrences_context (e : Engine) (n : string) (cd : CommandDict) :
  commands e !! n = Some cd ->
  sum_list_with
    (fun c => if is_context_menu c then label_is n (name c) else 0)
    (map (mark_by e (menu_favourites e)) (registry_commands e))
  = if is_context_menu (AppCommand_init n cd) then 1 else 0.
Proof.
  intros Hcd. rewrite sum_list_with_map.
  rewrite (sum_list_with_unique name _ _ (AppCommand_init n cd)).
  - rewrite mark_by_name. cbn [name AppCommand_init]. rewrite label_is_same.
    unfold is_context_menu, get_type. rewrite mark_by_properties. reflexivity.
  - apply registry_commands_names.
  - apply registry_commands_init, Hcd.
  - intros c _ Hne. cbn in Hne. rewrite mark_by_name.
    rewrite (label_is_other _ _ Hne).
    destruct (is_context_menu _); reflexivity.
Qed.

Lemma elem_of_group_members (a : string) (l : list AppCommand)
    (c : AppCommand) :
  c ∈ group_members a l <->
  (is_context_menu c = false /\ group_name c = a) /\ c ∈ l.
Proof. unfold group_members. rewrite list_elem_of_filter. reflexivity. Qed.

Lemma NoDup_map_filter {A B} (key : A -> B) (P : A -> Prop)
    `{forall x, Decision (P x)} (l : list A) :
  NoDup (map key l) -> NoDup (map key (filter P l)).
Proof.
  induction l as [|x l IH]; intros Hnd; [constructor|].
  cbn in Hnd. apply NoDup_cons in Hnd as [Hx Hnd]. rewrite filter_cons.
  destruct (decide (P x)); [|apply IH, Hnd].
  cbn. apply NoDup_cons. split; [|apply IH, Hnd].
  intros Hin. apply Hx. apply list_elem_of_fmap in Hin as (y & Hy & Hin).
  apply list_elem_of_filter in Hin as [_ Hin].
  rewrite Hy. apply list_elem_of_fmap_2, Hin.
Qed.

(** A group none of whose members is called [n] emits no item
    labelled [n]. *)
Lemma group_weight_other (e : Engine) (favs : list Favourite) (n a : string)
    (l : list AppCommand) :
  (forall c, c ∈ group_members a l -> name c <> n) ->
  group_weight (label_is n) (groups_of (map (mark_by e favs) l)) a = 0.
Proof.
  intros Hother. unfold group_weight.
  rewrite groups_of_lookup, group_members_mark.
  destruct (group_members a l) as [|c ms]; [reflexivity|]. cbn [map].
  destruct (1 <? _)%nat.
  - rewrite sort_by_Permutation.
    change (mark_by e favs c :: map (mark_by e favs) ms)
      with (map (mark_by e favs) (c :: ms)).
    rewrite sum_list_with_map. apply sum_list_with_zero. intros x Hx.
    rewrite mark_by_name. apply label_is_other, Hother, Hx.
  - destruct (favourite _); [reflexivity|].
    rewrite mark_by_name. apply label_is_other, Hother. left.
Qed.

(** The items labelled [n] that [_add_app_menu] emits. *)
Lemma occurrences_groups (e : Engine) (n : string) (cd : CommandDict) :
  commands e !! n = Some cd ->
  let c0 := AppCommand_init n cd in
  let marked := map (mark_by e (menu_favourites e)) (registry_commands e) in
  sum_list_with (group_weight (label_is n) (groups_of marked))
    (sort_by id (map fst (map_to_list (groups_of marked))))
  = if is_context_menu c0 then 0
    else if (1 <? group_size e c0)%nat then 1
    else if existsb (fun fav => matches_favourite e fav c0) (menu_favourites e)
    then 0 else 1.
Proof.
  intros Hcd c0 marked. rewrite sort_by_Permutation.
  pose proof (registry_commands_init e n cd Hcd) as Hc0. fold c0 in Hc0.
  assert (Hsame : forall a c,
            c ∈ group_members a (registry_commands e) -> name c = n ->
            is_context_menu c0 = false /\ group_name c0 = a).
  { intros a c Hc Hn. apply elem_of_group_members in Hc as [Hc Hin].
    rewrite <- (registry_commands_inj e c c0 Hin Hc0 Hn). exact Hc. }
  destruct (is_context_menu c0) eqn:Hctx.
  - apply sum_list_with_zero. intros a _. apply group_weight_other.
    intros c Hc Hn. destruct (Hsame a c Hc Hn). discriminate.
  - rewrite (sum_list_with_at_most_one _ _ (group_name c0)).
    2:{ apply (NoDup_fst_map_to_list (groups_of marked)). }
    2:{ intros a _ Ha. apply group_weight_other. intros c Hc Hn.
        destruct (Hsame a c Hc Hn) as [_ H]. congruence. }
    assert (Hmem : c0 ∈ group_members (group_name c0) (registry_commands e))
      by (apply elem_of_group_members; auto).
    assert (Hsum : sum_list_with (fun c => label_is n (name c))
                     (group_members (group_name c0) (registry_commands e)) = 1).
    { rewrite (sum_list_with_unique name _ _ c0).
      - apply label_is_same.
      - unfold group_members.
        apply NoDup_map_filter, registry_commands_names.
      - exact Hmem.
      - intros c _ Hne. apply label_is_other. exact Hne. }
    unfold group_size, group_weight.
    assert (Hlook : groups_of marked !! group_name c0
                    = Some (map (mark_by e (menu_favourites e))
                              (group_members (group_name c0)
                                 (registry_commands e)))).
    { unfold marked. rewrite groups_of_lookup, group_members_mark.
      destruct (group_members (group_name c0) (registry_commands e));
        [inversion Hmem|reflexivity]. }
    rewrite bool_decide_eq_true_2.
    2:{ apply list_elem_of_fmap. eexists (_, _). split; [reflexivity|].
        apply elem_of_map_to_list. exact Hlook. }
    rewrite Hlook, length_map.
    destruct (1 <? _)%nat eqn:Hlen.
    + rewrite sort_by_Permutation, sum_list_with_map. rewrite <- Hsum.
      apply sum_list_with_ext. intros c _. rewrite mark_by_name. reflexivity.
    + apply Nat.ltb_ge in Hlen.
      destruct (group_members (group_name c0) (registry_commands e))
        as [|c1 [|c2 ms]]; [inversion Hmem| |cbn in Hlen; lia].
      apply list_elem_of_singleton in Hmem. subst c1. cbn [map].
      rewrite mark_by_name. unfold mark_by.
      destruct (existsb _ (menu_favourites e)); cbn; [reflexivity|].
      apply label_is_same.
Qed.




(** ** Building twice *)

Lemma weight_with_divider (pd : nat) (pl : string -> nat) (p : string)
    (g : MenuGenerator) :
  is_Some (_menu_def g) ->
  weight pd pl (with_divider p g) = weight pd pl g + pd.
Proof.
  intros [d Hd]. unfold weight, with_divider. cbn. rewrite Hd. cbn.
  rewrite sum_list_with_app. cbn. lia.
Qed.

Lemma weight_with_item (pd : nat) (pl : string -> nat) (p : string)
    (d : MenuItem) (g : MenuGenerator) :
  is_Some (_menu_def g) ->
  weight pd pl (with_item p d g) = weight pd pl g + pl (label d).
Proof.
  intros [l Hl]. unfold weight, with_item. cbn. rewrite Hl. cbn.
  rewrite sum_list_with_app. cbn. lia.
Qed.

(** The counters of a generator move on by at least the number of
    entries a build appends. *)
Lemma create_menu_counted (g : MenuGenerator) (e : Engine) :
  counted (_menu_item_id g) (_divider_id g)
    (gen (snd (create_menu false (mkGS g e)))).
Proof.
  apply (create_menu_alike
           (fun g1 g2 =>
              counted (_menu_item_id g) (_divider_id g) g1 /\
              counted (_menu_item_id g) (_divider_id g) g2)
           (mkGS g e) (mkGS g e)).
  - intros g1 g2 [[H1 _] [H2 _]]. split; auto.
  - intros g1 g2 p [H1 H2]. split.
    + destruct H1 as (Hd & Hi & Hv). unfold counted.
      rewrite !weight_with_divider by exact Hd.
      destruct Hd as [d Hd]. cbn. rewrite Hd. cbn. split; [eauto|lia].
    + destruct H2 as (Hd & Hi & Hv). unfold counted.
      rewrite !weight_with_divider by exact Hd.
      destruct Hd as [d Hd]. cbn. rewrite Hd. cbn. split; [eauto|lia].
  - intros g1 g2 p n d [H1 H2]. split.
    + destruct H1 as (Hd & Hi & Hv). unfold counted.
      rewrite !weight_with_item by exact Hd.
      destruct Hd as [l Hl]. cbn. rewrite Hl. cbn. split; [eauto|lia].
    + destruct H2 as (Hd & Hi & Hv). unfold counted.
      rewrite !weight_with_item by exact Hd.
      destruct Hd as [l Hl]. cbn. rewrite Hl. cbn. split; [eauto|lia].
  - intros g1 g2 [H1 H2]. split.
    + destruct H1 as (Hd & Hi & Hv). unfold counted, weight in *. cbn.
      split; [exact Hd|lia].
    + destruct H2 as (Hd & Hi & Hv). unfold counted, weight in *. cbn.
      split; [exact Hd|lia].
  - intros g1 g2 p1 p2 H. exact H.
  - reflexivity.
  - unfold counted, weight. cbn. split; (split; [eauto|lia]).
Qed.

Lemma renumbered_differ (shift : nat) (p1 p2 : string) :
  0 < shift -> renumbered shift p1 p2 -> p1 <> p2.
Proof.
  intros Hs (parent & stem & i & -> & ->) Heq.
  do 3 apply String.app_inj in Heq. apply pretty_nat_inj in Heq. lia.
Qed.

Lemma renumbered_copy_with_divider (k j : nat) (g1 g2 : MenuGenerator)
    (p : string) :
  renumbered_copy k j g1 g2 ->
  renumbered_copy k j
    (with_divider (p +:+ "/divider" +:+ pretty (_divider_id g1 + 1)) g1)
    (with_divider (p +:+ "/divider" +:+ pretty (_divider_id g2 + 1)) g2).
Proof.
  intros (Hi & Hv & d1 & d2 & H1 & H2 & Hall). unfold renumbered_copy.
  cbn. rewrite H1, H2, Hi, Hv. cbn. split; [reflexivity|]. split; [lia|].
  eexists _, _. split; [reflexivity|]. split; [reflexivity|].
  apply Forall2_app; [exact Hall|]. constructor; [|constructor].
  split; [reflexivity|]. cbn. exists p, "divider", (_divider_id g1 + 1).
  split; [reflexivity|].
  replace (_divider_id g1 + j + 1) with (_divider_id g1 + 1 + j) by lia.
  reflexivity.
Qed.

Lemma renumbered_copy_with_item (k j : nat) (g1 g2 : MenuGenerator)
    (p n : string) (d : MenuItem) :
  renumbered_copy k j g1 g2 ->
  renumbered_copy k j
    (with_item (p +:+ "/" +:+ n +:+ pretty (_menu_item_id g1 + 1)) d g1)
    (with_item (p +:+ "/" +:+ n +:+ pretty (_menu_item_id g2 + 1)) d g2).
Proof.
  intros (Hi & Hv & d1 & d2 & H1 & H2 & Hall). unfold renumbered_copy.
  cbn. rewrite H1, H2, Hi, Hv. cbn. split; [lia|]. split; [reflexivity|].
  eexists _, _. split; [reflexivity|]. split; [reflexivity|].
  apply Forall2_app; [exact Hall|]. constructor; [|constructor].
  split; [reflexivity|]. cbn. exists p, n, (_menu_item_id g1 + 1).
  split; [reflexivity|].
  replace (_menu_item_id g1 + k + 1) with (_menu_item_id g1 + 1 + k) by lia.
  reflexivity.
Qed.


(** * Further properties *)

(** ** What a build leaves alone *)


(** ** [create_shotgun_menu] *)

(** X2: [create_shotgun_menu(disabled=True)] never raises and returns
    [True].  When the script has a menu bar it leaves a fresh generator
    whose definition is the placeholder alone, the build flag down and the
    document timer started at 1000 ms; otherwise it builds nothing and arms
    one retry. *)
Theorem create_shotgun_menu_disabled_total (e : Engine) :
  let run := create_shotgun_menu true e in
  fst run = Ok true /\
  if can_create_menu (_script e)
  then (_menu_generator (snd run) ≫= _menu_def) = Some [disabled_placeholder] /\
       (_menu_name <$> _menu_generator (snd run)) = Some (engine_menu_name e) /\
       _creating_menu (snd run) = false /\
       active_doc_timer (snd run) = Some 1000 /\
       single_shots (snd run) = single_shots e
  else _menu_generator (snd run) = _menu_generator e /\
       _creating_menu (snd run) = _creating_menu e /\
       active_doc_timer (snd run) = active_doc_timer e /\
       single_shots (snd run) = single_shots e ++ [(200, CreateShotgunMenu)].
Proof.
  unfold create_shotgun_menu, has_ui, is_batch_mode, bind, gets. cbn.
  destruct (can_create_menu (_script e)); cbn; repeat split; reflexivity.
Qed.

(** X3: while the script has no menu bar, [create_shotgun_menu] builds
    nothing, whatever [disabled] is: it returns [True], leaves the
    generator, the build flag and the document timer as they were and arms
    a 200 ms single-shot timer on [create_shotgun_menu] itself.  That timer
    carries no argument, so when it fires the call is made with
    [disabled] false, also when the deferred call asked for the disabled
    menu. *)
Theorem create_shotgun_menu_deferred (h : Host) (disabled : bool)
    (e : Engine) :
  can_create_menu (_script e) = false ->
  single_shots e = [] ->
  let armed := create_shotgun_menu disabled e in
  fst armed = Ok true /\
  _menu_generator (snd armed) = _menu_generator e /\
  _creating_menu (snd armed) = _creating_menu e /\
  active_doc_timer (snd armed) = active_doc_timer e /\
  single_shots (snd armed) = [(200, CreateShotgunMenu)] /\
  event_loop_turn h (snd armed)
  = (create_shotgun_menu false ;; ret tt)
      (add_log (LogDebug "Waiting for menu to be created...") e).
Proof.
  intros Hbar Hq. cbv zeta.
  assert (Hrun : create_shotgun_menu disabled e
                 = (Ok true,
                    add_single_shot 200 CreateShotgunMenu
                      (add_log (LogDebug "Waiting for menu to be created...") e))).
  { unfold create_shotgun_menu, has_ui, is_batch_mode, bind, gets. cbn.
    rewrite Hbar. reflexivity. }
  rewrite Hrun. cbn [fst snd]. repeat split; cbn; try reflexivity.
  - rewrite Hq. reflexivity.
  - rewrite Hq. cbn [app].
    rewrite set_single_shots_add_single_shot by (cbn; exact Hq).
    cbn [for_each snd]. unfold run_task.
    unfold bind. destruct (create_shotgun_menu false _) as [[b|x] e1];
      reflexivity.
Qed.

Lemma create_shotgun_menu_deferred_witness :
  let e := engine_without_script shot_context [] ∅ in
  let armed := create_shotgun_menu true e in
  fst armed = Ok true /\
  _menu_generator (snd armed) = None /\
  _creating_menu (snd armed) = false /\
  active_doc_timer (snd armed) = None /\
  single_shots (snd armed) = [(200, CreateShotgunMenu)] /\
  event_loop_turn (posix_host "/home/u" []) (snd armed)
  = (create_shotgun_menu false ;; ret tt)
      (add_log (LogDebug "Waiting for menu to be created...") e).
Proof.
  exact (create_shotgun_menu_deferred (posix_host "/home/u" []) true
           (engine_without_script shot_context [] ∅) eq_refl eq_refl).
Defined.

(** ** The enabled state of the application menu *)

Lemma outcome_bind {S A B} (I : S -> Prop) (Post : result B * S -> Prop)
    (m : M S A) (k : A -> M S B) :
  preserves I m ->
  (forall x s, I s -> Post (Raise x, s)) ->
  (forall a s, I s -> Post (k a s)) ->
  forall s, I s -> Post (bind m k s).
Proof.
  intros Hm Hraise Hk s Hs. unfold bind. specialize (Hm s Hs).
  destruct (m s) as [[a|x] s']; cbn in Hm; [apply Hk, Hm|apply Hraise, Hm].
Qed.


(** ** The definition handed to the host after a build *)

(** Whether the build returns or raises, the generator holds a menu
    definition afterwards: [create_menu] resets it first and every later
    step only appends. *)
Lemma create_menu_defined (disabled : bool) (s : GS) :
  is_Some (_menu_def (gen (snd (create_menu disabled s)))).
Proof.
  destruct disabled; [cbn; eauto|].
  apply (create_menu_alike
           (fun g1 g2 => is_Some (_menu_def g1) /\ is_Some (_menu_def g2)) s s).
  - intros g1 g2 [H1 H2]. split; auto.
  - intros g1 g2 p [[d1 H1] [d2 H2]]. unfold with_divider. cbn.
    rewrite H1, H2. cbn. eauto.
  - intros g1 g2 p n d [[d1 H1] [d2 H2]]. unfold with_item. cbn.
    rewrite H1, H2. cbn. eauto.
  - intros g1 g2 H. exact H.
  - intros g1 g2 p1 p2 H. exact H.
  - reflexivity.
  - cbn. eauto.
Qed.



(** ** What the menu holds besides the commands *)

Lemma registry_commands_unregistered (e : Engine) (n : string)
    (c : AppCommand) :
  commands e !! n = None -> c ∈ registry_commands e -> name c <> n.
Proof.
  intros Hn Hc Heq. apply elem_of_registry_commands in Hc as (cd & Hcd & _).
  congruence.
Qed.

(** X6: in an enabled build that returns, a label under which no command
    is registered is the label of no item, but for the two entries of the
    context submenu: "Jump to Shotgun" occurs once, and "Jump to File
    System" occurs once if the context has file system locations and not
    at all if it has none. *)
Theorem unregistered_label_occurrences (g : MenuGenerator) (e : Engine)
    (n : string) :
  fst (create_menu false (mkGS g e)) = Ok tt ->
  commands e !! n = None ->
  occurrences n (gen (snd (create_menu false (mkGS g e))))
  = if bool_decide (n = "Jump to Shotgun") then 1
    else if bool_decide (n = "Jump to File System")
         then match filesystem_locations (context e) with
              | [] => 0
              | _ :: _ => 1
              end
         else 0.
Proof.
  intros Hok Hn.
  destruct (create_menu false (mkGS g e)) as [r s'] eqn:Hrun. cbn in Hok.
  subst r. cbn [snd]. unfold occurrences.
  rewrite (create_menu_weight 0 (label_is n) g e s' Hrun).
  assert (Hfav : sum_list_with
                   (favourite_weight (label_is n) e (registry_commands e))
                   (menu_favourites e) = 0).
  { apply sum_list_with_zero. intros fav _. unfold favourite_weight.
    apply sum_list_with_zero. intros c Hc.
    rewrite (label_is_other _ _ (registry_commands_unregistered e n c Hn Hc)).
    destruct (matches_favourite e fav c); reflexivity. }
  assert (Hctx : sum_list_with
                   (fun c => if is_context_menu c then label_is n (name c)
                             else 0)
                   (map (mark_by e (menu_favourites e)) (registry_commands e))
                 = 0).
  { rewrite sum_list_with_map. apply sum_list_with_zero. intros c Hc.
    rewrite mark_by_name.
    rewrite (label_is_other _ _ (registry_commands_unregistered e n c Hn Hc)).
    destruct (is_context_menu _); reflexivity. }
  assert (Hgrp : forall l,
            sum_list_with
              (group_weight (label_is n)
                 (groups_of (map (mark_by e (menu_favourites e))
                               (registry_commands e)))) l = 0).
  { intros l. apply sum_list_with_zero. intros a _.
    apply group_weight_other. intros c Hc.
    apply elem_of_group_members in Hc as [_ Hc].
    apply (registry_commands_unregistered e n c Hn Hc). }
  rewrite Hfav, Hctx, Hgrp. unfold context_menu_weight, label_is.
  destruct (filesystem_locations (context e)),
           (0 <? length (menu_favourites e))%nat;
    repeat case_bool_decide; subst; try congruence; lia.
Qed.

Lemma unregistered_label_occurrences_witness :
  occurrences "Jump to File System"
    (gen (snd (create_menu false
                 (mkGS (MenuGenerator_init "Shotgun")
                    (scenario_engine shot_context 1 2 3))))) = 1.
Proof.
  rewrite (unregistered_label_occurrences (MenuGenerator_init "Shotgun")
             (scenario_engine shot_context 1 2 3) "Jump to File System").
  - reflexivity.
  - vm_compute. reflexivity.
  - vm_compute. reflexivity.
Defined.

(** ** Which favourites can match *)

(** X7: a favourite matches a command only if the command has its name
    and belongs to an app, and only under the first instance name by
    which the engine's app table holds that app: an app held under
    several names is never matched through a later one, and a command
    without an app is matched by no favourite. *)
Theorem matches_favourite_first_instance (e : Engine) (fav : Favourite)
    (c : AppCommand) :
  matches_favourite e fav c = true ->
  name c = fav_name fav /\
  exists a before after,
    prop_app (properties c) = Some a /\
    apps e = before ++ (fav_app_instance fav, a) :: after /\
    forall kv, kv ∈ before -> kv.2 <> a.
Proof.
  unfold matches_favourite, get_app_instance_name. intros H.
  apply andb_true_iff in H as [Hinst Hname].
  apply bool_decide_eq_true in Hinst. apply bool_decide_eq_true in Hname.
  split; [exact Hname|].
  destruct (prop_app (properties c)) as [a|]; [|discriminate].
  exists a. induction (apps e) as [|[k v] l IH]; [discriminate|].
  rewrite filter_cons in Hinst. cbn [snd] in Hinst.
  destruct (decide (bool_decide (v = a))) as [Hv|Hv].
  - apply Is_true_true in Hv. apply bool_decide_eq_true in Hv.
    injection Hinst as ->. subst v.
    exists [], l. repeat split. intros kv Hkv. inversion Hkv.
  - destruct (IH Hinst) as (before & after & _ & Hl & Hbefore).
    exists ((k, v) :: before), after. repeat split.
    + rewrite Hl. reflexivity.
    + intros kv Hkv. apply elem_of_cons in Hkv as [->|Hkv];
        [|apply Hbefore, Hkv].
      cbn. intros Heq. apply Hv. apply Is_true_true.
      apply bool_decide_eq_true. exact Heq.
Qed.

Lemma matches_favourite_first_instance_witness :
  name (AppCommand_init "Render" (plain_command appB 3)) = "Render" /\
  exists a before after,
    prop_app (properties (AppCommand_init "Render" (plain_command appB 3)))
    = Some a /\
    apps (scenario_engine shot_context 1 2 3)
    = before ++ ("AppB", a) :: after /\
    forall kv, kv ∈ before -> kv.2 <> a.
Proof.
  apply (matches_favourite_first_instance (scenario_engine shot_context 1 2 3)
           (mkFavourite "AppB" "Render")
           (AppCommand_init "Render" (plain_command appB 3))).
  vm_compute. reflexivity.
Defined.

(** ** [refresh_engine] when there is nothing to change *)

(** X8: when no engine is current, no script is bound, or the script has
    never been saved, [refresh_engine] returns after two debug lines: it
    asks the host for nothing (the outcome is the same for every host),
    shows no warning and changes neither the context nor the menu. *)
Theorem refresh_engine_without_document (h : Host) (e : Engine) :
  is_current_engine e = false \/
  _script e = None \/
  (exists sc, _script e = Some sc /\ fileName sc = "") ->
  exists msg,
    refresh_engine h e
    = (Ok tt, add_log (LogDebug msg) (add_log (LogDebug msg_refreshing) e)).
Proof.
  intros H. unfold refresh_engine, bind, gets, logger_debug, modify. cbn.
  destruct (is_current_engine e); cbn; [|eauto].
  destruct H as [H|[H|(sc & Hsc & Hname)]]; [discriminate| |].
  - rewrite H. eauto.
  - rewrite Hsc, Hname. cbn. eauto.
Qed.

Lemma refresh_engine_without_document_witness :
  exists msg,
    refresh_engine (resolving_host SystemExit)
      (engine_without_script shot_context [] ∅)
    = (Ok tt,
       add_log (LogDebug msg)
         (add_log (LogDebug msg_refreshing)
            (engine_without_script shot_context [] ∅))).
Proof.
  apply (refresh_engine_without_document (resolving_host SystemExit)
           (engine_without_script shot_context [] ∅)).
  right. left. reflexivity.
Defined.

(** X9: when the path of the saved script resolves to the context the
    engine is already in, [refresh_engine] only logs three debug lines:
    [change_context] is not called, whatever it would do, no warning is
    shown and the menu is not rebuilt. *)
Theorem refresh_engine_same_context (h : Host) (e : Engine) (sc : Script)
    (tk : Tk) :
  is_current_engine e = true ->
  _script e = Some sc ->
  fileName sc <> "" ->
  sgtk_from_path h (os_path_abspath h (fileName sc)) = Ok tk ->
  context_from_path h tk (os_path_abspath h (fileName sc)) (context e)
  = Ok (Some (context e)) ->
  refresh_engine h e
  = (Ok tt,
     add_log (LogDebug msg_given_path)
       (add_log (LogDebug msg_extracted)
          (add_log (LogDebug msg_refreshing) e))).
Proof.
  intros Hcur Hsc Hname Htk Hctx.
  unfold refresh_engine, bind, gets, logger_debug, modify. cbn.
  rewrite Hcur. cbn. rewrite Hsc. cbn.
  rewrite (bool_decide_eq_false_2 _ Hname).
  unfold try_except, host_call. cbn. rewrite Htk. cbn. rewrite Hctx. cbn.
  rewrite bool_decide_eq_false_2; [reflexivity|]. intros H. apply H.
  reflexivity.
Qed.

Lemma refresh_engine_same_context_witness :
  refresh_engine (resolving_host SystemExit) (engine_with asset_context [] ∅)
  = (Ok tt,
     add_log (LogDebug msg_given_path)
       (add_log (LogDebug msg_extracted)
          (add_log (LogDebug msg_refreshing)
             (engine_with asset_context [] ∅)))).
Proof.
  apply (refresh_engine_same_context (resolving_host SystemExit)
           (engine_with asset_context [] ∅)
           (mkScript "/proj/shot.gfr" true) (mkTk "primary"));
    try reflexivity.
  discriminate.
Defined.

(** X10: when the path of the saved script belongs to a pipeline
    configuration but resolves to no context, and the current context has
    no project (the site context), the fallback to the project context
    fails: [refresh_engine] raises [AttributeError], which it does not
    catch.  Nothing is shown to the user and the context and the menu are
    left as they were. *)
Theorem refresh_engine_without_project (h : Host) (e : Engine) (sc : Script)
    (tk : Tk) :
  is_current_engine e = true ->
  _script e = Some sc ->
  fileName sc <> "" ->
  sgtk_from_path h (os_path_abspath h (fileName sc)) = Ok tk ->
  context_from_path h tk (os_path_abspath h (fileName sc)) (context e)
  = Ok None ->
  project (context e) = None ->
  refresh_engine h e
  = (Raise (AttributeError "get"),
     add_log (LogDebug msg_given_path)
       (add_log (LogDebug msg_extracted)
          (add_log (LogDebug msg_refreshing) e))).
Proof.
  intros Hcur Hsc Hname Htk Hctx Hprj.
  unfold refresh_engine, bind, gets, logger_debug, modify. cbn.
  rewrite Hcur. cbn. rewrite Hsc. cbn.
  rewrite (bool_decide_eq_false_2 _ Hname).
  unfold try_except, host_call. cbn. rewrite Htk. cbn. rewrite Hctx. cbn.
  rewrite Hprj. reflexivity.
Qed.

Lemma refresh_engine_without_project_witness :
  refresh_engine unresolving_host (engine_with site_context [] ∅)
  = (Raise (AttributeError "get"),
     add_log (LogDebug msg_given_path)
       (add_log (LogDebug msg_extracted)
          (add_log (LogDebug msg_refreshing)
             (engine_with site_context [] ∅)))).
Proof.
  apply (refresh_engine_without_project unresolving_host
           (engine_with site_context [] ∅)
           (mkScript "/proj/shot.gfr" true) (mkTk "primary"));
    try reflexivity.
  discriminate.
Defined.

(** ** From the deferred build to the menu Gaffer shows *)

Lemma wait_for_menu_built (h : Host) (fuel : nat) (e : Engine)
    (g : MenuGenerator) :
  _creating_menu e = false ->
  _menu_generator e = Some g ->
  wait_for_menu h fuel e = (Ok (Some (_menu_def g)), e).
Proof.
  intros Hflag Hgen.
  destruct fuel; cbn; unfold bind, gets, ret, get_menu_definition;
    rewrite Hflag, Hgen; reflexivity.
Qed.

Lemma create_shotgun_menu_built (disabled : bool) (e : Engine) :
  can_create_menu (_script e) = true ->
  match fst (create_shotgun_menu disabled e) with
  | Ok _ =>
      _creating_menu (snd (create_shotgun_menu disabled e)) = false /\
      exists g def,
        _menu_generator (snd (create_shotgun_menu disabled e)) = Some g /\
        _menu_def g = Some def
  | Raise _ => True
  end.
Proof.
  intros Hcan. unfold create_shotgun_menu, has_ui, is_batch_mode. cbn [negb].
  unfold bind, gets, logger_debug, modify, with_menu_generator, ret.
  cbn -[create_menu]. rewrite Hcan. cbn -[create_menu].
  match goal with
  | |- context [create_menu disabled ?s0] =>
      pose proof (create_menu_defined disabled s0) as [def Hdef];
      destruct (create_menu disabled s0) as [[[]|x] s]
  end; cbn in *; [|exact I].
  split; [reflexivity|]. eauto.
Qed.



(** ** The commands run at start-up *)

Lemma dict_set_fresh {V} (k : string) (v : V) (d : list (string * V)) :
  k ∉ map fst d -> Startup.dict_set k v d = d ++ [(k, v)].
Proof.
  induction d as [|[k' v'] d IH]; intros Hk; [reflexivity|].
  cbn. rewrite bool_decide_eq_false_2.
  - rewrite IH; [reflexivity|]. intros H. apply Hk. cbn. right. exact H.
  - intros ->. apply Hk. cbn. left.
Qed.

Lemma dict_update_fresh {V} (d mine : list (string * V)) :
  NoDup (map fst (d ++ mine)) -> Startup.dict_update d mine = d ++ mine.
Proof.
  revert d. induction mine as [|[k v] mine IH]; intros d Hnd.
  - cbn. rewrite app_nil_r. reflexivity.
  - unfold Startup.dict_update. cbn [fold_left fst snd].
    assert (Hk : k ∉ map fst d).
    { rewrite map_app in Hnd. apply NoDup_app in Hnd as (_ & Hdis & _).
      intros Hin. apply (Hdis k Hin). cbn. left. }
    rewrite (dict_set_fresh k v d Hk).
    change (fold_left _ mine (d ++ [(k, v)]))
      with (Startup.dict_update (d ++ [(k, v)]) mine).
    rewrite IH; rewrite <- app_assoc; [reflexivity|exact Hnd].
Qed.

Lemma dict_get_NoDup {V} (k : string) (v : V) (d : list (string * V)) :
  NoDup (map fst d) -> (k, v) ∈ d -> Startup.dict_get k d = Some v.
Proof.
  induction d as [|[k' v'] d IH]; intros Hnd Hin; [inversion Hin|].
  cbn in Hnd. apply NoDup_cons in Hnd as [Hk' Hnd]. cbn.
  apply elem_of_cons in Hin as [Heq|Hin].
  - injection Heq as -> ->. rewrite bool_decide_eq_true_2; reflexivity.
  - rewrite bool_decide_eq_false_2; [apply IH; assumption|].
    intros ->. apply Hk'. apply list_elem_of_fmap. exists (k, v). auto.
Qed.

Lemma dict_get_elem_of {V} (k : string) (v : V) (d : list (string * V)) :
  Startup.dict_get k d = Some v -> (k, v) ∈ d.
Proof.
  induction d as [|[k' v'] d IH]; [discriminate|]. cbn.
  case_bool_decide as Hk.
  - intros [= ->]. subst k'. left.
  - intros H. right. apply IH, H.
Qed.

Lemma instance_commands_cons (instance_name : App -> string) (k : string)
    (cd : CommandDict) (l : list (string * CommandDict)) (inst : string) :
  Startup.instance_commands instance_name ((k, cd) :: l) inst
  = match prop_app (cd_properties cd) with
    | Some a =>
        if bool_decide (instance_name a = inst)
        then (k, cd_callback cd)
             :: Startup.instance_commands instance_name l inst
        else Startup.instance_commands instance_name l inst
    | None => Startup.instance_commands instance_name l inst
    end.
Proof.
  unfold Startup.instance_commands. cbn.
  destruct (prop_app (cd_properties cd)) as [a|]; [|reflexivity].
  destruct (bool_decide (instance_name a = inst)); reflexivity.
Qed.

Lemma fold_file_startup_lookup (instance_name : App -> string)
    (l : list (string * CommandDict))
    (m : gmap string (list (string * option callback))) (inst : string) :
  fold_left (Startup.file_startup_command instance_name) l m !! inst
  = match Startup.instance_commands instance_name l inst with
    | [] => m !! inst
    | mine => Some (Startup.dict_update (default [] (m !! inst)) mine)
    end.
Proof.
  revert m. induction l as [|[k cd] l IH]; intros m; [reflexivity|].
  cbn [fold_left]. rewrite IH, instance_commands_cons.
  unfold Startup.file_startup_command. cbn [fst snd].
  destruct (prop_app (cd_properties cd)) as [a|]; [|reflexivity].
  case_bool_decide as Ha.
  - subst inst. rewrite lookup_insert_eq. cbn.
    destruct (Startup.instance_commands _ l _); reflexivity.
  - rewrite lookup_insert_ne by exact Ha. reflexivity.
Qed.

Lemma elem_of_instance_commands (instance_name : App -> string)
    (l : list (string * CommandDict)) (inst k : string)
    (cb : option callback) :
  (k, cb) ∈ Startup.instance_commands instance_name l inst <->
  exists cd a,
    (k, cd) ∈ l /\ prop_app (cd_properties cd) = Some a /\
    instance_name a = inst /\ cb = cd_callback cd.
Proof.
  unfold Startup.instance_commands. rewrite list_elem_of_omap. split.
  - intros ([k' cd] & Hin & H). cbn in H.
    destruct (prop_app (cd_properties cd)) as [a|] eqn:Happ; [|discriminate].
    case_bool_decide; [|discriminate]. injection H as Hk Hcb. subst k'.
    exists cd, a. auto.
  - intros (cd & a & Hin & Happ & Ha & ->). exists (k, cd). split; [exact Hin|].
    cbn. rewrite Happ, bool_decide_eq_true_2 by exact Ha. reflexivity.
Qed.

Lemma instance_commands_NoDup (instance_name : App -> string)
    (l : list (string * CommandDict)) (inst : string) :
  NoDup (map fst l) ->
  NoDup (map fst (Startup.instance_commands instance_name l inst)).
Proof.
  induction l as [|[k cd] l IH]; intros Hnd; [constructor|].
  cbn in Hnd. apply NoDup_cons in Hnd as [Hk Hnd].
  rewrite instance_commands_cons.
  destruct (prop_app (cd_properties cd)) as [a|]; [|apply IH, Hnd].
  case_bool_decide; [|apply IH, Hnd].
  cbn. apply NoDup_cons. split; [|apply IH, Hnd].
  intros Hin. apply Hk.
  apply list_elem_of_fmap in Hin as ([k' cb] & Hk' & Hin). cbn in Hk'. subst k'.
  apply elem_of_instance_commands in Hin as (cd' & _ & Hin & _).
  apply list_elem_of_fmap. exists (k, cd'). auto.
Qed.

(** What [app_instance_commands] holds under an instance name. *)
Lemma app_instance_commands_lookup (instance_name : App -> string)
    (e : Engine) (inst : string) :
  Startup.app_instance_commands instance_name e !! inst
  = match Startup.instance_commands instance_name
            (map_to_list (commands e)) inst with
    | [] => None
    | mine => Some mine
    end.
Proof.
  unfold Startup.app_instance_commands.
  rewrite fold_file_startup_lookup, lookup_empty. cbn [default].
  pose proof (instance_commands_NoDup instance_name
                (map_to_list (commands e)) inst
                (NoDup_fst_map_to_list (commands e))) as Hnd.
  destruct (Startup.instance_commands _ _ _) as [|kv mine] eqn:Hmine;
    [reflexivity|].
  rewrite (dict_update_fresh [] (kv :: mine) Hnd). reflexivity.
Qed.

Lemma run_settings_singleton (h : Host)
    (cmds : gmap string (list (string * option callback)))
    (st : Startup.Setting) (s : Startup.State) :
  Startup.run_settings h cmds [st] s = Startup.run_setting h cmds st s.
Proof.
  cbn. destruct (Startup.run_setting h cmds st s) as [[f|] s']; reflexivity.
Qed.

(** X12: a [run_at_startup] entry that names a registered command of the
    app instance it names, one that has a callback, makes
    [_run_app_instance_commands] log one debug line and call that
    callback, once, and nothing else: the outcome is the outcome of the
    callback and no warning is logged. *)
Theorem startup_runs_named_command (h : Host) (instance_name : App -> string)
    (s : Startup.State) (n : string) (cd : CommandDict) (a : App)
    (cb : callback) :
  commands (Startup.engine s) !! n = Some cd ->
  prop_app (cd_properties cd) = Some a ->
  cd_callback cd = Some cb ->
  n <> "" ->
  Startup._run_app_instance_commands h instance_name
    [Startup.mkSetting (instance_name a) n] s
  = Startup.call_command h (Some cb) (Startup.debug_running s).
Proof.
  intros Hcd Happ Hcb Hn. unfold Startup._run_app_instance_commands.
  rewrite run_settings_singleton. unfold Startup.run_setting.
  cbn [Startup.app_instance Startup.setting_name].
  rewrite app_instance_commands_lookup.
  assert (Hin : (n, Some cb)
                ∈ Startup.instance_commands instance_name
                    (map_to_list (commands (Startup.engine s)))
                    (instance_name a)).
  { apply elem_of_instance_commands. exists cd, a.
    rewrite elem_of_map_to_list. auto. }
  pose proof (instance_commands_NoDup instance_name
                (map_to_list (commands (Startup.engine s))) (instance_name a)
                (NoDup_fst_map_to_list _)) as Hnd.
  destruct (Startup.instance_commands _ _ _) as [|kv mine] eqn:Hmine;
    [inversion Hin|].
  rewrite (bool_decide_eq_false_2 _ Hn).
  rewrite (dict_get_NoDup n (Some cb) (kv :: mine) Hnd Hin). reflexivity.
Qed.

Lemma startup_runs_named_command_witness :
  let s := Startup.mkState
             (engine_with shot_context [] (scenario_registry 1 2 3)) [] in
  Startup._run_app_instance_commands logging_host display_name
    [Startup.mkSetting "AppB" "Render"] s
  = Startup.call_command logging_host (Some (AppCallback 3))
      (Startup.debug_running s).
Proof.
  apply (startup_runs_named_command logging_host display_name
           (Startup.mkState
              (engine_with shot_context [] (scenario_registry 1 2 3)) [])
           "Render" (plain_command appB 3) appB (AppCallback 3)).
  - vm_compute. reflexivity.
  - reflexivity.
  - reflexivity.
  - discriminate.
Defined.

(** X13: a [run_at_startup] entry with a command name runs nothing unless
    a command of that name is registered by an app of the named instance
    with a callback: a command of another instance, a command without an
    app, a command whose callback is [None] and an unknown name all end
    in one warning, with the engine untouched and no exception. *)
Theorem startup_skips_other_commands (h : Host)
    (instance_name : App -> string) (s : Startup.State) (inst n : string) :
  n <> "" ->
  (forall cd a cb,
     commands (Startup.engine s) !! n = Some cd ->
     prop_app (cd_properties cd) = Some a ->
     cd_callback cd = Some cb ->
     instance_name a <> inst) ->
  exists w,
    Startup._run_app_instance_commands h instance_name
      [Startup.mkSetting inst n] s
    = (None, Startup.warn w s).
Proof.
  intros Hn Hother. unfold Startup._run_app_instance_commands.
  rewrite run_settings_singleton. unfold Startup.run_setting.
  cbn [Startup.app_instance Startup.setting_name].
  rewrite app_instance_commands_lookup.
  destruct (Startup.instance_commands _ _ _) as [|kv mine] eqn:Hmine;
    [eauto|].
  rewrite (bool_decide_eq_false_2 _ Hn).
  destruct (Startup.dict_get n (kv :: mine)) as [[cb|]|] eqn:Hget; eauto.
  exfalso. apply dict_get_elem_of in Hget. rewrite <- Hmine in Hget.
  apply elem_of_instance_commands in Hget as (cd & a & Hin & Happ & Ha & Hcb).
  apply elem_of_map_to_list in Hin.
  apply (Hother cd a cb Hin Happ (eq_sym Hcb) Ha).
Qed.

Lemma startup_skips_other_commands_witness :
  let s := Startup.mkState
             (engine_with shot_context [] (scenario_registry 1 2 3)) [] in
  exists w,
    Startup._run_app_instance_commands logging_host display_name
      [Startup.mkSetting "AppA" "Render"] s
    = (None, Startup.warn w s).
Proof.
  apply (startup_skips_other_commands logging_host display_name
           (Startup.mkState
              (engine_with shot_context [] (scenario_registry 1 2 3)) [])
           "AppA" "Render").
  - discriminate.
  - intros cd a cb Hcd Happ _. vm_compute in Hcd. injection Hcd as <-.
    cbn in Happ. injection Happ as <-. discriminate.
Defined.


(** ** The jump to the file system *)

Lemma launch_each_app (p : JumpToFs.Platform)
    (check_output : list string -> JumpToFs.process_error + string)
    (before rest : list string) (cmds : list (list string))
    (t : JumpToFs.Trace) :
  Forall2 (fun loc args =>
             JumpToFs.launch_args p loc = Some args /\
             exists out, check_output args = inr out) before cmds ->
  JumpToFs.launch_each p check_output (before ++ rest) t
  = JumpToFs.launch_each p check_output rest
      (JumpToFs.mkTrace (JumpToFs.launched t ++ cmds)
         (JumpToFs.errors t ++ cmds)).
Proof.
  intros H. revert t.
  induction H as [|loc args before cmds [Hargs [out Hout]] _ IH]; intros t.
  - cbn. rewrite !app_nil_r. destruct t; reflexivity.
  - cbn [app JumpToFs.launch_each]. rewrite Hargs, Hout.
    cbn [JumpToFs.py_ne]. rewrite IH. cbn.
    rewrite <- !app_assoc. reflexivity.
Qed.

Lemma launch_args_supported (p : JumpToFs.Platform) (loc : string) :
  JumpToFs.is_linux p || JumpToFs.is_macos p || JumpToFs.is_windows p = true ->
  exists args, JumpToFs.launch_args p loc = Some args.
Proof.
  unfold JumpToFs.launch_args.
  destruct (JumpToFs.is_linux p), (JumpToFs.is_macos p),
           (JumpToFs.is_windows p); cbn; intros H; eauto; discriminate.
Qed.

Lemma launched_commands (p : JumpToFs.Platform)
    (check_output : list string -> JumpToFs.process_error + string)
    (paths : list string) :
  JumpToFs.is_linux p || JumpToFs.is_macos p || JumpToFs.is_windows p = true ->
  (forall loc args,
     loc ∈ paths -> JumpToFs.launch_args p loc = Some args ->
     exists out, check_output args = inr out) ->
  Forall2 (fun loc args =>
             JumpToFs.launch_args p loc = Some args /\
             exists out, check_output args = inr out)
    paths (omap (JumpToFs.launch_args p) paths).
Proof.
  intros Hp. induction paths as [|loc paths IH]; intros Hout; [constructor|].
  destruct (launch_args_supported p loc Hp) as [args Hargs].
  cbn. rewrite Hargs. constructor.
  - split; [exact Hargs|]. apply (Hout loc); [left|exact Hargs].
  - apply IH. intros loc' args' Hin. apply Hout. right. exact Hin.
Qed.

(** X15: on a platform that is supported, when every command started for
    a location of the context exits with status 0, so that
    [check_output] returns its output, [_jump_to_fs] still logs the error
    "Failed to launch" for every one of them: the output is a byte
    string, which is never equal to 0.  One command is started per
    location, in order, and the call returns. *)
Theorem jump_to_fs_reports_every_launch (p : JumpToFs.Platform)
    (check_output : list string -> JumpToFs.process_error + string)
    (ctx : Context) (t : JumpToFs.Trace) :
  JumpToFs.is_linux p || JumpToFs.is_macos p || JumpToFs.is_windows p = true ->
  (forall loc args,
     loc ∈ filesystem_locations ctx ->
     JumpToFs.launch_args p loc = Some args ->
     exists out, check_output args = inr out) ->
  let cmds := omap (JumpToFs.launch_args p) (filesystem_locations ctx) in
  length cmds = length (filesystem_locations ctx) /\
  JumpToFs._jump_to_fs p check_output ctx t
  = (None,
     JumpToFs.mkTrace (JumpToFs.launched t ++ cmds)
       (JumpToFs.errors t ++ cmds)).
Proof.
  intros Hp Hout cmds.
  pose proof (launched_commands p check_output (filesystem_locations ctx)
                Hp Hout) as H.
  split; [symmetry; apply (Forall2_length _ _ _ H)|].
  unfold JumpToFs._jump_to_fs.
  rewrite <- (app_nil_r (filesystem_locations ctx)).
  rewrite (launch_each_app p check_output _ [] _ t H). reflexivity.
Qed.

Lemma jump_to_fs_reports_every_launch_witness :
  JumpToFs._jump_to_fs JumpToFs.linux JumpToFs.quiet_success shot_context
    (JumpToFs.mkTrace [] [])
  = (None,
     JumpToFs.mkTrace [["xdg-open"; "/proj/shot010"]]
       [["xdg-open"; "/proj/shot010"]]).
Proof.
  apply (jump_to_fs_reports_every_launch JumpToFs.linux JumpToFs.quiet_success
           shot_context (JumpToFs.mkTrace [] [])).
  - reflexivity.
  - intros loc args _ _. exists "". reflexivity.
Defined.

(** X16: [_jump_to_fs] stops at the first location whose command cannot
    be started or exits with a non-zero status: the exception of
    [check_output] comes out, the locations after it are not opened, and
    the locations before it, which were opened, have each been logged as
    a failure. *)
Theorem jump_to_fs_stops_at_first_failure (p : JumpToFs.Platform)
    (check_output : list string -> JumpToFs.process_error + string)
    (ctx : Context) (t : JumpToFs.Trace) (before after : list string)
    (loc : string) (args : list string) (x : JumpToFs.process_error) :
  filesystem_locations ctx = before ++ loc :: after ->
  (forall loc' args',
     loc' ∈ before -> JumpToFs.launch_args p loc' = Some args' ->
     exists out, check_output args' = inr out) ->
  JumpToFs.launch_args p loc = Some args ->
  check_output args = inl x ->
  let cmds := omap (JumpToFs.launch_args p) before in
  JumpToFs._jump_to_fs p check_output ctx t
  = (Some (JumpToFs.CheckOutputRaised x),
     JumpToFs.mkTrace (JumpToFs.launched t ++ cmds ++ [args])
       (JumpToFs.errors t ++ cmds)).
Proof.
  intros Hfs Hout Hargs Hx cmds.
  assert (Hp : JumpToFs.is_linux p || JumpToFs.is_macos p
               || JumpToFs.is_windows p = true).
  { unfold JumpToFs.launch_args in Hargs.
    destruct (JumpToFs.is_linux p), (JumpToFs.is_macos p),
             (JumpToFs.is_windows p); try reflexivity. discriminate. }
  pose proof (launched_commands p check_output before Hp Hout) as H.
  unfold JumpToFs._jump_to_fs. rewrite Hfs.
  rewrite (launch_each_app p check_output _ _ _ t H).
  cbn [JumpToFs.launch_each]. rewrite Hargs, Hx. cbn.
  rewrite <- app_assoc. reflexivity.
Qed.

Lemma jump_to_fs_stops_at_first_failure_witness :
  let failing args :=
    if bool_decide (args = ["xdg-open"; "/proj/b"])
    then inl (JumpToFs.CalledProcessError 4 "")
    else inr "" in
  JumpToFs._jump_to_fs JumpToFs.linux failing
    (mkContext "Shot" ["/proj/a"; "/proj/b"; "/proj/c"] "url" None)
    (JumpToFs.mkTrace [] [])
  = (Some (JumpToFs.CheckOutputRaised (JumpToFs.CalledProcessError 4 "")),
     JumpToFs.mkTrace [["xdg-open"; "/proj/a"]; ["xdg-open"; "/proj/b"]]
       [["xdg-open"; "/proj/a"]]).
Proof.
  cbv zeta.
  apply (jump_to_fs_stops_at_first_failure JumpToFs.linux _
           (mkContext "Shot" ["/proj/a"; "/proj/b"; "/proj/c"] "url" None)
           (JumpToFs.mkTrace [] []) ["/proj/a"] ["/proj/c"] "/proj/b"
           ["xdg-open"; "/proj/b"] (JumpToFs.CalledProcessError 4 "")).
  - reflexivity.
  - intros loc' args' Hin Hargs. apply list_elem_of_singleton in Hin.
    subst loc'. cbn in Hargs. injection Hargs as <-. exists "". reflexivity.
  - reflexivity.
  - reflexivity.
Defined.

(** ** The log messages shown in Gaffer *)

(** X17: [_emit_log_message] hands a record to [IECore.Log] at most
    once.  A record below [INFO] is dropped unless the environment
    variable TK_DEBUG is "1", and a record at [INFO] or above is never
    dropped.  The message is logged as a debug message exactly when the
    record is below [INFO], which is also when its text carries the
    prefix "Debug: "; it is logged as an error exactly when the record is
    at [ERROR] or above, and only then is it also printed. *)
Theorem emit_log_message_routing (tk_debug : option string) (t : string)
    (record : Logging.LogRecord) (o : Logging.Out) :
  let o' := Logging._emit_log_message tk_debug t record o in
  let below_info := (Logging.levelno record <? Logging.INFO)%nat in
  let shown := negb below_info || bool_decide (tk_debug = Some "1") in
  let is_error := (Logging.ERROR <=? Logging.levelno record)%nat in
  exists lvl kind,
    let text :=
      Logging.headed t kind (Logging.format_record below_info record) in
    Logging.iecore o'
    = Logging.iecore o ++ (if shown then [(lvl, text)] else []) /\
    Logging.stdout o'
    = Logging.stdout o ++ (if is_error then [text] else []) /\
    (lvl = Logging.LogDebug <-> below_info = true) /\
    (lvl = Logging.LogError <-> is_error = true).
Proof.
  cbv zeta. unfold Logging._emit_log_message, Logging.ERROR, Logging.WARNING,
    Logging.INFO.
  destruct (40 <=? Logging.levelno record)%nat eqn:He.
  { apply Nat.leb_le in He.
    assert (Hb : (Logging.levelno record <? 20)%nat = false)
      by (apply Nat.ltb_ge; lia).
    rewrite Hb. exists Logging.LogError, "Error". cbn.
    repeat split; intros; congruence. }
  destruct (30 <=? Logging.levelno record)%nat eqn:Hw.
  { apply Nat.leb_le in Hw.
    assert (Hb : (Logging.levelno record <? 20)%nat = false)
      by (apply Nat.ltb_ge; lia).
    rewrite Hb. exists Logging.LogWarning, "Warning". cbn.
    rewrite app_nil_r. repeat split; intros; congruence. }
  destruct (20 <=? Logging.levelno record)%nat eqn:Hi.
  { apply Nat.leb_le in Hi.
    assert (Hb : (Logging.levelno record <? 20)%nat = false)
      by (apply Nat.ltb_ge; lia).
    rewrite Hb. exists Logging.LogInfo, "Information". cbn.
    rewrite app_nil_r. repeat split; intros; congruence. }
  apply Nat.leb_gt in Hi.
  assert (Hb : (Logging.levelno record <? 20)%nat = true)
    by (apply Nat.ltb_lt; lia).
  rewrite Hb. exists Logging.LogDebug, "Debug". unfold Logging.display_debug.
  cbn. destruct (bool_decide (tk_debug = Some "1")); cbn;
    rewrite ?app_nil_r; repeat split; intros; congruence.
Qed.

(** ** Closing the windows of the engine *)

Lemma for_each_returns {S A} (I : S -> Prop) (l : list A)
    (body : A -> M S unit) :
  (forall a s, I s -> fst (body a s) = Ok tt /\ I (snd (body a s))) ->
  forall s, I s ->
    fst (for_each l body s) = Ok tt /\ I (snd (for_each l body s)).
Proof.
  intros Hbody. induction l as [|a l IH]; intros s Hs; [cbn; auto|].
  cbn [for_each]. unfold bind. destruct (Hbody a s Hs) as [Hok Hi].
  destruct (body a s) as [[[]|x] s']; cbn in *; [|discriminate].
  apply IH, Hi.
Qed.



(** ** After a change of context *)

(** X19: [post_context_change] does nothing when the setting
    [automatic_context_switch] is off or the two contexts are equal.
    Otherwise, when the script has a menu bar, dropping the generator
    first makes no difference: the call does exactly what
    [create_shotgun_menu()] does on the engine as it was, which builds
    with a generator of its own.  When there is no menu bar the engine is
    left without a generator, so that the menu of the old context is gone
    until the retry timer, armed by the same call, has rebuilt it. *)
Theorem post_context_change_rebuild (old_context new_context : Context)
    (e : Engine) :
  post_context_change old_context new_context e
  = if automatic_context_switch e
       && bool_decide (old_context <> new_context)
    then
      if can_create_menu (_script e)
      then (create_shotgun_menu false ;; ret tt) e
      else (Ok tt,
            add_single_shot 200 CreateShotgunMenu
              (add_log (LogDebug "Waiting for menu to be created...")
                 (set_menu_generator None e)))
    else (Ok tt, e).
Proof.
  unfold post_context_change. unfold bind at 1, gets at 1.
  destruct (automatic_context_switch e); [|reflexivity]. cbn [andb].
  destruct (bool_decide (old_context <> new_context)); [|reflexivity].
  unfold bind at 1, modify at 1.
  unfold create_shotgun_menu, has_ui, is_batch_mode. cbn [negb].
  unfold bind, gets, logger_debug, modify, with_menu_generator, ret.
  cbn -[create_menu].
  destruct (can_create_menu (_script e)); reflexivity.
Qed.
